(** * bioc-converter: offset-consistent assembly and annotation projection

    A shallow embedding of the pure core of the [bioc_converter] package
    (loader.py, utils.py, sentence.py, sections.py, metadata.py,
    converter.py, processor.py) together with the properties of its
    specification.

    Conventions of the embedding
    - Python [int] is [Z]; [len] is [Z.of_nat (length _)].
    - Document text (a Python [str] that is sliced and measured) is a list
      of characters; identifiers, labels and file names are [string]s.
      Characters are [ascii]: case folding and the character classes of the
      regular expressions are the ASCII ones.
    - A [dict] read with [.get] is a record of [option] fields ([None] = key
      absent) or a [gmap]; a [dict] whose insertion order is observable is an
      association list.
    - [print] output is not part of the model. *)

From Stdlib Require Import ZArith List String Ascii Bool Lia Sorted.
From stdpp Require Import base option list strings pretty gmap.

Local Open Scope Z_scope.

(** ** Python built-ins used by the package *)

Module Py.

Section Sorted.
Context {A : Type} (key : A -> Z).

(** Insertion in front of the first element whose key is not smaller. *)
Fixpoint insert_by (x : A) (l : list A) : list A :=
  match l with
  | [] => [x]
  | y :: l' => if key x <=? key y then x :: y :: l' else y :: insert_by x l'
  end.

(** [sorted(l, key=key)]. Python guarantees that [sorted] is stable; the
    stable insertion sort below is one such sort, and
    [stable_sort_unique] shows that the result does not depend on that
    choice. *)
Definition sorted (l : list A) : list A := foldr insert_by [] l.
End Sorted.

(** [len(s)] *)
Definition len {A} (s : list A) : Z := Z.of_nat (length s).

(** Normalisation of a slice bound against a sequence of length [n]:
    negative bounds count from the end, and every bound is clipped. *)
Definition slice_bound (n i : Z) : Z :=
  if i <? 0 then Z.max 0 (n + i) else Z.min i n.

(** [s[start:stop]] *)
Definition slice {A} (s : list A) (start stop : Z) : list A :=
  let lo := slice_bound (len s) start in
  let hi := slice_bound (len s) stop in
  take (Z.to_nat (hi - lo)) (drop (Z.to_nat lo) s).

(** [c * n] for a one-character string [c]: empty when [n <= 0]. *)
Definition str_mul (c : ascii) (n : Z) : list ascii := replicate (Z.to_nat n) c.

(** [x or d] on strings: the empty string is falsy. *)
Definition str_or (x : option string) (d : option string) : option string :=
  match x with
  | Some s => if decide (s = EmptyString) then d else Some s
  | None => d
  end.

(** [x or 0] / [x or d] on an optional integer: [None] and [0] are falsy. *)
Definition int_or (x : option Z) (d : Z) : Z :=
  match x with
  | Some v => if v =? 0 then d else v
  | None => d
  end.

(** [enumerate(l)], with the index as a Python integer. *)
Fixpoint enumerate_from {A} (i : Z) (l : list A) : list (Z * A) :=
  match l with
  | [] => []
  | x :: l' => (i, x) :: enumerate_from (i + 1) l'
  end.

Definition enumerate {A} (l : list A) : list (Z * A) := enumerate_from 0 l.

Definition is_lower (c : ascii) : bool :=
  (97 <=? Z.of_nat (nat_of_ascii c)) && (Z.of_nat (nat_of_ascii c) <=? 122).

Definition is_upper (c : ascii) : bool :=
  (65 <=? Z.of_nat (nat_of_ascii c)) && (Z.of_nat (nat_of_ascii c) <=? 90).

Definition is_digit (c : ascii) : bool :=
  (48 <=? Z.of_nat (nat_of_ascii c)) && (Z.of_nat (nat_of_ascii c) <=? 57).

Definition upper_char (c : ascii) : ascii :=
  if is_lower c then ascii_of_nat (nat_of_ascii c - 32) else c.

Definition lower_char (c : ascii) : ascii :=
  if is_upper c then ascii_of_nat (nat_of_ascii c + 32) else c.

(** Characters removed by [str.strip()], within ASCII: tab to carriage
    return, the separators 28 to 31, and the space. *)
Definition is_space (c : ascii) : bool :=
  let n := Z.of_nat (nat_of_ascii c) in
  ((9 <=? n) && (n <=? 13)) || ((28 <=? n) && (n <=? 32)).

(** [s.upper()] and [s.lower()] *)
Definition upper (s : string) : string :=
  string_of_list_ascii (upper_char <$> list_ascii_of_string s).

Definition lower (s : string) : string :=
  string_of_list_ascii (lower_char <$> list_ascii_of_string s).

(** [s.endswith(suffix)] *)
Definition endswith (suffix s : list ascii) : bool :=
  bool_decide (drop (length s - length suffix) s = suffix).

(** The index of the last occurrence of [c] in [s], counting from [i]. *)
Fixpoint rfind_from (i : nat) (c : ascii) (s : list ascii) : option nat :=
  match s with
  | [] => None
  | x :: s' =>
      match rfind_from (S i) c s' with
      | Some j => Some j
      | None => if bool_decide (x = c) then Some i else None
      end
  end.

(** [s.rsplit(sep, 1)[0]] for a one-character separator. *)
Definition rsplit1_head (sep : ascii) (s : list ascii) : list ascii :=
  match rfind_from 0 sep s with
  | Some i => take i s
  | None => s
  end.

(** [PurePath(name).stem] for a file name without directory: the name up to
    its last dot, unless that dot is the first or the last character. *)
Definition stem (name : list ascii) : list ascii :=
  match rfind_from 0 "." name with
  | Some i => if (0 <? i)%nat && (i <? length name - 1)%nat then take i name else name
  | None => name
  end.

End Py.

(** ** models.py and the dictionaries passed between the modules *)

Module Models.

(** The ["span"] entry of an annotation dictionary. *)
Record SpanInfo := {
  si_begin : option Z;
  si_start : option Z;
  si_end : option Z;
  si_length : option Z;
}.

(** An annotation dictionary, as [load_bioc_document] builds it and as
    [format_annotations] reads it. *)
Record AnnotationDict := {
  ad_span : option SpanInfo;
  ad_obj : option string;
  ad_label : option string;
  ad_type : option string;
  ad_text : option string;
  ad_id : option string;
}.

(** [Annotation]: offsets relative to one sentence. *)
Record Annotation := {
  begin_ : Z;
  end_ : Z;
  label : string;
  text : option (list ascii);
}.

(** [SentenceAnnotation] *)
Record SentenceAnnotation := {
  sa_text : list ascii;
  sa_annotations : list Annotation;
  sa_sentence_id : option string;
  sa_abs_start : option Z;
  sa_abs_end : option Z;
}.

End Models.

(** ** utils.py *)

Module Utils.

(** A span tuple [(start, end, label)]. *)
Definition Span : Type := Z * Z * string.
Definition span_0 (s : Span) : Z := s.1.1.
Definition span_1 (s : Span) : Z := s.1.2.
Definition span_2 (s : Span) : string := s.2.

(** Body of the [for span in sorted_spans] loop; [non_overlapping_spans[-1]]
    is the last element of the accumulator. *)
Definition keep_span (non_overlapping_spans : list Span) (span : Span) : list Span :=
  match last non_overlapping_spans with
  | None => non_overlapping_spans ++ [span]
  | Some prev_span =>
      if span_0 span >=? span_1 prev_span
      then non_overlapping_spans ++ [span]
      else non_overlapping_spans
  end.

Definition remove_overlapping_spans (spans : list Span) : list Span :=
  match spans with
  | [] => []
  | _ =>
      let sorted_spans := Py.sorted span_0 spans in
      fold_left keep_span sorted_spans []
  end.

(** [span_info.get(k, d)] *)
Definition get_or {A} (x : option A) (d : A) : A := default d x.

Definition annotation_span (annot : Models.AnnotationDict) : Span :=
  let span_info :=
    get_or (Models.ad_span annot)
           {| Models.si_begin := None; Models.si_start := None;
              Models.si_end := None; Models.si_length := None |} in
  let begin := get_or (Models.si_begin span_info) (get_or (Models.si_start span_info) 0) in
  let end_ :=
    get_or (Models.si_end span_info)
           (get_or (Models.si_begin span_info) 0 + get_or (Models.si_length span_info) 0) in
  let label :=
    get_or (Models.ad_obj annot)
           (get_or (Models.ad_label annot) (get_or (Models.ad_type annot) "ENTITY"%string)) in
  (begin, end_, label).

(** [format_annotations(text, annotations)], second component. *)
Definition format_annotations (annotations : list Models.AnnotationDict) : list Span :=
  match annotations with
  | [] => []
  | _ => remove_overlapping_spans (annotation_span <$> annotations)
  end.

End Utils.

(** ** loader.py *)

Module Loader.
Import Models.

(** The value of [load_section_config]. *)
Record SectionConfig := {
  allowed_sections : list string;
  case_sensitive : bool;
}.

Definition truthy (s : option string) : bool :=
  match s with
  | Some s => negb (bool_decide (s = EmptyString))
  | None => false
  end.

Definition is_section_allowed
    (section_type : option string) (section_config : option SectionConfig) : bool :=
  match section_config with
  | None => true
  | Some cfg =>
      match section_type with
      | Some st =>
          if bool_decide (st = EmptyString) then false
          else if case_sensitive cfg
               then bool_decide (st ∈ allowed_sections cfg)
               else bool_decide (Py.upper st ∈ allowed_sections cfg)
      | None => false
      end
  end.

Definition normalize_section_name
    (section_type : option string) (section_config : option SectionConfig) : string :=
  match section_type with
  | Some st =>
      if bool_decide (st = EmptyString) then "UNLABELED"%string
      else match section_config with
           | None => st
           | Some _ =>
               if is_section_allowed section_type section_config then st
               else "OTHER"%string
           end
  | None => "UNLABELED"%string
  end.

(** A passage metadata dictionary (an element of [metadata_sections]). *)
Record PassageMeta := {
  pm_section_type : option string;
  pm_passage_index : Z;
  pm_start : Z;
  pm_end : Z;
  pm_length : Z;
  pm_passage_label : option string;
}.

(** A merged section dictionary. *)
Record SectionRange := {
  section_type : option string;
  start : Z;
  end_ : Z;
  passage_indices : list Z;
}.

Definition new_section (passage : PassageMeta) : SectionRange :=
  {| section_type := pm_section_type passage;
     start := pm_start passage;
     end_ := pm_end passage;
     passage_indices := [pm_passage_index passage] |}.

Definition extend_section (current_section : SectionRange) (passage : PassageMeta)
    : SectionRange :=
  {| section_type := section_type current_section;
     start := start current_section;
     end_ := pm_end passage;
     passage_indices := passage_indices current_section ++ [pm_passage_index passage] |}.

(** One iteration of the scan; the state is
    [(merged_sections, current_section)]. *)
Definition merge_step
    (st : list SectionRange * option SectionRange) (passage : PassageMeta)
    : list SectionRange * option SectionRange :=
  let '(merged_sections, current_section) := st in
  match current_section with
  | None => (merged_sections, Some (new_section passage))
  | Some cur =>
      if decide (section_type cur = pm_section_type passage)
      then (merged_sections, Some (extend_section cur passage))
      else (merged_sections ++ [cur], Some (new_section passage))
  end.

Definition merge_consecutive_sections (passages_metadata : list PassageMeta)
    : list SectionRange :=
  match passages_metadata with
  | [] => []
  | _ =>
      let '(merged_sections, current_section) :=
        fold_left merge_step passages_metadata ([], None) in
      match current_section with
      | Some cur => merged_sections ++ [cur]
      | None => merged_sections
      end
  end.

(** BioC objects, as the [bioc] package hands them over. *)
Record BioCLocation := { loc_offset : Z; loc_length : Z }.

Record BioCAnnotation := {
  ann_id : option string;
  ann_infons : gmap string string;
  ann_locations : list BioCLocation;
  ann_text : option string;
}.

Record BioCPassage := {
  psg_infons : gmap string string;
  psg_offset : option Z;
  psg_text : option (list ascii);
  psg_annotations : list BioCAnnotation;
}.

(** [infons.get(k1) or infons.get(k2) or infons.get(k3)]: the first truthy
    value, else the last operand. *)
Definition first_truthy (infons : gmap string string) (k1 k2 k3 : string)
    : option string :=
  Py.str_or (infons !! k1) (Py.str_or (infons !! k2) (infons !! k3)).

(** The label of a BioC annotation: ["ENTITY"] unless its infons name one. *)
Definition annotation_type (bioc_ann : BioCAnnotation) : string :=
  if decide (ann_infons bioc_ann = ∅) then "ENTITY"%string
  else default "ENTITY"%string
         (Py.str_or (first_truthy (ann_infons bioc_ann) "type" "identifier" "label")
                    (Some "ENTITY"%string)).

Definition location_annotation (bioc_ann : BioCAnnotation) (location : BioCLocation)
    : AnnotationDict :=
  {| ad_span := Some {| si_begin := Some (loc_offset location);
                        si_start := None;
                        si_end := Some (loc_offset location + loc_length location);
                        si_length := None |};
     ad_obj := Some (annotation_type bioc_ann);
     ad_label := None;
     ad_type := None;
     ad_text := Some (default EmptyString (Py.str_or (ann_text bioc_ann) None));
     ad_id := ann_id bioc_ann |}.

(** [bioc_passage.text or ""] *)
Definition passage_text_of (bioc_passage : BioCPassage) : list ascii :=
  default [] (psg_text bioc_passage).

(** The variables of the passage loop of [load_bioc_document]. *)
Record LoopState := {
  full_text_parts : list (list ascii);
  annotations : list AnnotationDict;
  current_length : Z;
  metadata_sections : list PassageMeta;
}.

Definition initial_state : LoopState :=
  {| full_text_parts := []; annotations := []; current_length := 0;
     metadata_sections := [] |}.

(** One iteration of [for passage_idx, bioc_passage in enumerate(sorted_passages)].
    The assignment [passage_offset = current_length] of the overlap branch
    has no later reader; the clamping is the choice of [passage_start]. *)
Definition passage_step (section_config : option SectionConfig)
    (st : LoopState) (ip : Z * BioCPassage) : LoopState :=
  let '(passage_idx, bioc_passage) := ip in
  let passage_text := passage_text_of bioc_passage in
  let passage_offset := default (current_length st) (psg_offset bioc_passage) in
  let '(parts1, length1) :=
    if passage_offset >? current_length st
    then
      let padding_length := passage_offset - current_length st in
      (full_text_parts st ++ [Py.str_mul " " padding_length],
       current_length st + padding_length)
    else (full_text_parts st, current_length st) in
  let passage_start := length1 in
  let '(parts2, length2) :=
    match passage_text with
    | [] => (parts1, length1)
    | _ => (parts1 ++ [passage_text], length1 + Py.len passage_text)
    end in
  let passage_end := length2 in
  let passage_infons := psg_infons bioc_passage in
  let section_type := first_truthy passage_infons "section_type" "section" "type" in
  let normalized_section := normalize_section_name section_type section_config in
  let metadata1 :=
    if bool_decide (normalized_section = EmptyString) then metadata_sections st
    else metadata_sections st ++
         [{| pm_section_type := Some normalized_section;
             pm_passage_index := passage_idx;
             pm_start := passage_start;
             pm_end := passage_end;
             pm_length := passage_end - passage_start;
             pm_passage_label := passage_infons !! "type"%string |}] in
  let annotations1 :=
    annotations st ++
    (bioc_ann ← psg_annotations bioc_passage;
     location_annotation bioc_ann <$> ann_locations bioc_ann) in
  {| full_text_parts := parts2; annotations := annotations1;
     current_length := length2; metadata_sections := metadata1 |}.

(** [sorted(target_doc.passages, key=lambda p: p.offset if p.offset is not None else 0)] *)
Definition offset_key (p : BioCPassage) : Z := default 0 (psg_offset p).

Definition sorted_passages (passages : list BioCPassage) : list BioCPassage :=
  Py.sorted offset_key passages.

(** The passage loop run over an already ordered passage list. *)
Definition assemble (section_config : option SectionConfig)
    (ordered : list BioCPassage) : LoopState :=
  fold_left (passage_step section_config) (Py.enumerate ordered) initial_state.

(** ["".join(full_text_parts)] *)
Definition joined_text (st : LoopState) : list ascii := concat (full_text_parts st).

(** The part of [DocumentData] that the conversion consumes: the text, the
    annotation dictionaries, and the ["passages"] and ["sections"] entries
    of [metadata_source]. *)
Record DocumentData := {
  doc_text : list ascii;
  doc_annotations : list AnnotationDict;
  doc_passages : list PassageMeta;
  doc_sections : list SectionRange;
}.

(** [load_bioc_document], from the passages of the target document on. *)
Definition load_bioc_document (passages : list BioCPassage)
    (section_config : option SectionConfig) : DocumentData :=
  let st := assemble section_config (sorted_passages passages) in
  {| doc_text := joined_text st;
     doc_annotations := annotations st;
     doc_passages := metadata_sections st;
     doc_sections := merge_consecutive_sections (metadata_sections st) |}.

End Loader.

(** Auxiliary notions for stating the properties of the assembler. *)

Module LoaderSpec.
Import Loader.

(** The padding that one iteration puts in front of a passage: the spaces
    up to its declared offset, nothing when the offset is missing or not
    beyond the cursor. *)
Definition padding_of (st : LoopState) (p : BioCPassage) : list ascii :=
  Py.str_mul " " (default (current_length st) (psg_offset p) - current_length st).

(** The end of the last recorded passage range, [0] before the first. *)
Definition last_end (metadata : list PassageMeta) : Z :=
  default 0 (pm_end <$> last metadata).

(** A passage that carries only a text and a declared offset. *)
Definition passage_of (txt : string) (offset : option Z) : BioCPassage :=
  {| psg_infons := ∅; psg_offset := offset;
     psg_text := Some (list_ascii_of_string txt); psg_annotations := [] |}.

(** The reading of "continue from the current cursor" under which a passage
    without declared offset stays behind the passages that precede it in
    input order: its text sits where the assembly of those passages ended. *)
Definition continues_after_input_predecessors
    (section_config : option SectionConfig) (passages : list BioCPassage) : Prop :=
  forall pre p post,
    passages = pre ++ p :: post -> psg_offset p = None ->
    let cursor := Py.len (doc_text (load_bioc_document pre section_config)) in
    Py.slice (doc_text (load_bioc_document passages section_config))
             cursor (cursor + Py.len (passage_text_of p))
    = passage_text_of p.

(** What holds of the loop variables after every iteration: the cursor is
    the length of the text assembled so far and the end of the last
    recorded range, and every iteration recorded one range. *)
Record loop_inv (n : nat) (st : LoopState) : Prop := {
  inv_cursor : current_length st = Py.len (joined_text st);
  inv_last : last_end (metadata_sections st) = current_length st;
  inv_count : length (metadata_sections st) = n;
}.

(** The [(start, end)] pairs of the recorded passage ranges. *)
Definition passage_ranges (metadata : list PassageMeta) : list (Z * Z) :=
  (fun m => (pm_start m, pm_end m)) <$> metadata.

End LoaderSpec.

(** ** The sentence service (spaCy): what the package reads of a sentence *)

Module Spacy.

(** A sentence span of a processed [Doc]: [sent.text], [sent.start_char]
    and [sent.end_char]. *)
Record Sent := {
  sent_text : list ascii;
  start_char : Z;
  end_char : Z;
}.

(** spaCy cuts [sent.text] out of the document text between [start_char]
    and [end_char]. *)
Definition well_formed (sent : Sent) : Prop :=
  Py.len (sent_text sent) = end_char sent - start_char sent.

End Spacy.

(** ** sentence.py *)

Module Sentence.
Import Models Spacy Utils.

(** The body of [for ann_start, ann_end, label in entity_spans]: the
    annotation of the sentence, when the span overlaps it. *)
Definition sentence_annotation (sent : Sent) (span : Span) : option Annotation :=
  let '(ann_start, ann_end, label) := span in
  let sent_start_char := start_char sent in
  let sent_end_char := end_char sent in
  if (ann_start <? sent_end_char) && (ann_end >? sent_start_char) then
    let rel_start := Z.max 0 (ann_start - sent_start_char) in
    let rel_end := Z.min (Py.len (sent_text sent)) (ann_end - sent_start_char) in
    Some {| begin_ := rel_start;
            end_ := rel_end;
            label := label;
            text := if rel_start <? Py.len (sent_text sent)
                    then Some (Py.slice (sent_text sent) rel_start rel_end)
                    else None |}
  else None.

(** [create_sentence_annotations(text, annotations, nlp, doc)]; [sents] are
    the sentences [doc.sents] of the processed text. *)
Definition create_sentence_annotations
    (annotations : list AnnotationDict) (sents : list Sent) : list SentenceAnnotation :=
  let entity_spans := format_annotations annotations in
  (fun '(sent_idx, sent) =>
     {| sa_text := sent_text sent;
        sa_annotations := omap (sentence_annotation sent) entity_spans;
        sa_sentence_id := Some ("sentence_" +:+ pretty sent_idx);
        sa_abs_start := Some (start_char sent);
        sa_abs_end := Some (end_char sent) |})
  <$> Py.enumerate sents.

End Sentence.

(** ** sections.py *)

Module Sections.
Import Models Spacy Loader.

(** An annotation dictionary of a processed sentence. *)
Record SentenceAnn := {
  san_start : Z;
  san_end : Z;
  san_label : string;
  san_text : option string;
}.

(** A processed sentence dictionary. *)
Record SentenceData := {
  sd_text : list ascii;
  sd_abs_start : Z;
  sd_abs_end : Z;
  sd_annotations : list SentenceAnn;
}.

(** The body of [for ann in passage_annotations]. *)
Definition passage_sentence_annotation
    (sent_text : list ascii) (abs_sent_start abs_sent_end : Z) (ann : BioCAnnotation)
    : option SentenceAnn :=
  match ann_locations ann with
  | [] => None
  | loc :: _ =>
      let ann_abs_start := loc_offset loc in
      let ann_abs_end := loc_offset loc + loc_length loc in
      if (ann_abs_start <? abs_sent_end) && (ann_abs_end >? abs_sent_start) then
        let rel_start := Z.max 0 (ann_abs_start - abs_sent_start) in
        let rel_end := Z.min (Py.len sent_text) (ann_abs_end - abs_sent_start) in
        Some {| san_start := rel_start;
                san_end := rel_end;
                san_label := annotation_type ann;
                san_text := ann_text ann |}
      else None
  end.

(** [process_passage_to_sentences]; [sents] are the sentences of
    [nlp(passage_text)]. *)
Definition process_passage_to_sentences
    (passage_text : list ascii) (passage_annotations : list BioCAnnotation)
    (passage_offset : Z) (sents : list Sent) : list SentenceData :=
  if forallb Py.is_space passage_text then []
  else
    (fun sent =>
       let abs_sent_start := passage_offset + start_char sent in
       let abs_sent_end := passage_offset + end_char sent in
       {| sd_text := sent_text sent;
          sd_abs_start := abs_sent_start;
          sd_abs_end := abs_sent_end;
          sd_annotations :=
            omap (passage_sentence_annotation (sent_text sent)
                    abs_sent_start abs_sent_end)
                 passage_annotations |})
    <$> sents.

End Sections.

(** ** metadata.py *)

Module Metadata.
Import Models.

(** A section dictionary as [group_sentence_annotations_by_section] reads
    it, with [.get]: a field is [None] when the key is absent. *)
Record SectionInfo := {
  si_section_type : option string;
  si_start : option Z;
  si_end : option Z;
}.

(** The section dictionaries that [merge_consecutive_sections] builds. *)
Definition of_section_range (s : Loader.SectionRange) : SectionInfo :=
  {| si_section_type := Loader.section_type s;
     si_start := Some (Loader.start s);
     si_end := Some (Loader.end_ s) |}.

(** [lambda section: section.get("start", 0)] *)
Definition start_key (section : SectionInfo) : Z := default 0 (si_start section).

(** The closure [find_section_for_offset] over [sorted_sections]. *)
Fixpoint find_section_for_offset (sorted_sections : list SectionInfo) (offset : Z)
    : string :=
  match sorted_sections with
  | [] => "UNLABELED"
  | section :: rest =>
      match si_start section, si_end section with
      | Some start, Some end_ =>
          if (start <=? offset) && (offset <? end_)
          then default "UNLABELED"%string (Py.str_or (si_section_type section) None)
          else find_section_for_offset rest offset
      | _, _ => find_section_for_offset rest offset
      end
  end.

(** The section name computed for one sentence in the grouping loop. *)
Definition section_name_of (sorted_sections : list SectionInfo)
    (sent_ann : SentenceAnnotation) : string :=
  let abs_start := Py.int_or (sa_abs_start sent_ann) 0 in
  let abs_end := Py.int_or (sa_abs_end sent_ann) abs_start in
  let section_name := find_section_for_offset sorted_sections abs_start in
  let section_name :=
    if String.eqb section_name "UNLABELED" then
      let midpoint := (abs_start + abs_end) `div` 2 in
      find_section_for_offset sorted_sections midpoint
    else section_name in
  let section_name :=
    if String.eqb section_name "UNLABELED" && (abs_end >? abs_start) then
      find_section_for_offset sorted_sections (abs_end - 1)
    else section_name in
  section_name.

(** [grouped.setdefault(key, []).append(x)] on an insertion-ordered dict. *)
Fixpoint setdefault_append {A} (grouped : list (string * list A)) (key : string) (x : A)
    : list (string * list A) :=
  match grouped with
  | [] => [(key, [x])]
  | (k, xs) :: rest =>
      if String.eqb k key then (k, xs ++ [x]) :: rest
      else (k, xs) :: setdefault_append rest key x
  end.

Definition group_sentence_annotations_by_section
    (sentence_annotations : list SentenceAnnotation)
    (sections_info : option (list SectionInfo))
    : list (string * list SentenceAnnotation) :=
  let sections_info := default [] sections_info in
  let sorted_sections := Py.sorted start_key sections_info in
  fold_left
    (fun grouped sent_ann =>
       setdefault_append grouped (section_name_of sorted_sections sent_ann) sent_ann)
    sentence_annotations [].

End Metadata.

(** ** The section assigner as the specification words it *)

Module AssignerSpec.
Import Metadata.

(** [section.start <= offset < section.end] *)
Definition contains (section : SectionInfo) (offset : Z) : bool :=
  match si_start section, si_end section with
  | Some start, Some end_ => (start <=? offset) && (offset <? end_)
  | _, _ => false
  end.

(** The label reported for a section:
    [section.get("section_type") or "UNLABELED"]. *)
Definition reported_label (section : SectionInfo) : string :=
  default "UNLABELED"%string (Py.str_or (si_section_type section) None).

(** Step 1 of the algorithm: the first range, in list order, that contains
    the start of the sentence. *)
Definition first_containing (sections : list SectionInfo) (offset : Z)
    : option SectionInfo :=
  head (filter (fun s => contains s offset = true) sections).

End AssignerSpec.

(** ** processor.py *)

Module Processor.

(** An Odinson document, as far as the driver looks at it: its JSON
    serialization, [None] when serializing raises. *)
Record OdinsonDoc := {
  od_json : option string;
}.

(** [ProcessedDocument]; the [sections] dictionary keeps insertion order. *)
Record ProcessedDocument := {
  doc_id : string;
  sections : option (list (string * OdinsonDoc));
  combined : option OdinsonDoc;
}.

(** An instance of [Exception]; these are what [except Exception] catches. *)
Inductive Exception :=
  | ValueError (msg : string)
  | OtherError (msg : string).

(** What a file of the output directory holds. [Partial] is what a write
    that raised after the file was opened has left: the file is there,
    empty or with a part of the output; which part is not modelled. *)
Inductive FileContent :=
  | JsonFile (json_output : string)
  | Archive (members : list string)
  | Partial.

(** The character class [a-z0-9_-]. *)
Definition safe_char (c : ascii) : bool :=
  Py.is_lower c || Py.is_digit c
  || bool_decide (c = "_"%char) || bool_decide (c = "-"%char).

(** [re.sub(r"[^a-z0-9_-]+", "_", s)]: each maximal run of characters
    outside the class becomes one underscore; [in_run] tells that the
    previous character was outside the class. *)
Fixpoint sub_unsafe (in_run : bool) (s : list ascii) : list ascii :=
  match s with
  | [] => []
  | c :: s' =>
      if safe_char c then c :: sub_unsafe false s'
      else if in_run then sub_unsafe true s'
      else "_"%char :: sub_unsafe true s'
  end.

Fixpoint lstrip_underscores (s : list ascii) : list ascii :=
  match s with
  | c :: s' => if bool_decide (c = "_"%char) then lstrip_underscores s' else s
  | [] => []
  end.

(** [s.strip("_")] *)
Definition strip_underscores (s : list ascii) : list ascii :=
  reverse (lstrip_underscores (reverse (lstrip_underscores s))).

Definition _sanitize_filename (name : string) : string :=
  let safe_name :=
    string_of_list_ascii
      (strip_underscores (sub_unsafe false (list_ascii_of_string (Py.lower name)))) in
  if bool_decide (safe_name = EmptyString) then "unknown"%string else safe_name.

(** The name of the file that [_save_section_file] writes. *)
Definition section_filename (doc_id section_name : string) : string :=
  _sanitize_filename doc_id +:+ "_" +:+ _sanitize_filename section_name +:+ ".json".

Definition archive_name : string := "bioc_collection.tar.gz".

(** [Path(name).suffix == ".json"] for a file name without directory. *)
Definition has_json_suffix (name : string) : bool :=
  Py.endswith (list_ascii_of_string ".json") (list_ascii_of_string name)
  && negb (bool_decide (name = ".json"%string)).

Section Driver.
(** [self._document_ids], the two conversions that [process] delegates to,
    and what writing a file of the output directory does: [can_write] tells
    whether the file can be opened and written, and [truncates] whether a
    write that raises does so after it has opened the file, which
    [open(path, "w")] and [tarfile.open(path, "w:gz")] create or empty. *)
Variable document_ids : list string.
Variable process_bioc_by_sections : string -> Exception + list (string * OdinsonDoc).
Variable convert_bioc_to_odinson : string -> Exception + OdinsonDoc.
Variable can_write : string -> bool.
Variable truncates : string -> bool.

Definition process (document_id : string) (by_sections : bool)
    : Exception + ProcessedDocument :=
  if bool_decide (document_id ∈ document_ids) then
    if by_sections then
      match process_bioc_by_sections document_id with
      | inl e => inl e
      | inr s => inr {| doc_id := document_id; sections := Some s; combined := None |}
      end
    else
      match convert_bioc_to_odinson document_id with
      | inl e => inl e
      | inr c => inr {| doc_id := document_id; sections := None; combined := Some c |}
      end
  else inl (ValueError "Document ID not found in collection").

(** The document identifier that the resume scan reads off one file name of
    the output directory. *)
Definition existing_doc_id (name : string) : option string :=
  if Py.endswith (list_ascii_of_string ".json") (list_ascii_of_string name) then
    let filename := Py.stem (list_ascii_of_string name) in
    let potential_doc_id := string_of_list_ascii (Py.rsplit1_head "_" filename) in
    head (filter (fun doc_id =>
                    potential_doc_id = _sanitize_filename doc_id
                    \/ potential_doc_id = doc_id)
                 document_ids)
  else None.

(** [_get_existing_doc_ids(output_dir)], on the file names of the
    directory. *)
Definition _get_existing_doc_ids (names : list string) : gset string :=
  list_to_set (omap existing_doc_id names).

(** A call of the progress callback: [(current, total, document_id, status)]. *)
Definition Call : Type := Z * Z * string * string.

(** A progress callback: given the calls made before and the present call,
    the exception that it raises, if any. *)
Definition Callback : Type := list Call -> Call -> option Exception.

(** What [process_and_save] works on: the files of the output directory,
    its local variables, and the calls made to the callback. *)
Record DriverState := {
  fs : gmap string FileContent;
  saved_files : list string;
  processed_count : Z;
  failed_count : Z;
  calls : list Call;
}.

(** Computations that update the state and return or raise; the state
    reached when an exception is raised is kept. *)
Definition M (A : Type) : Type := DriverState -> DriverState * (Exception + A).

Definition ret {A} (a : A) : M A := fun st => (st, inr a).

Definition bind {A B} (m : M A) (k : A -> M B) : M B :=
  fun st =>
    match m st with
    | (st', inl e) => (st', inl e)
    | (st', inr a) => k a st'
    end.

Definition raise {A} (e : Exception) : M A := fun st => (st, inl e).

Definition lift {A} (r : Exception + A) : M A := fun st => (st, r).

(** [try: body / except Exception as e: handler] *)
Definition try_except {A} (body : M A) (handler : Exception -> M A) : M A :=
  fun st =>
    match body st with
    | (st', inl e) => handler e st'
    | (st', inr a) => (st', inr a)
    end.

Definition get : M DriverState := fun st => (st, inr st).

Definition modify (f : DriverState -> DriverState) : M unit := fun st => (f st, inr tt).

Fixpoint for_each {A} (l : list A) (body : A -> M unit) : M unit :=
  match l with
  | [] => ret tt
  | x :: l' => bind (body x) (fun _ => for_each l' body)
  end.

Definition write_file (name : string) (content : FileContent) (st : DriverState)
    : DriverState :=
  {| fs := <[name := content]> (fs st); saved_files := saved_files st;
     processed_count := processed_count st; failed_count := failed_count st;
     calls := calls st |}.

Definition append_saved (file_path : string) (st : DriverState) : DriverState :=
  {| fs := fs st; saved_files := saved_files st ++ [file_path];
     processed_count := processed_count st; failed_count := failed_count st;
     calls := calls st |}.

Definition count_processed (st : DriverState) : DriverState :=
  {| fs := fs st; saved_files := saved_files st;
     processed_count := processed_count st + 1; failed_count := failed_count st;
     calls := calls st |}.

Definition count_failed (st : DriverState) : DriverState :=
  {| fs := fs st; saved_files := saved_files st;
     processed_count := processed_count st; failed_count := failed_count st + 1;
     calls := calls st |}.

Definition record_call (c : Call) (st : DriverState) : DriverState :=
  {| fs := fs st; saved_files := saved_files st;
     processed_count := processed_count st; failed_count := failed_count st;
     calls := calls st ++ [c] |}.

(** [_save_section_file]: the path of the written file, [None] when
    serializing or writing raised. Serializing comes before the file is
    opened; a write that raises after that leaves the opened file behind.
    Paths are given relative to the output directory. *)
Definition _save_section_file (odinson_doc : OdinsonDoc) (doc_id section_name : string)
    : M (option string) :=
  let filename := section_filename doc_id section_name in
  match od_json odinson_doc with
  | Some json_output =>
      if can_write filename
      then bind (modify (write_file filename (JsonFile json_output)))
                (fun _ => ret (Some filename))
      else if truncates filename
           then bind (modify (write_file filename Partial)) (fun _ => ret None)
           else ret None
  | None => ret None
  end.

Definition save_and_collect (odinson_doc : OdinsonDoc) (doc_id section_name : string)
    : M unit :=
  bind (_save_section_file odinson_doc doc_id section_name)
       (fun file_path =>
          match file_path with
          | Some p => modify (append_saved p)
          | None => ret tt
          end).

(** The saving of one result, right after its processing. *)
Definition save_result (doc_id : string) (result : ProcessedDocument) : M unit :=
  match sections result with
  | Some (s :: rest) =>
      for_each (s :: rest)
        (fun '(section_name, odinson_doc) =>
           save_and_collect odinson_doc doc_id section_name)
  | _ =>
      match combined result with
      | Some odinson_doc => save_and_collect odinson_doc doc_id "combined"
      | None => ret tt
      end
  end.

(** [if on_progress: on_progress(idx, total_to_process, doc_id, status)] *)
Definition notify (on_progress : option Callback) (c : Call) : M unit :=
  match on_progress with
  | Some callback =>
      fun st =>
        match callback (calls st) c with
        | Some e => (record_call c st, inl e)
        | None => (record_call c st, inr tt)
        end
  | None => ret tt
  end.

(** The body of [for idx, doc_id in enumerate(ids_to_process, start=1)]. *)
Definition process_one (by_sections : bool) (on_progress : option Callback)
    (total_to_process : Z) (item : Z * string) : M unit :=
  let '(idx, doc_id) := item in
  try_except
    (bind (lift (process doc_id by_sections)) (fun result =>
     bind (save_result doc_id result) (fun _ =>
     bind (modify count_processed) (fun _ =>
     notify on_progress (idx, total_to_process, doc_id, "processed"%string)))))
    (fun e =>
     bind (modify count_failed) (fun _ =>
     notify on_progress (idx, total_to_process, doc_id, "failed"%string))).

(** [document_ids if document_ids else self._document_ids] *)
Definition requested_ids (document_ids_arg : option (list string)) : list string :=
  match document_ids_arg with
  | Some (d :: l) => d :: l
  | _ => document_ids
  end.

(** [ids_to_process], after the resume filter. *)
Definition ids_to_process (resume : bool) (document_ids_arg : option (list string))
    (files : gmap string FileContent) : list string :=
  if resume then
    let existing_ids := _get_existing_doc_ids (elements (dom files)) in
    filter (fun doc_id => doc_id ∉ existing_ids) (requested_ids document_ids_arg)
  else requested_ids document_ids_arg.

(** [_create_archive], when [compress and saved_files]; an archive whose
    writing raises after it was opened stays behind, and is not reported. *)
Definition create_archive (compress : bool) : M unit :=
  bind get (fun st =>
    match saved_files st with
    | _ :: _ =>
        if compress && can_write archive_name then
          bind (modify (write_file archive_name
                          (Archive (filter (fun f => has_json_suffix f = true)
                                           (saved_files st)))))
               (fun _ => modify (append_saved archive_name))
        else if compress && truncates archive_name then
          modify (write_file archive_name Partial)
        else ret tt
    | [] => ret tt
    end).

Definition process_and_save_body (by_sections resume compress : bool)
    (on_progress : option Callback) (document_ids_arg : option (list string))
    : M (list string) :=
  match requested_ids document_ids_arg with
  | [] => ret []
  | _ =>
      bind get (fun st =>
      let ids := ids_to_process resume document_ids_arg (fs st) in
      let total_to_process := Py.len ids in
      bind (for_each (Py.enumerate_from 1 ids)
              (process_one by_sections on_progress total_to_process)) (fun _ =>
      bind (create_archive compress) (fun _ =>
      bind get (fun st' => ret (saved_files st')))))
  end.

(** [process_and_save] on an output directory holding [files]: the final
    state, and the returned list of saved paths or the exception that
    leaves the method. *)
Definition process_and_save (files : gmap string FileContent)
    (by_sections resume compress : bool)
    (on_progress : option Callback) (document_ids_arg : option (list string))
    : DriverState * (Exception + list string) :=
  process_and_save_body by_sections resume compress on_progress document_ids_arg
    {| fs := files; saved_files := []; processed_count := 0; failed_count := 0;
       calls := [] |}.

(** Notions for stating what the driver guarantees. *)

(** [st'] differs from [st] by the saved paths [files] at most, apart from
    the output directory. *)
Definition saves (st st' : DriverState) (files : list string) : Prop :=
  saved_files st' = saved_files st ++ files /\
  processed_count st' = processed_count st /\
  failed_count st' = failed_count st /\
  calls st' = calls st.

(** The calls that reach the callback, when there is one. *)
Definition notified (on_progress : option Callback) (cs : list Call) : list Call :=
  match on_progress with Some _ => cs | None => [] end.

(** The path under which one section of a result gets saved, if it does. *)
Definition saved_path (doc_id : string) (sec : string * OdinsonDoc) : option string :=
  match od_json sec.2 with
  | Some _ =>
      if can_write (section_filename doc_id sec.1)
      then Some (section_filename doc_id sec.1) else None
  | None => None
  end.

(** The files saved for one processed document. *)
Definition result_files (doc_id : string) (result : ProcessedDocument) : list string :=
  match sections result with
  | Some (s :: rest) => omap (saved_path doc_id) (s :: rest)
  | _ =>
      match combined result with
      | Some odinson_doc => omap (saved_path doc_id) [("combined"%string, odinson_doc)]
      | None => []
      end
  end.

(** Whether the conversion of a document raises. *)
Definition fails (by_sections : bool) (doc_id : string) : bool :=
  match process doc_id by_sections with
  | inl _ => true
  | inr _ => false
  end.

(** The files saved for a document: none when its conversion raises. *)
Definition document_files (by_sections : bool) (doc_id : string) : list string :=
  match process doc_id by_sections with
  | inl _ => []
  | inr result => result_files doc_id result
  end.

Definition status_of (by_sections : bool) (doc_id : string) : string :=
  if fails by_sections doc_id then "failed"%string else "processed"%string.

(** One callback call per document, in order, numbered from [i]. *)
Definition expected_calls (by_sections : bool) (total : Z) (i : Z) (ids : list string)
    : list Call :=
  (fun '(idx, doc_id) => (idx, total, doc_id, status_of by_sections doc_id))
  <$> Py.enumerate_from i ids.

End Driver.
End Processor.

(** ** The containment invariant of a projected annotation *)

Module ProjectorSpec.

(** [0 <= rel_begin <= rel_end <= len(sentence.text)] *)
Definition containment (rel_begin rel_end : Z) (sentence_text : list ascii) : Prop :=
  0 <= rel_begin /\ rel_begin <= rel_end /\ rel_end <= Py.len sentence_text.

(** An annotation dictionary [{"span": {"begin": b, "end": e}, "obj": l}]. *)
Definition span_dict (b e : Z) (l : string) : Models.AnnotationDict :=
  {| Models.ad_span := Some {| Models.si_begin := Some b; Models.si_start := None;
                               Models.si_end := Some e; Models.si_length := None |};
     Models.ad_obj := Some l; Models.ad_label := None; Models.ad_type := None;
     Models.ad_text := None; Models.ad_id := None |}.

End ProjectorSpec.

(** ** The span normalizer as the specification words it *)

Module SpanSpec.
Import Utils.

(** Ascending order of keys. *)
Definition le_by {A} (key : A -> Z) (a b : A) : Prop := key a <= key b.

(** [a] ends before [b] begins. *)
Definition ends_before (a b : Span) : Prop := span_1 a <= span_0 b.

(** [s] is a stable ascending sort of [l] by [key]: ascending, and for every
    key value the elements carrying it appear in their input order. *)
Definition is_stable_sort {A} (key : A -> Z) (l s : list A) : Prop :=
  Sorted (le_by key) s /\
  forall k, filter (fun x => key x = k) s = filter (fun x => key x = k) l.

(** Greedy acceptance: [last_end] is the end of the last accepted span,
    [None] before anything was accepted. *)
Fixpoint greedy_accept (last_end : option Z) (l : list Span) : list Span :=
  match l with
  | [] => []
  | s :: l' =>
      match last_end with
      | None => s :: greedy_accept (Some (span_1 s)) l'
      | Some e =>
          if e <=? span_0 s
          then s :: greedy_accept (Some (span_1 s)) l'
          else greedy_accept last_end l'
      end
  end.

End SpanSpec.

(** ** The section boundary tracker as the specification words it *)

Module SectionSpec.
Import Loader.

(** The ranges of a passage sequence whose first range is already open as
    [cur]: a passage with the hint of the open range extends it, any other
    passage closes it and opens a new one. *)
Fixpoint ranges_from (cur : SectionRange) (l : list PassageMeta) : list SectionRange :=
  match l with
  | [] => [cur]
  | p :: l' =>
      if decide (section_type cur = pm_section_type p)
      then ranges_from (extend_section cur p) l'
      else cur :: ranges_from (new_section p) l'
  end.

(** The hint of the passage immediately preceding the next one: that of the
    last passage of [l], or of the open range when [l] is empty. *)
Definition last_hint (cur : SectionRange) (l : list PassageMeta) : option string :=
  default (section_type cur) (pm_section_type <$> last l).

(** A run: passages that all carry the hint [h]. *)
Definition is_run (h : option string) (l : list PassageMeta) : Prop :=
  Forall (fun p => pm_section_type p = h) l.

(** The single range covering the run that starts with [p] and goes on
    with [l]. *)
Definition run_range (p : PassageMeta) (l : list PassageMeta) : SectionRange :=
  fold_left extend_section l (new_section p).

End SectionSpec.

(** ** Concrete inputs used by the examples *)

Module Examples.
Import Processor.
Local Open Scope string_scope.

(** Passages of scenario 1, and a passage without declared offset. *)
Definition title : Loader.BioCPassage := LoaderSpec.passage_of "Title" (Some 0).
Definition body : Loader.BioCPassage := LoaderSpec.passage_of "Body" (Some 10).
Definition loose : Loader.BioCPassage := LoaderSpec.passage_of "X" None.

(** A passage metadata dictionary. *)
Definition meta (hint : string) (idx lo hi : Z) : Loader.PassageMeta :=
  {| Loader.pm_section_type := Some hint; Loader.pm_passage_index := idx;
     Loader.pm_start := lo; Loader.pm_end := hi; Loader.pm_length := hi - lo;
     Loader.pm_passage_label := None |}.

(** A sentence of ten characters at the start of its text. *)
Definition sentence : Spacy.Sent :=
  {| Spacy.sent_text := list_ascii_of_string "0123456789";
     Spacy.start_char := 0; Spacy.end_char := 10 |}.

(** An unlabeled passage range followed by the abstract, and a sentence
    that starts in the first and has its midpoint in the second. *)
Definition unlabeled : Metadata.SectionInfo :=
  {| Metadata.si_section_type := Some "UNLABELED";
     Metadata.si_start := Some 0; Metadata.si_end := Some 10 |}.
Definition abstract : Metadata.SectionInfo :=
  {| Metadata.si_section_type := Some "ABSTRACT";
     Metadata.si_start := Some 10; Metadata.si_end := Some 30 |}.
Definition straddling : Models.SentenceAnnotation :=
  {| Models.sa_text := list_ascii_of_string "x. y"; Models.sa_annotations := [];
     Models.sa_sentence_id := None;
     Models.sa_abs_start := Some 9; Models.sa_abs_end := Some 13 |}.

(** The collection of the driver tests. *)
Definition collection : list string := ["12345"; "67890"; "11111"].
Definition odinson_doc : OdinsonDoc := {| od_json := Some "{}" |}.
Definition no_combined (d : string) : Exception + OdinsonDoc :=
  inl (OtherError "unused").
Definition always_writable (name : string) : bool := true.
Definition never_truncates (name : string) : bool := false.
Definition quiet : Callback := fun _ _ => None.

(** The first conversion raises, the other two succeed. *)
Definition first_fails (d : string) : Exception + list (string * OdinsonDoc) :=
  if String.eqb d "12345" then inl (OtherError "Processing failed")
  else if String.eqb d "67890" then inr [("TITLE", odinson_doc)]
  else inr [("ABSTRACT", odinson_doc)].

(** A conversion that yields one section whose name sanitizes to a name
    with an underscore; a run on an empty directory and its rerun with
    resume. *)
Definition two_word_section (d : string) : Exception + list (string * OdinsonDoc) :=
  inr [("Results & Discussion", odinson_doc)].

Definition first_run : DriverState * (Exception + list string) :=
  process_and_save ["12345"] two_word_section no_combined always_writable never_truncates
    ∅ true true false None None.

Definition second_run : DriverState * (Exception + list string) :=
  process_and_save ["12345"] two_word_section no_combined always_writable never_truncates
    (fs first_run.1) true true false None None.

End Examples.

(** ** Shifting a passage and its annotations by a common amount *)

Module ProjectorShift.

(** The annotation with every location moved by [k]. *)
Definition shift_annotation (k : Z) (ann : Loader.BioCAnnotation) : Loader.BioCAnnotation :=
  {| Loader.ann_id := Loader.ann_id ann;
     Loader.ann_infons := Loader.ann_infons ann;
     Loader.ann_locations :=
       (fun loc => {| Loader.loc_offset := Loader.loc_offset loc + k;
                      Loader.loc_length := Loader.loc_length loc |})
       <$> Loader.ann_locations ann;
     Loader.ann_text := Loader.ann_text ann |}.

(** The sentence dictionary with its absolute offsets moved by [k]. *)
Definition shift_sentence (k : Z) (sd : Sections.SentenceData) : Sections.SentenceData :=
  {| Sections.sd_text := Sections.sd_text sd;
     Sections.sd_abs_start := Sections.sd_abs_start sd + k;
     Sections.sd_abs_end := Sections.sd_abs_end sd + k;
     Sections.sd_annotations := Sections.sd_annotations sd |}.

(** The annotation reduced to its first location. *)
Definition first_location_only (ann : Loader.BioCAnnotation) : Loader.BioCAnnotation :=
  {| Loader.ann_id := Loader.ann_id ann;
     Loader.ann_infons := Loader.ann_infons ann;
     Loader.ann_locations := take 1 (Loader.ann_locations ann);
     Loader.ann_text := Loader.ann_text ann |}.

End ProjectorShift.

(** ** loader.py: ranges, declared spans, and the collection loader *)

Module LoaderMore.
Import Loader.

(** One passage range ends before the other starts; the same for
    sections. *)
Definition meta_before (a b : PassageMeta) : Prop := pm_end a <= pm_start b.
Definition section_before (a b : SectionRange) : Prop := end_ a <= start b.

(** The spans that the annotations of a passage declare: one per location,
    with the label of the annotation. *)
Definition declared_spans (p : BioCPassage) : list Utils.Span :=
  bioc_ann ← psg_annotations p;
  (fun location =>
     (loc_offset location, loc_offset location + loc_length location,
      annotation_type bioc_ann))
  <$> ann_locations bioc_ann.

(** A document of a BioC collection: its id and its passages. *)
Record BioCDocument := {
  bd_id : string;
  bd_passages : list BioCPassage;
}.

Inductive LoadError :=
  | FileNotFoundError
  | DocumentNotFound (document_id : string).

(** [load_bioc_document(bioc_file_path, document_id, section_config)]: the
    file holds [file], [None] when it does not exist; the result is the id
    of the target document with the part of [DocumentData] modelled by
    [Loader.load_bioc_document]. *)
Definition load_bioc_document_at
    (file : option (list BioCDocument)) (document_id : string)
    (section_config : option SectionConfig) : LoadError + (string * DocumentData) :=
  match file with
  | None => inl FileNotFoundError
  | Some documents =>
      match head (filter (fun doc => bd_id doc = document_id) documents) with
      | None => inl (DocumentNotFound document_id)
      | Some target_doc =>
          inr (bd_id target_doc,
               load_bioc_document (bd_passages target_doc) section_config)
      end
  end.

(** [load_bioc_collection(bioc_file_path, section_config)]: every document
    is loaded through [load_bioc_document] by its id, and a document whose
    loading raises is left out. *)
Definition load_bioc_collection
    (file : option (list BioCDocument)) (section_config : option SectionConfig)
    : LoadError + list (string * DocumentData) :=
  match file with
  | None => inl FileNotFoundError
  | Some documents =>
      inr (omap (fun doc =>
                   match load_bioc_document_at file (bd_id doc) section_config with
                   | inr doc_data => Some doc_data
                   | inl _ => None
                   end)
                documents)
  end.

End LoaderMore.

(** ** sections.py: grouping the passages of a document *)

Module SectionsMore.
Import Loader.

(** The section type under which [group_passages_by_section] files a
    passage: the first truthy one of its infons ["section_type"],
    ["section"] and ["type"], and ["UNKNOWN"] without one. *)
Definition passage_section_type (passage : BioCPassage) : string :=
  let section_type :=
    if decide (psg_infons passage = ∅) then None
    else first_truthy (psg_infons passage) "section_type" "section" "type" in
  default "UNKNOWN"%string (Py.str_or section_type None).

Definition group_passages_by_section (passages : list BioCPassage)
    : list (string * list BioCPassage) :=
  fold_left
    (fun sections passage =>
       Metadata.setdefault_append sections (passage_section_type passage) passage)
    passages [].

End SectionsMore.

(** ** converter.py: the by-section branch of [convert_bioc_to_odinson] *)

Module Converter.
Import Loader.

(** [doc_data_dict.get("metadata_source", {}).get("sections") or []] *)
Definition sections_info_of (doc_data : DocumentData) : list Metadata.SectionInfo :=
  Metadata.of_section_range <$> doc_sections doc_data.

(** The sentences of a loaded document grouped by section, as
    [convert_bioc_to_odinson] computes them with [group_by_section=True]
    before it builds one Odinson document per group; [segment] gives the
    sentences that the language model finds in a text. *)
Definition grouped_sentences
    (segment : list ascii -> list Spacy.Sent)
    (passages : list BioCPassage) (section_config : option SectionConfig)
    : list (string * list Models.SentenceAnnotation) :=
  let doc_data := load_bioc_document passages section_config in
  let sentence_annotations :=
    Sentence.create_sentence_annotations
      (doc_annotations doc_data) (segment (doc_text doc_data)) in
  Metadata.group_sentence_annotations_by_section
    sentence_annotations (Some (sections_info_of doc_data)).

End Converter.

(** ** What a grouping loop builds *)

Module GroupingSpec.

(** The insertion-ordered dictionary [g] groups the elements [l] by [key]:
    its keys are pairwise distinct, and its entries are exactly the
    non-empty classes of [l], each in the order of [l]. *)
Definition grouped_by {A} (key : A -> string) (g : list (string * list A)) (l : list A)
    : Prop :=
  NoDup g.*1 /\
  forall k xs, (k, xs) ∈ g <-> xs = filter (fun x => key x = k) l /\ xs <> [].

End GroupingSpec.

(** ** Concrete inputs used by the further examples *)

Module GroupingExamples.
Local Open Scope string_scope.

(** A titled passage, the abstract after it, and a segmentation that takes
    the text up to offset 8 and the rest as the two sentences. *)
Definition titled : Loader.BioCPassage :=
  {| Loader.psg_infons := {[ "section_type" := "TITLE" ]};
     Loader.psg_offset := Some 0;
     Loader.psg_text := Some (list_ascii_of_string "A title.");
     Loader.psg_annotations := [] |}.
Definition summary : Loader.BioCPassage :=
  {| Loader.psg_infons := {[ "type" := "ABSTRACT" ]};
     Loader.psg_offset := Some 9;
     Loader.psg_text := Some (list_ascii_of_string "Some text.");
     Loader.psg_annotations := [] |}.
Definition two_sentences (text : list ascii) : list Spacy.Sent :=
  [ {| Spacy.sent_text := take 8 text; Spacy.start_char := 0; Spacy.end_char := 8 |};
    {| Spacy.sent_text := drop 9 text; Spacy.start_char := 9;
       Spacy.end_char := Py.len text |} ].

End GroupingExamples.

Module MoreExamples.
Local Open Scope string_scope.

(** The sentence that follows [Examples.sentence], and a passage annotation
    of type GENE with one location. *)
Definition next_sentence : Spacy.Sent :=
  {| Spacy.sent_text := list_ascii_of_string "abcdefghij";
     Spacy.start_char := 10; Spacy.end_char := 20 |}.
Definition gene_at (offset length : Z) : Loader.BioCAnnotation :=
  {| Loader.ann_id := None;
     Loader.ann_infons := {[ "type" := "GENE" ]};
     Loader.ann_locations :=
       [ {| Loader.loc_offset := offset; Loader.loc_length := length |} ];
     Loader.ann_text := None |}.

End MoreExamples.

(** ** What a sanitized file-name component looks like *)

Module SanitizeSpec.
Import Processor.

(** Characters of the class [a-z0-9_-] only, at least one of them, and no
    underscore at either end. *)
Definition clean_name (s : list ascii) : Prop :=
  s <> [] /\
  Forall (fun c => safe_char c = true) s /\
  head s <> Some "_"%char /\
  last s <> Some "_"%char.

End SanitizeSpec.

(** ** What the driver does to the output directory *)

Module DriverSpec.
Import Processor.

(** The names under which a run over the documents [ids] opens files: the
    section files of these documents, and the archive. *)
Definition output_names (ids : list string) (f : string) : Prop :=
  f = archive_name \/
  exists doc_id section_name,
    doc_id ∈ ids /\ f = section_filename doc_id section_name.

(** The output directory of [st], for a run that started on the directory
    [files] and opens files under the names [names] only: every saved path
    is there; a file that is not among the saved paths is as it was, or is
    what a write that raised has left; no file is gone; and a file whose
    name is not among [names] is as it was. *)
Definition directory_inv (files : gmap string FileContent) (names : string -> Prop)
    (st : DriverState) : Prop :=
  (forall f, f ∈ saved_files st -> is_Some (fs st !! f)) /\
  (forall f, f ∉ saved_files st ->
     fs st !! f = files !! f \/ fs st !! f = Some Partial) /\
  (forall f, is_Some (files !! f) -> is_Some (fs st !! f)) /\
  (forall f, ~ names f -> fs st !! f = files !! f).

(** The computation [m] keeps the property [I] of the state, whether it
    returns or raises. *)
Definition preserves {A} (I : DriverState -> Prop) (m : M A) : Prop :=
  forall st, I st -> I (m st).1.

End DriverSpec.

Module DriverExamples.
Import Processor.
Local Open Scope string_scope.

(** A conversion that yields the one section TITLE for every document. *)
Definition title_only (d : string) : Exception + list (string * OdinsonDoc) :=
  inr [("TITLE", Examples.odinson_doc)].

(** An output directory in which no file can be written in full, and every
    attempt leaves the opened file behind. *)
Definition never_writable (name : string) : bool := false.
Definition always_truncates (name : string) : bool := true.

End DriverExamples.

(** ** processor.py: the in-memory alternative, [process_all] and [save_all] *)

Module InMemory.
Import Processor.

(** [str(e)] *)
Definition str_of (e : Exception) : string :=
  match e with
  | ValueError msg => msg
  | OtherError msg => msg
  end.

(** A value of the results dictionary: the processed document with the
    ["error"] entry of its metadata, [None] when the metadata has none. *)
Record Entry := {
  entry_doc : ProcessedDocument;
  entry_error : option string;
}.

(** [ProcessedDocument(doc_id=doc_id, metadata={"error": str(e)})] *)
Definition failed_entry (document_id : string) (e : Exception) : Entry :=
  {| entry_doc := {| doc_id := document_id; sections := None; combined := None |};
     entry_error := Some (str_of e) |}.

(** [d[k] = v] on an insertion-ordered dictionary: a key that is present
    keeps its position. *)
Fixpoint dict_set {V} (d : list (string * V)) (k : string) (v : V)
    : list (string * V) :=
  match d with
  | [] => [(k, v)]
  | (k', v') :: rest =>
      if String.eqb k' k then (k', v) :: rest else (k', v') :: dict_set rest k v
  end.

(** A call of the progress callback of [process_all]:
    [(current, total, document_id)]. *)
Definition Call3 : Type := Z * Z * string.
Definition Callback3 : Type := list Call3 -> Call3 -> option Exception.

Section Methods.
Variable document_ids : list string.
Variable process_bioc_by_sections : string -> Exception + list (string * OdinsonDoc).
Variable convert_bioc_to_odinson : string -> Exception + OdinsonDoc.
Variable can_write : string -> bool.
Variable truncates : string -> bool.

(** The body of [for idx, doc_id in enumerate(ids_to_process, start=1)] in
    [process_all]; the state is [results] with the calls made to the
    callback. An exception of the callback is caught by the same handler
    as one of the conversion. *)
Definition process_all_step (by_sections : bool) (on_progress : option Callback3)
    (total : Z) (st : list (string * Entry) * list Call3) (item : Z * string)
    : list (string * Entry) * list Call3 :=
  let '(results, calls) := st in
  let '(idx, doc_id) := item in
  match process document_ids process_bioc_by_sections convert_bioc_to_odinson
          doc_id by_sections with
  | inr result =>
      let results :=
        dict_set results doc_id {| entry_doc := result; entry_error := None |} in
      match on_progress with
      | Some callback =>
          match callback calls (idx, total, doc_id) with
          | Some e =>
              (dict_set results doc_id (failed_entry doc_id e),
               calls ++ [(idx, total, doc_id)])
          | None => (results, calls ++ [(idx, total, doc_id)])
          end
      | None => (results, calls)
      end
  | inl e => (dict_set results doc_id (failed_entry doc_id e), calls)
  end.

(** [process_all]: the results dictionary, with the calls made to the
    callback. *)
Definition process_all (by_sections : bool) (on_progress : option Callback3)
    (document_ids_arg : option (list string))
    : list (string * Entry) * list Call3 :=
  match requested_ids document_ids document_ids_arg with
  | [] => ([], [])
  | ids_to_process =>
      fold_left (process_all_step by_sections on_progress (Py.len ids_to_process))
                (Py.enumerate_from 1 ids_to_process) ([], [])
  end.

(** The body of [for doc_id, processed_doc in results.items()] in
    [save_all]. *)
Definition save_entry (item : string * Entry) : M unit :=
  let '(doc_id, processed_doc) := item in
  if Loader.truthy (entry_error processed_doc) then ret tt
  else save_result can_write truncates doc_id (entry_doc processed_doc).

Definition save_all_body (results : list (string * Entry)) (compress : bool)
    : M (list string) :=
  bind (for_each results save_entry) (fun _ =>
  bind (create_archive can_write truncates compress) (fun _ =>
  bind get (fun st => ret (saved_files st)))).

(** [save_all] on an output directory holding [files]. *)
Definition save_all (files : gmap string FileContent)
    (results : list (string * Entry)) (compress : bool)
    : DriverState * (Exception + list string) :=
  save_all_body results compress
    {| fs := files; saved_files := []; processed_count := 0; failed_count := 0;
       calls := [] |}.

(** The entry that [process_all] records for a document when the callback,
    if it is called, raises [raised] ([None]: it returns). *)
Definition entry_of (by_sections : bool) (raised : option Exception)
    (document_id : string) : Entry :=
  match process document_ids process_bioc_by_sections convert_bioc_to_odinson
          document_id by_sections with
  | inr result =>
      match raised with
      | Some e => failed_entry document_id e
      | None => {| entry_doc := result; entry_error := None |}
      end
  | inl e => failed_entry document_id e
  end.

End Methods.
End InMemory.

(** ** Notions for stating what [process_all] and [save_all] do *)

Module InMemorySpec.
Import Processor InMemory.

(** The elements of a list in the order of their first occurrence. *)
Definition first_occurrences (l : list string) : list string :=
  reverse (remove_dups (reverse l)).

(** Two states with the same output directory and the same saved paths. *)
Definition same_output (st1 st2 : DriverState) : Prop :=
  fs st1 = fs st2 /\ saved_files st1 = saved_files st2.

(** What a uniform callback does: it raises [raised] at every call, or
    returns at every call. *)
Definition behaves (on_progress : option Callback3) (raised : option Exception) : Prop :=
  match on_progress with
  | Some callback => forall before c, callback before c = raised
  | None => raised = None
  end.

(** A callback that rejects every call. *)
Definition rejecting : Callback3 := fun _ _ => Some (OtherError "stop").

End InMemorySpec.

(** ** utils.py: [sanitize_section_name] *)

Module UtilsMore.

(** The character class [a-z0-9]. *)
Definition alnum_char (c : ascii) : bool := Py.is_lower c || Py.is_digit c.

(** [re.sub(r"[^a-z0-9]+", "_", s)]: each maximal run of characters
    outside the class becomes one underscore; [in_run] tells that the
    previous character was outside the class. *)
Fixpoint sub_non_alnum (in_run : bool) (s : list ascii) : list ascii :=
  match s with
  | [] => []
  | c :: s' =>
      if alnum_char c then c :: sub_non_alnum false s'
      else if in_run then sub_non_alnum true s'
      else "_"%char :: sub_non_alnum true s'
  end.

Definition sanitize_section_name (section_name : string) : string :=
  let cleaned :=
    string_of_list_ascii
      (Processor.strip_underscores
         (sub_non_alnum false (list_ascii_of_string (Py.lower section_name)))) in
  if bool_decide (cleaned = EmptyString) then "section"%string else cleaned.

(** No two underscores in a row. *)
Definition single_underscores (s : list ascii) : Prop :=
  forall l1 l2, s <> l1 ++ "_"%char :: "_"%char :: l2.

(** A sanitized section name: characters of [a-z0-9] separated by single
    underscores. *)
Definition clean_section (s : list ascii) : Prop :=
  s <> [] /\
  Forall (fun c => alnum_char c = true \/ c = "_"%char) s /\
  head s <> Some "_"%char /\
  last s <> Some "_"%char /\
  single_underscores s.

End UtilsMore.

(** * Properties *)

Section StableSort.
Context {A : Type} (key : A -> Z).
Implicit Types l s : list A.

Local Abbreviation le_key := (SpanSpec.le_by key).

Lemma insert_by_filter x l k :
  filter (fun y => key y = k) (Py.insert_by key x l)
  = filter (fun y => key y = k) (x :: l).
Proof.
  induction l as [|y l IH]; simpl; [done|].
  destruct (Z.leb_spec (key x) (key y)) as [Hle|Hlt]; [done|].
  rewrite !filter_cons in *.
  destruct (decide (key y = k)) as [Hy|Hy];
    destruct (decide (key x = k)) as [Hx|Hx]; try lia; by rewrite IH.
Qed.

Lemma insert_by_HdRel a x l :
  le_key a x -> HdRel le_key a l -> HdRel le_key a (Py.insert_by key x l).
Proof.
  intros Hax Hal. destruct l as [|y l]; simpl; [by constructor|].
  destruct (key x <=? key y); constructor; [done|].
  by inversion Hal.
Qed.

Lemma insert_by_Sorted x l :
  Sorted le_key l -> Sorted le_key (Py.insert_by key x l).
Proof.
  induction 1 as [|y l Hs IH Hhd]; simpl.
  - by repeat constructor.
  - destruct (Z.leb_spec (key x) (key y)) as [Hle|Hlt].
    + constructor; [by constructor|]. by constructor.
    + constructor; [done|]. apply insert_by_HdRel; [unfold le_key; lia|done].
Qed.

Lemma sorted_Sorted l : Sorted le_key (Py.sorted key l).
Proof.
  induction l as [|x l IH]; simpl; [constructor|].
  by apply insert_by_Sorted.
Qed.

Lemma sorted_filter l k :
  filter (fun y => key y = k) (Py.sorted key l) = filter (fun y => key y = k) l.
Proof.
  induction l as [|x l IH]; simpl; [done|].
  rewrite insert_by_filter, !filter_cons. by rewrite IH.
Qed.

Lemma insert_by_length x l : length (Py.insert_by key x l) = S (length l).
Proof.
  induction l as [|y l IH]; simpl; [done|].
  destruct (key x <=? key y); simpl; by rewrite ?IH.
Qed.

Lemma sorted_length l : length (Py.sorted key l) = length l.
Proof.
  induction l as [|x l IH]; simpl; [done|].
  by rewrite insert_by_length, IH.
Qed.

Lemma sorted_is_stable_sort l :
  SpanSpec.is_stable_sort key l (Py.sorted key l).
Proof. split; [apply sorted_Sorted | apply sorted_filter]. Qed.

Lemma le_key_trans : Relations_1.Transitive le_key.
Proof. intros a b c. unfold le_key. lia. Qed.

Lemma Sorted_head_min x l y :
  Sorted le_key (x :: l) -> y ∈ x :: l -> key x <= key y.
Proof.
  intros Hs Hy. apply Sorted_StronglySorted in Hs; [|apply le_key_trans].
  inversion Hs as [|? ? _ Hall]; subst.
  apply elem_of_cons in Hy as [->|Hy]; [lia|].
  rewrite Forall_forall in Hall. by apply Hall.
Qed.

Lemma elem_of_same_filters l1 l2 y :
  (forall k, filter (fun x => key x = k) l1 = filter (fun x => key x = k) l2) ->
  y ∈ l1 -> y ∈ l2.
Proof.
  intros Hf Hy.
  assert (y ∈ filter (fun x => key x = key y) l1) as Hin
    by (apply list_elem_of_filter; done).
  rewrite Hf in Hin. by apply list_elem_of_filter in Hin as [_ ?].
Qed.

(** Two ascending lists with the same per-key subsequences are equal. *)
Lemma same_filters_eq l1 l2 :
  Sorted le_key l1 -> Sorted le_key l2 ->
  (forall k, filter (fun x => key x = k) l1 = filter (fun x => key x = k) l2) ->
  l1 = l2.
Proof.
  revert l2. induction l1 as [|x l1 IH]; intros l2 Hs1 Hs2 Hf.
  - destruct l2 as [|y l2]; [done|].
    specialize (Hf (key y)). rewrite filter_nil, filter_cons in Hf.
    by destruct (decide (key y = key y)).
  - destruct l2 as [|y l2].
    { specialize (Hf (key x)). rewrite filter_nil, filter_cons in Hf.
      by destruct (decide (key x = key x)). }
    assert (key x = key y) as Hxy.
    { apply Z.le_antisymm.
      - apply (Sorted_head_min x l1); [done|].
        apply (elem_of_same_filters (y :: l2)); [by intros k; rewrite Hf|by left].
      - apply (Sorted_head_min y l2); [done|].
        apply (elem_of_same_filters (x :: l1)); [done|by left]. }
    pose proof (Hf (key x)) as Hk. rewrite !filter_cons in Hk.
    destruct (decide (key x = key x)) as [_|]; [|done].
    destruct (decide (key y = key x)) as [_|]; [|lia].
    injection Hk as -> Hk. f_equal.
    apply IH.
    + by inversion Hs1.
    + by inversion Hs2.
    + intros k. specialize (Hf k). rewrite !filter_cons in Hf.
      destruct (decide (key y = k)); [by injection Hf|done].
Qed.

Lemma elem_of_sorted l x : x ∈ Py.sorted key l <-> x ∈ l.
Proof.
  split; apply elem_of_same_filters; intros k; by rewrite sorted_filter.
Qed.

(** The stable sort of a list is unique: any stable sort is [sorted]. *)
Lemma stable_sort_unique l s :
  SpanSpec.is_stable_sort key l s -> s = Py.sorted key l.
Proof.
  intros [Hs Hf]. apply same_filters_eq; [done|apply sorted_Sorted|].
  intros k. by rewrite Hf, sorted_filter.
Qed.
End StableSort.

(** ** Span normalizer (utils.py, [remove_overlapping_spans]) *)

Section SpanNormalizer.
Import Utils SpanSpec.
Implicit Types l acc : list Span.

Local Abbreviation begin_le := (le_by span_0).
Local Abbreviation disjoint := ends_before.

(** The loop with its growing list is the greedy scan started from the end
    of the last span accepted so far. *)
Lemma fold_keep_span l acc :
  fold_left keep_span l acc
  = acc ++ greedy_accept (span_1 <$> last acc) l.
Proof.
  revert acc. induction l as [|s l IH]; intros acc; simpl.
  - by rewrite app_nil_r.
  - unfold keep_span at 2. destruct (last acc) as [prev|] eqn:Hlast; simpl.
    + rewrite Z.geb_leb. destruct (span_1 prev <=? span_0 s).
      * rewrite IH, last_snoc. simpl. by rewrite <- app_assoc.
      * by rewrite IH, Hlast.
    + rewrite IH, last_snoc. simpl. by rewrite <- app_assoc.
Qed.

Lemma remove_overlapping_spans_greedy l :
  remove_overlapping_spans l = greedy_accept None (Py.sorted span_0 l).
Proof.
  destruct l as [|s l]; [done|].
  unfold remove_overlapping_spans. by rewrite fold_keep_span.
Qed.

Lemma greedy_accept_subseteq o l : greedy_accept o l ⊆ l.
Proof.
  revert o. induction l as [|s l IH]; intros o; simpl; [done|].
  destruct o as [e|]; [destruct (e <=? span_0 s)|].
  - apply list_subseteq_skip, IH.
  - apply list_subseteq_cons, IH.
  - apply list_subseteq_skip, IH.
Qed.

(** Everything accepted after a span ending at [e] starts at or after [e]. *)
Lemma greedy_accept_after e l :
  StronglySorted begin_le l ->
  Forall (fun b => e <= span_0 b) (greedy_accept (Some e) l).
Proof.
  induction 1 as [|s l Hs IH Hall]; simpl; [constructor|].
  destruct (Z.leb_spec e (span_0 s)) as [Hle|Hlt]; [|done].
  constructor; [done|].
  rewrite Forall_forall in Hall |- *. intros b Hb.
  apply greedy_accept_subseteq in Hb. specialize (Hall b Hb).
  unfold begin_le in Hall. lia.
Qed.

Lemma greedy_accept_disjoint o l :
  StronglySorted begin_le l ->
  StronglySorted disjoint (greedy_accept o l).
Proof.
  intros Hl. revert o. induction Hl as [|s l Hs IH Hall]; intros o; simpl.
  { constructor. }
  assert (StronglySorted disjoint (s :: greedy_accept (Some (span_1 s)) l)).
  { constructor; [apply IH|]. by apply greedy_accept_after. }
  destruct o as [e|]; [destruct (e <=? span_0 s)|]; auto.
Qed.

Lemma StronglySorted_lookup {B} (R : B -> B -> Prop) (r : list B) (i j : nat) a b :
  StronglySorted R r -> (i < j)%nat -> r !! i = Some a -> r !! j = Some b -> R a b.
Proof.
  intros Hr. revert i j. induction Hr as [|x r Hr IH Hall]; intros i j Hij Hi Hj.
  { by rewrite lookup_nil in Hi. }
  destruct j as [|j]; [lia|]. simpl in Hj.
  destruct i as [|i]; simpl in Hi.
  - injection Hi as ->. rewrite Forall_forall in Hall.
    apply Hall. by eapply list_elem_of_lookup_2.
  - apply (IH i j); [lia|done..].
Qed.

(** C6: [remove_overlapping_spans] is the reference algorithm of the
    specification. A stable ascending sort by [begin] of the input exists,
    and for each such sort [s] the result is the greedy acceptance scan of
    [s], in which the first span is always accepted and a later span is
    accepted iff its begin is at least the end of the last accepted span.
    The spans (0,10,A), (5,15,B), (20,30,C) normalize to (0,10,A),
    (20,30,C). *)
Theorem remove_overlapping_spans_refines_spec (spans : list Span) :
  (exists s, is_stable_sort span_0 spans s) /\
  (forall s, is_stable_sort span_0 spans s ->
     remove_overlapping_spans spans = greedy_accept None s) /\
  remove_overlapping_spans [(0, 10, "A"); (5, 15, "B"); (20, 30, "C")]%string
    = [(0, 10, "A"); (20, 30, "C")]%string.
Proof.
  split; [|split].
  - exists (Py.sorted span_0 spans). apply sorted_is_stable_sort.
  - intros s Hs. apply stable_sort_unique in Hs as ->.
    apply remove_overlapping_spans_greedy.
  - reflexivity.
Qed.

Lemma remove_overlapping_spans_refines_spec_witness :
  is_stable_sort span_0
    [(5, 15, "B"); (0, 10, "A"); (5, 7, "D"); (20, 30, "C")]%string
    [(0, 10, "A"); (5, 15, "B"); (5, 7, "D"); (20, 30, "C")]%string /\
  remove_overlapping_spans
    [(5, 15, "B"); (0, 10, "A"); (5, 7, "D"); (20, 30, "C")]%string
  = [(0, 10, "A"); (20, 30, "C")]%string.
Proof.
  assert (is_stable_sort span_0
    [(5, 15, "B"); (0, 10, "A"); (5, 7, "D"); (20, 30, "C")]%string
    [(0, 10, "A"); (5, 15, "B"); (5, 7, "D"); (20, 30, "C")]%string) as Hs.
  { exact (sorted_is_stable_sort span_0
      [(5, 15, "B"); (0, 10, "A"); (5, 7, "D"); (20, 30, "C")]%string). }
  split; [exact Hs|].
  exact (proj1 (proj2 (remove_overlapping_spans_refines_spec _)) _ Hs).
Defined.

(** C7: the output of [remove_overlapping_spans] is pairwise
    non-overlapping for every input, degenerate spans included: for all
    i < j in the result, result[i].end <= result[j].begin. *)
Theorem remove_overlapping_spans_pairwise (spans : list Span) (i j : nat) (a b : Span) :
  (i < j)%nat ->
  remove_overlapping_spans spans !! i = Some a ->
  remove_overlapping_spans spans !! j = Some b ->
  span_1 a <= span_0 b.
Proof.
  rewrite remove_overlapping_spans_greedy. intros Hij Hi Hj.
  apply (StronglySorted_lookup disjoint _ i j a b) in Hi; [done| |done..].
  apply greedy_accept_disjoint, Sorted_StronglySorted.
  - apply le_key_trans.
  - apply sorted_Sorted.
Qed.

Lemma remove_overlapping_spans_pairwise_witness :
  span_1 (12, 4, "X"%string) <= span_0 (12, 20, "Z"%string).
Proof.
  apply (remove_overlapping_spans_pairwise
           [(12, 4, "X"); (3, 9, "W"); (12, 20, "Z")]%string
           1 2); [lia | reflexivity | reflexivity].
Defined.
End SpanNormalizer.

(** ** Document assembler (loader.py, [load_bioc_document]) *)

Section Assembler.
Import Models Loader LoaderSpec.
Variable section_config : option SectionConfig.
Implicit Types (st : LoopState) (p : BioCPassage) (l : list BioCPassage).

Local Abbreviation step := (passage_step section_config).

Lemma len_app {A} (a b : list A) : Py.len (a ++ b) = Py.len a + Py.len b.
Proof. unfold Py.len. rewrite length_app. lia. Qed.

Lemma len_nonneg {A} (a : list A) : 0 <= Py.len a.
Proof. unfold Py.len. lia. Qed.

Lemma len_str_mul c n : Py.len (Py.str_mul c n) = Z.max 0 n.
Proof. unfold Py.len, Py.str_mul. rewrite length_replicate. lia. Qed.

Lemma str_mul_nonpos c n : n <= 0 -> Py.str_mul c n = [].
Proof.
  intros Hn. unfold Py.str_mul.
  replace (Z.to_nat n) with 0%nat by lia. done.
Qed.

(** The guard [if normalized_section:] never skips a passage. *)
Lemma normalize_section_name_nonempty o :
  normalize_section_name o section_config <> EmptyString.
Proof.
  unfold normalize_section_name. destruct o as [s|]; [|done].
  case_bool_decide; [done|].
  destruct section_config; [|done].
  by destruct (is_section_allowed _ _).
Qed.

Lemma passage_step_spec st i p :
  joined_text (step st (i, p)) = joined_text st ++ padding_of st p ++ passage_text_of p /\
  current_length (step st (i, p))
    = current_length st + Py.len (padding_of st p) + Py.len (passage_text_of p) /\
  exists m,
    metadata_sections (step st (i, p)) = metadata_sections st ++ [m] /\
    pm_passage_index m = i /\
    pm_start m = current_length st + Py.len (padding_of st p) /\
    pm_end m = pm_start m + Py.len (passage_text_of p) /\
    pm_length m = pm_end m - pm_start m.
Proof.
  unfold passage_step, padding_of, joined_text.
  set (o := default (current_length st) (psg_offset p)).
  set (norm := normalize_section_name _ _).
  assert (bool_decide (norm = EmptyString) = false) as ->.
  { apply bool_decide_eq_false, normalize_section_name_nonempty. }
  destruct (Z.gtb_spec o (current_length st)) as [Hgt|Hle].
  - destruct (passage_text_of p) as [|c t] eqn:Ht; simpl.
    all: rewrite ?concat_app, ?len_str_mul; simpl; rewrite ?app_nil_r.
    all: split; [by rewrite <- ?app_assoc|].
    all: split; [unfold Py.len; simpl; lia|].
    all: eexists; split; [done|]; simpl; unfold Py.len; simpl; lia.
  - rewrite str_mul_nonpos by lia.
    destruct (passage_text_of p) as [|c t] eqn:Ht; simpl.
    all: rewrite ?concat_app; simpl; rewrite ?app_nil_r.
    all: split; [done|].
    all: split; [unfold Py.len; simpl; lia|].
    all: eexists; split; [done|]; simpl; unfold Py.len; simpl; lia.
Qed.

Lemma enumerate_from_app {A} (i : Z) (l1 l2 : list A) :
  Py.enumerate_from i (l1 ++ l2)
  = Py.enumerate_from i l1 ++ Py.enumerate_from (i + Py.len l1) l2.
Proof.
  revert i. induction l1 as [|x l1 IH]; intros i; simpl.
  - f_equal. unfold Py.len. simpl. lia.
  - rewrite IH. do 3 f_equal. unfold Py.len. simpl. lia.
Qed.

Lemma assemble_app l1 l2 :
  assemble section_config (l1 ++ l2)
  = fold_left step (Py.enumerate_from (Py.len l1) l2) (assemble section_config l1).
Proof.
  unfold assemble, Py.enumerate.
  by rewrite enumerate_from_app, fold_left_app.
Qed.

Lemma assemble_snoc l p :
  assemble section_config (l ++ [p]) = step (assemble section_config l) (Py.len l, p).
Proof. by rewrite assemble_app. Qed.

Lemma loop_inv_initial : loop_inv 0 initial_state.
Proof. by split. Qed.

Lemma loop_inv_step n st i p :
  loop_inv n st -> loop_inv (S n) (step st (i, p)).
Proof.
  intros [Hc Hl Hn].
  destruct (passage_step_spec st i p) as (Ht & Hlen & m & Hm & _ & Hs & He & _).
  split.
  - rewrite Hlen, Ht, !len_app. lia.
  - rewrite Hm, Hlen. unfold last_end. rewrite last_snoc. simpl. lia.
  - rewrite Hm, length_app, Hn. simpl. lia.
Qed.

Lemma loop_inv_fold n st (l : list (Z * BioCPassage)) :
  loop_inv n st -> loop_inv (n + length l) (fold_left step l st).
Proof.
  revert n st. induction l as [|[i p] l IH]; intros n st Hinv; simpl.
  - by rewrite Nat.add_0_r.
  - replace (n + S (length l))%nat with (S n + length l)%nat by lia.
    by apply IH, loop_inv_step.
Qed.

Lemma enumerate_from_length {A} (i : Z) (l : list A) :
  length (Py.enumerate_from i l) = length l.
Proof. revert i. induction l; intros; simpl; auto. Qed.

Lemma assemble_inv l : loop_inv (length l) (assemble section_config l).
Proof.
  unfold assemble, Py.enumerate.
  rewrite <- (enumerate_from_length 0 l).
  apply (loop_inv_fold 0), loop_inv_initial.
Qed.

(** Later iterations only append: text and records assembled so far stay
    in place. *)
Lemma fold_step_prefix st (l : list (Z * BioCPassage)) :
  joined_text st `prefix_of` joined_text (fold_left step l st) /\
  metadata_sections st `prefix_of` metadata_sections (fold_left step l st).
Proof.
  revert st. induction l as [|[i p] l IH]; intros st; simpl; [done|].
  destruct (IH (step st (i, p))) as [Ht Hm].
  destruct (passage_step_spec st i p) as (Ht1 & _ & m & Hm1 & _).
  split.
  - etrans; [|exact Ht]. rewrite Ht1. by apply prefix_app_r.
  - etrans; [|exact Hm]. rewrite Hm1. by apply prefix_app_r.
Qed.

Lemma slice_app_middle {A} (a b c : list A) :
  Py.slice (a ++ b ++ c) (Py.len a) (Py.len a + Py.len b) = b.
Proof.
  unfold Py.slice, Py.slice_bound. rewrite !len_app.
  pose proof (len_nonneg a). pose proof (len_nonneg b). pose proof (len_nonneg c).
  destruct (Z.ltb_spec (Py.len a) 0); [lia|].
  destruct (Z.ltb_spec (Py.len a + Py.len b) 0); [lia|].
  rewrite !Z.min_l by lia.
  replace (Py.len a + Py.len b - Py.len a) with (Py.len b) by lia.
  unfold Py.len. rewrite !Nat2Z.id.
  by rewrite drop_app_length, take_app_length.
Qed.

(** The state of the loop around the passage at one position of the
    ordered list: what was assembled before it, what its iteration adds,
    and that the rest of the loop leaves both in place. *)
Lemma assemble_at l pre p post :
  l = pre ++ p :: post ->
  let st0 := assemble section_config pre in
  let st1 := assemble section_config (pre ++ [p]) in
  let st2 := assemble section_config l in
  exists m rest mrest,
    joined_text st1 = joined_text st0 ++ padding_of st0 p ++ passage_text_of p /\
    metadata_sections st1 = metadata_sections st0 ++ [m] /\
    joined_text st2 = joined_text st1 ++ rest /\
    metadata_sections st2 = metadata_sections st1 ++ mrest /\
    loop_inv (length pre) st0 /\
    pm_passage_index m = Py.len pre /\
    pm_start m = current_length st0 + Py.len (padding_of st0 p) /\
    pm_end m = pm_start m + Py.len (passage_text_of p) /\
    pm_length m = pm_end m - pm_start m.
Proof.
  intros -> st0 st1 st2.
  assert (st1 = step st0 (Py.len pre, p)) as E1 by apply assemble_snoc.
  assert (st2 = fold_left step (Py.enumerate_from (Py.len (pre ++ [p])) post) st1)
    as E2.
  { unfold st1. rewrite <- assemble_app. unfold st2. by rewrite <- app_assoc. }
  rewrite E2, E1.
  destruct (passage_step_spec st0 (Py.len pre) p)
    as (Ht & _ & m & Hm & Hi & Hs & He & Hl).
  destruct (fold_step_prefix (step st0 (Py.len pre, p))
              (Py.enumerate_from (Py.len (pre ++ [p])) post))
    as [[rest Hrest] [mrest Hmrest]].
  exists m, rest, mrest.
  repeat (split; [done|]). split; [apply assemble_inv|done].
Qed.

(** C4: for every passage list, the assembler goes through the passages in
    ascending order of declared offset and handles the passage at each
    position as follows, the cursor being the length of the text assembled
    so far (0 at the start): a declared offset beyond the cursor inserts
    declared_offset - cursor spaces; a declared offset below the cursor
    puts the passage at the cursor, the text assembled so far staying in
    place; the recorded (start, end) are the cursor before and after the
    passage text is appended. The passages Title at 0 and Body at 10 yield
    the text Title, five spaces, Body with the ranges (0,5) and (10,14). *)
Theorem load_bioc_document_assembly (passages : list BioCPassage) :
  Sorted (SpanSpec.le_by offset_key) (sorted_passages passages) /\
  (forall pre p post,
     sorted_passages passages = pre ++ p :: post ->
     let before := assemble section_config pre in
     let after := assemble section_config (pre ++ [p]) in
     let cursor := Py.len (joined_text before) in
     let txt := passage_text_of p in
     joined_text (assemble section_config []) = [] /\
     current_length before = cursor /\
     (forall o, psg_offset p = Some o -> o > cursor ->
        joined_text after = joined_text before ++ Py.str_mul " " (o - cursor) ++ txt /\
        Py.len (Py.str_mul " " (o - cursor)) = o - cursor) /\
     (forall o, psg_offset p = Some o -> o < cursor ->
        joined_text after = joined_text before ++ txt) /\
     (exists m,
        metadata_sections after = metadata_sections before ++ [m] /\
        doc_passages (load_bioc_document passages section_config) !! length pre
          = Some m /\
        pm_end m = Py.len (joined_text after) /\
        pm_start m = pm_end m - Py.len txt /\
        (forall o, psg_offset p = Some o -> o > cursor -> pm_start m = o) /\
        (forall o, psg_offset p = Some o -> o < cursor -> pm_start m = cursor)) /\
     joined_text before `prefix_of` joined_text after /\
     joined_text after
       `prefix_of` doc_text (load_bioc_document passages section_config)) /\
  (let doc := load_bioc_document
                [passage_of "Title" (Some 0); passage_of "Body" (Some 10)]
                section_config in
   doc_text doc = list_ascii_of_string "Title     Body" /\
   passage_ranges (doc_passages doc) = [(0, 5); (10, 14)]).
Proof.
  split; [apply sorted_Sorted|]. split; [|by split].
  intros pre p post Hsorted before after cursor txt.
  destruct (assemble_at _ pre p post Hsorted)
    as (m & rest & mrest & Ht1 & Hm1 & Ht2 & Hm2 & [Hc Hl Hn] & _ & Hs & He & _).
  fold before after txt in Ht1, Hm1, Ht2, Hm2, Hc, Hl, Hn, Hs, He.
  fold cursor in Hc.
  assert (forall o, psg_offset p = Some o ->
            padding_of before p = Py.str_mul " " (o - cursor)) as Hpad.
  { intros o Ho. unfold padding_of. by rewrite Ho, Hc. }
  split; [done|]. split; [done|].
  split; [|split; [|split; [|split]]].
  - intros o Ho Hgt. rewrite Ht1, (Hpad o Ho), len_str_mul. split; [done|lia].
  - intros o Ho Hlt. rewrite Ht1, (Hpad o Ho), str_mul_nonpos by lia. done.
  - exists m. split; [done|]. split; [|split; [|split; [|split]]].
    + unfold load_bioc_document. simpl. rewrite Hm2, Hm1, <- app_assoc.
      by apply list_lookup_middle.
    + rewrite Ht1, !len_app. fold cursor. lia.
    + lia.
    + intros o Ho Hgt. rewrite Hs, (Hpad o Ho), len_str_mul. lia.
    + intros o Ho Hlt. rewrite Hs, (Hpad o Ho), len_str_mul. lia.
  - rewrite Ht1. by apply prefix_app_r.
  - unfold load_bioc_document. simpl. rewrite Ht2. by apply prefix_app_r.
Qed.

(** C10: the assembled text and the recorded passage ranges agree. Every
    passage has a record, in assembly order; slicing the final text with
    a record's (start, end) gives exactly the text of its passage, the
    recorded length is end - start, and what lies between the end of the
    previous record (0 for the first) and the start of a record consists
    of spaces only. The last record ends where the text ends. *)
Theorem load_bioc_document_offsets_consistent (passages : list BioCPassage) :
  let doc := load_bioc_document passages section_config in
  length (doc_passages doc) = length passages /\
  last_end (doc_passages doc) = Py.len (doc_text doc) /\
  forall (i : nat) p,
    sorted_passages passages !! i = Some p ->
    exists m,
      doc_passages doc !! i = Some m /\
      pm_passage_index m = Z.of_nat i /\
      Py.slice (doc_text doc) (pm_start m) (pm_end m) = passage_text_of p /\
      pm_length m = pm_end m - pm_start m /\
      pm_length m = Py.len (passage_text_of p) /\
      let prev_end := last_end (take i (doc_passages doc)) in
      prev_end <= pm_start m /\
      Py.slice (doc_text doc) prev_end (pm_start m)
        = Py.str_mul " " (pm_start m - prev_end).
Proof.
  intros doc. subst doc. unfold load_bioc_document. simpl.
  destruct (assemble_inv (sorted_passages passages)) as [Hc Hl Hn].
  split; [by rewrite Hn; apply sorted_length|].
  split; [by rewrite Hl|].
  intros i p Hi.
  apply list_elem_of_split_length in Hi as (pre & post & Hsorted & ->).
  destruct (assemble_at _ pre p post Hsorted)
    as (m & rest & mrest & Ht1 & Hm1 & Ht2 & Hm2 & [Hc0 Hl0 Hn0] & Hidx & Hs & He & Hlen).
  set (st0 := assemble section_config pre) in *.
  set (pad := padding_of st0 p) in *.
  exists m. rewrite Hm2, Hm1, <- (app_assoc _ [m]).
  split; [by apply list_lookup_middle|].
  split; [done|].
  assert (pm_start m = Py.len (joined_text st0 ++ pad)) as Hs'
    by (rewrite len_app; lia).
  split.
  { rewrite Ht2, Ht1, Hs', He, Hs'.
    replace ((joined_text st0 ++ pad ++ passage_text_of p) ++ rest)
      with ((joined_text st0 ++ pad) ++ passage_text_of p ++ rest)
      by (by rewrite <- !app_assoc).
    apply slice_app_middle. }
  split; [done|]. split; [lia|].
  rewrite take_app_length' by done. rewrite Hl0, Hc0.
  split; [rewrite Hs, Hc0; pose proof (len_nonneg pad); lia|].
  rewrite Ht2, Ht1, Hs, Hc0.
  replace (Py.len (joined_text st0) + Py.len pad - Py.len (joined_text st0))
    with (Py.len pad) by lia.
  rewrite <- (app_assoc (joined_text st0)), <- (app_assoc pad).
  rewrite slice_app_middle. unfold pad at 1, padding_of.
  unfold pad, padding_of. rewrite len_str_mul.
  unfold Py.str_mul. f_equal. lia.
Qed.

(** C5 as amended: the passages are stably sorted by declared offset with
    a missing offset counted as 0, so a passage without declared offset
    comes before every passage with a positive declared offset; in the
    loop it gets no padding and starts at the cursor reached after the
    passages that precede it in that sorted order. *)
Theorem load_bioc_document_missing_offset (passages : list BioCPassage) :
  SpanSpec.is_stable_sort offset_key passages (sorted_passages passages) /\
  (forall p q o,
     p ∈ passages -> q ∈ passages ->
     psg_offset p = None -> psg_offset q = Some o -> 0 < o ->
     exists i j : nat,
       (i < j)%nat /\
       sorted_passages passages !! i = Some p /\
       sorted_passages passages !! j = Some q) /\
  (forall pre p post,
     sorted_passages passages = pre ++ p :: post ->
     psg_offset p = None ->
     let doc := load_bioc_document passages section_config in
     let cursor := Py.len (joined_text (assemble section_config pre)) in
     exists m,
       doc_passages doc !! length pre = Some m /\
       pm_start m = cursor /\
       pm_end m = cursor + Py.len (passage_text_of p) /\
       Py.slice (doc_text doc) cursor (cursor + Py.len (passage_text_of p))
         = passage_text_of p).
Proof.
  split; [apply sorted_is_stable_sort|]. split.
  - intros p q o Hp Hq Hpo Hqo Ho.
    apply (elem_of_sorted offset_key) in Hp, Hq. fold (sorted_passages passages) in Hp, Hq.
    apply list_elem_of_lookup in Hp as [i Hi], Hq as [j Hj].
    exists i, j. split; [|done].
    destruct (Nat.lt_trichotomy i j) as [?|[->|Hji]]; [done|congruence|].
    exfalso.
    pose proof (sorted_Sorted offset_key passages) as Hs.
    apply Sorted_StronglySorted in Hs; [|apply le_key_trans].
    pose proof (StronglySorted_lookup _ _ j i q p Hs Hji Hj Hi) as Hle.
    unfold SpanSpec.le_by, offset_key in Hle. rewrite Hpo, Hqo in Hle.
    simpl in Hle. lia.
  - intros pre p post Hsorted Hp doc cursor. subst doc.
    unfold load_bioc_document. simpl.
    destruct (assemble_at _ pre p post Hsorted)
      as (m & rest & mrest & Ht1 & Hm1 & Ht2 & Hm2 & [Hc0 Hl0 Hn0] & _ & Hs & He & _).
    assert (padding_of (assemble section_config pre) p = []) as Hpad.
    { unfold padding_of. rewrite Hp. simpl. apply str_mul_nonpos. lia. }
    rewrite Hpad in *. fold cursor in Hc0. change (Py.len []) with 0 in Hs.
    exists m. rewrite Hm2, Hm1, <- (app_assoc _ [m]).
    split; [by apply list_lookup_middle|].
    split; [lia|]. split; [lia|].
    rewrite Ht2, Ht1. simpl. rewrite <- app_assoc.
    apply slice_app_middle.
Qed.
End Assembler.

Section AssemblerExamples.
Import Loader LoaderSpec Examples.

Lemma load_bioc_document_assembly_witness :
  sorted_passages [body; title] = [title] ++ body :: [] /\
  10 > Py.len (joined_text (assemble None [title])) /\
  joined_text (assemble None ([title] ++ [body]))
    = joined_text (assemble None [title])
      ++ Py.str_mul " " (10 - Py.len (joined_text (assemble None [title])))
      ++ passage_text_of body.
Proof.
  assert (sorted_passages [body; title] = [title] ++ body :: []) as Hsorted
    by reflexivity.
  assert (10 > Py.len (joined_text (assemble None [title]))) as Hgt
    by reflexivity.
  split; [exact Hsorted|]. split; [exact Hgt|].
  pose proof (proj1 (proj2 (load_bioc_document_assembly None [body; title]))
                _ _ _ Hsorted) as H.
  simpl in H. destruct H as (_ & _ & H & _).
  exact (proj1 (H 10 eq_refl Hgt)).
Defined.

Lemma load_bioc_document_offsets_consistent_witness :
  sorted_passages [body; title] !! 1%nat = Some body /\
  exists m,
    doc_passages (load_bioc_document [body; title] None) !! 1%nat = Some m /\
    Py.slice (doc_text (load_bioc_document [body; title] None))
             (pm_start m) (pm_end m)
    = passage_text_of body.
Proof.
  split; [reflexivity|].
  destruct (proj2 (proj2 (load_bioc_document_offsets_consistent None [body; title]))
              1%nat body eq_refl) as (m & Hm & _ & Hslice & _).
  exists m. split; [exact Hm | exact Hslice].
Defined.

(** C5 fails as stated: with the passages Body at 10 and X without offset,
    X is sorted in front of Body and lands at position 0, not at the
    cursor 14 that the assembly of Body alone reaches. *)
Lemma missing_offset_moved_ahead :
  ~ continues_after_input_predecessors None [body; loose].
Proof.
  intros H. specialize (H [body] loose [] eq_refl eq_refl).
  vm_compute in H. discriminate H.
Qed.

Lemma load_bioc_document_missing_offset_witness :
  sorted_passages [body; loose] = [] ++ loose :: [body] /\
  psg_offset loose = None /\
  exists m,
    doc_passages (load_bioc_document [body; loose] None) !! 0%nat = Some m /\
    pm_start m = 0.
Proof.
  assert (sorted_passages [body; loose] = [] ++ loose :: [body]) as Hsorted
    by reflexivity.
  split; [exact Hsorted|]. split; [reflexivity|].
  destruct (proj2 (proj2 (load_bioc_document_missing_offset None [body; loose]))
              [] loose [body] Hsorted eq_refl) as (m & Hm & Hstart & _).
  exists m. split; [exact Hm | exact Hstart].
Defined.
End AssemblerExamples.

(** ** Section boundary tracker (loader.py, [merge_consecutive_sections]) *)

Section SectionTracker.
Import Loader SectionSpec.
Implicit Types (p q : PassageMeta) (l : list PassageMeta) (cur : SectionRange).

Lemma ranges_from_nonempty cur l : ranges_from cur l <> [].
Proof.
  revert cur. induction l as [|p l IH]; intros cur; simpl; [done|].
  destruct (decide _); [apply IH|done].
Qed.

Lemma fold_merge_step l acc cur :
  fold_left merge_step l (acc, Some cur)
  = (acc ++ removelast (ranges_from cur l), last (ranges_from cur l)).
Proof.
  revert acc cur. induction l as [|p l IH]; intros acc cur; simpl.
  - by rewrite app_nil_r.
  - destruct (decide (section_type cur = pm_section_type p)) as [Heq|Hne].
    + by rewrite IH.
    + rewrite IH. destruct (ranges_from (new_section p) l) eqn:Hr.
      * by apply ranges_from_nonempty in Hr.
      * simpl. by rewrite <- app_assoc.
Qed.

Lemma removelast_last {A} (r : list A) x :
  last r = Some x -> removelast r ++ [x] = r.
Proof.
  induction r as [|y r IH]; [done|]. destruct r as [|z r].
  - simpl. by intros [= ->].
  - intros Hl. change (y :: removelast (z :: r) ++ [x] = y :: z :: r).
    f_equal. by apply IH.
Qed.

Lemma merge_consecutive_sections_cons p l :
  merge_consecutive_sections (p :: l) = ranges_from (new_section p) l.
Proof.
  unfold merge_consecutive_sections. simpl. rewrite fold_merge_step. simpl.
  destruct (last (ranges_from (new_section p) l)) as [c|] eqn:Hl.
  - by apply removelast_last.
  - apply last_None in Hl. by apply ranges_from_nonempty in Hl.
Qed.

Lemma last_hint_cons cur p l :
  last_hint cur (p :: l) = last_hint (new_section p) l.
Proof.
  unfold last_hint. destruct l as [|p0 l]; [done|].
  change (last (p :: p0 :: l)) with (last (p0 :: l)).
  destruct (last (p0 :: l)) eqn:E; [done|]. by apply last_None in E.
Qed.

Lemma last_hint_extend cur p l :
  section_type cur = pm_section_type p ->
  last_hint cur (p :: l) = last_hint (extend_section cur p) l.
Proof.
  intros Heq. unfold last_hint. destruct l as [|p0 l]; simpl; [by rewrite Heq|].
  destruct (last (p0 :: l)) eqn:E; [done|]. by apply last_None in E.
Qed.

(** Appending one passage: the last range is extended or a new range is
    opened, by comparison with the preceding passage's hint. *)
Lemma ranges_from_snoc cur l q :
  exists init c,
    ranges_from cur l = init ++ [c] /\
    section_type c = last_hint cur l /\
    ranges_from cur (l ++ [q])
    = init ++ (if decide (last_hint cur l = pm_section_type q)
               then [extend_section c q] else [c; new_section q]).
Proof.
  revert cur. induction l as [|p l IH]; intros cur.
  - exists [], cur. simpl. unfold last_hint. simpl.
    by destruct (decide _).
  - simpl. destruct (decide (section_type cur = pm_section_type p)) as [Heq|Hne].
    + destruct (IH (extend_section cur p)) as (init & c & H1 & H2 & H3).
      exists init, c. rewrite last_hint_extend by done. done.
    + destruct (IH (new_section p)) as (init & c & H1 & H2 & H3).
      exists (cur :: init), c. rewrite last_hint_cons, H1, H3. done.
Qed.

(** A change of hint between two adjacent passages separates the ranges on
    its two sides. *)
Lemma ranges_from_app_boundary cur l1 q l2 :
  last_hint cur l1 <> pm_section_type q ->
  ranges_from cur (l1 ++ q :: l2) = ranges_from cur l1 ++ ranges_from (new_section q) l2.
Proof.
  revert cur. induction l1 as [|p l1 IH]; intros cur Hne; simpl.
  - unfold last_hint in Hne. simpl in Hne. by destruct (decide _).
  - destruct (decide (section_type cur = pm_section_type p)) as [Heq|Hne'].
    + apply IH. by rewrite <- last_hint_extend.
    + simpl. f_equal. apply IH. by rewrite <- (last_hint_cons cur).
Qed.

Lemma ranges_from_run cur l :
  is_run (section_type cur) l ->
  ranges_from cur l = [fold_left extend_section l cur].
Proof.
  revert cur. induction l as [|p l IH]; intros cur Hrun; simpl; [done|].
  inversion Hrun as [|? ? Hp Hl]; subst.
  destruct (decide _) as [_|Hne]; [|congruence].
  by apply IH.
Qed.

Lemma last_hint_run cur l :
  is_run (section_type cur) l -> last_hint cur l = section_type cur.
Proof.
  intros Hrun. unfold last_hint. destruct (last l) as [p|] eqn:Hl; [|done].
  simpl. unfold is_run in Hrun. rewrite Forall_forall in Hrun.
  apply Hrun. apply last_Some in Hl as [l' ->]. set_solver.
Qed.

(** C8: the tracker opens a new range exactly when the hint differs from
    that of the immediately preceding passage, the first passage always
    opening one; a passage with the hint of its predecessor extends the
    end of the current range and appends its passage index; two runs with
    the same hint that are separated by a run with another hint give two
    distinct ranges, not one merged range. *)
Theorem merge_consecutive_sections_adjacency :
  merge_consecutive_sections [] = [] /\
  (forall p, merge_consecutive_sections [p] = [new_section p]) /\
  (forall l p q,
     pm_section_type p <> pm_section_type q ->
     merge_consecutive_sections (l ++ [p; q])
     = merge_consecutive_sections (l ++ [p]) ++ [new_section q]) /\
  (forall l p q,
     pm_section_type p = pm_section_type q ->
     exists init cur,
       merge_consecutive_sections (l ++ [p]) = init ++ [cur] /\
       section_type cur = pm_section_type p /\
       merge_consecutive_sections (l ++ [p; q])
       = init ++ [{| section_type := section_type cur;
                     start := start cur;
                     end_ := pm_end q;
                     passage_indices :=
                       passage_indices cur ++ [pm_passage_index q] |}]) /\
  (forall h h' a A b B a' A',
     h <> h' ->
     is_run h (a :: A) -> is_run h' (b :: B) -> is_run h (a' :: A') ->
     merge_consecutive_sections ((a :: A) ++ (b :: B) ++ (a' :: A'))
     = [run_range a A; run_range b B; run_range a' A']).
Proof.
  split; [done|]. split; [done|].
  assert (forall l p q,
    exists init c,
      merge_consecutive_sections (l ++ [p]) = init ++ [c] /\
      section_type c = pm_section_type p /\
      merge_consecutive_sections (l ++ [p; q])
      = init ++ (if decide (pm_section_type p = pm_section_type q)
                 then [extend_section c q] else [c; new_section q])) as Hsnoc.
  { intros l p q. destruct l as [|x l].
    - exists [], (new_section p). split; [done|]. split; [done|].
      change ([] ++ [p; q]) with (p :: [q]).
      rewrite merge_consecutive_sections_cons. simpl. by destruct (decide _).
    - replace ((x :: l) ++ [p; q]) with (x :: ((l ++ [p]) ++ [q]))
        by (by rewrite <- app_assoc).
      rewrite <- app_comm_cons, !merge_consecutive_sections_cons.
      destruct (ranges_from_snoc (new_section x) (l ++ [p]) q)
        as (init & c & H1 & H2 & H3).
      unfold last_hint in H2, H3. rewrite last_snoc in H2, H3. simpl in H2, H3.
      by exists init, c. }
  split; [|split].
  - intros l p q Hne. destruct (Hsnoc l p q) as (init & c & H1 & _ & H3).
    rewrite H3, H1. destruct (decide _); [done|]. by rewrite <- app_assoc.
  - intros l p q Heq. destruct (Hsnoc l p q) as (init & c & H1 & H2 & H3).
    exists init, c. rewrite H3. by destruct (decide _).
  - intros h h' a A b B a' A' Hne HA HB HA'.
    apply Forall_cons in HA as [Ha HA], HB as [Hb HB], HA' as [Ha' HA'].
    assert (forall x X k, pm_section_type x = k -> is_run k X ->
              is_run (section_type (new_section x)) X) as Hrun
      by (by intros x X k <-).
    rewrite <- !app_comm_cons, merge_consecutive_sections_cons.
    rewrite ranges_from_app_boundary
      by (rewrite last_hint_run by eauto; simpl; congruence).
    rewrite ranges_from_app_boundary
      by (rewrite last_hint_run by eauto; simpl; congruence).
    rewrite !ranges_from_run by eauto. done.
Qed.
End SectionTracker.

Section SectionTrackerExamples.
Import Loader SectionSpec Examples.

Lemma merge_consecutive_sections_adjacency_witness :
  Some "METHODS"%string <> Some "RESULTS"%string /\
  merge_consecutive_sections
    ([meta "METHODS" 0 0 100; meta "METHODS" 1 100 200]
       ++ [meta "RESULTS" 2 200 300] ++ [meta "METHODS" 3 300 400])
  = [ {| section_type := Some "METHODS"%string; start := 0; end_ := 200;
         passage_indices := [0; 1] |};
      {| section_type := Some "RESULTS"%string; start := 200; end_ := 300;
         passage_indices := [2] |};
      {| section_type := Some "METHODS"%string; start := 300; end_ := 400;
         passage_indices := [3] |} ].
Proof.
  assert (Some "METHODS"%string <> Some "RESULTS"%string) as Hne by discriminate.
  split; [exact Hne|].
  exact (proj2 (proj2 (proj2 (proj2 merge_consecutive_sections_adjacency)))
           (Some "METHODS"%string) (Some "RESULTS"%string)
           (meta "METHODS" 0 0 100) [meta "METHODS" 1 100 200]
           (meta "RESULTS" 2 200 300) []
           (meta "METHODS" 3 300 400) []
           Hne
           ltac:(by repeat constructor)
           ltac:(by repeat constructor)
           ltac:(by repeat constructor)).
Defined.
End SectionTrackerExamples.

(** ** Offset projector (sentence.py and sections.py) *)

Section Projector.
Import Models Spacy Utils Sentence Sections ProjectorSpec.

Lemma remove_overlapping_spans_subseteq (spans : list Span) :
  remove_overlapping_spans spans ⊆ spans.
Proof.
  rewrite remove_overlapping_spans_greedy. intros x Hx.
  apply greedy_accept_subseteq in Hx.
  by apply elem_of_sorted in Hx.
Qed.

Lemma format_annotations_subseteq (annotations : list AnnotationDict) :
  format_annotations annotations ⊆ annotation_span <$> annotations.
Proof.
  unfold format_annotations. destruct annotations as [|d l]; [done|].
  apply remove_overlapping_spans_subseteq.
Qed.

(** One overlapping (annotation, sentence) pair: the projected offsets lie
    within the sentence, and they are ordered exactly when the span is. *)
Lemma sentence_annotation_bounds (sent : Sent) (span : Span) (a : Annotation) :
  well_formed sent ->
  sentence_annotation sent span = Some a ->
  0 <= begin_ a /\ end_ a <= Py.len (sent_text sent) /\
  (begin_ a <= end_ a <-> span_0 span <= span_1 span).
Proof.
  unfold well_formed, sentence_annotation. intros Hwf.
  destruct span as [[ann_start ann_end] lbl]. unfold span_0, span_1. simpl.
  destruct (Z.ltb_spec ann_start (end_char sent)); [|done].
  destruct (Z.gtb_spec ann_end (start_char sent)); [|done].
  simpl. intros [= <-]. simpl.
  pose proof (len_nonneg (sent_text sent)).
  split; [lia|]. split; [lia|]. split; lia.
Qed.

Lemma passage_sentence_annotation_bounds
    (txt : list ascii) (abs_start abs_end : Z) (ann : Loader.BioCAnnotation) (a : SentenceAnn) :
  Py.len txt = abs_end - abs_start ->
  passage_sentence_annotation txt abs_start abs_end ann = Some a ->
  exists loc,
    head (Loader.ann_locations ann) = Some loc /\
    0 <= san_start a /\ san_end a <= Py.len txt /\
    (san_start a <= san_end a <-> 0 <= Loader.loc_length loc).
Proof.
  unfold passage_sentence_annotation. intros Hwf.
  destruct (Loader.ann_locations ann) as [|loc locs]; [done|].
  destruct (Z.ltb_spec (Loader.loc_offset loc) abs_end); [|done].
  destruct (Z.gtb_spec (Loader.loc_offset loc + Loader.loc_length loc) abs_start); [|done].
  simpl. intros [= <-]. exists loc. simpl. split; [done|].
  pose proof (len_nonneg txt).
  split; [lia|]. split; [lia|]. split; lia.
Qed.

Lemma elem_of_enumerate_sent (sents : list Sent) (idx : Z) (sent : Sent) :
  (idx, sent) ∈ Py.enumerate sents -> sent ∈ sents.
Proof.
  unfold Py.enumerate. generalize 0.
  induction sents as [|x l IH]; intros n Hin; simpl in Hin.
  - by apply elem_of_nil in Hin.
  - apply elem_of_cons in Hin as [[= _ ->]|Hin]; [by left|].
    right. by eapply IH.
Qed.

(** C1 as amended, pair by pair. Every annotation [a] that the projection
    step produces in a sentence is the projection of one input annotation
    onto that sentence, an overlapping (annotation, sentence) pair; for
    this pair, as for every pair, 0 <= rel_begin and
    rel_end <= len(sentence.text) hold, and rel_begin <= rel_end holds
    exactly when the span of this annotation has begin <= end, so that the
    containment invariant holds for the pair whenever its span is ordered.
    The sentences are those of the sentence service, whose text has length
    end_char - start_char. *)
Theorem projection_containment :
  (forall sent span a,
     well_formed sent ->
     sentence_annotation sent span = Some a ->
     (span_0 span < end_char sent /\ start_char sent < span_1 span) /\
     0 <= begin_ a /\ end_ a <= Py.len (sent_text sent) /\
     (begin_ a <= end_ a <-> span_0 span <= span_1 span) /\
     (span_0 span <= span_1 span ->
      containment (begin_ a) (end_ a) (sent_text sent))) /\
  (forall annotations sents sa a,
     Forall well_formed sents ->
     sa ∈ create_sentence_annotations annotations sents ->
     a ∈ sa_annotations sa ->
     exists sent d,
       sent ∈ sents /\ sa_text sa = sent_text sent /\
       d ∈ annotations /\
       sentence_annotation sent (annotation_span d) = Some a /\
       0 <= begin_ a /\ end_ a <= Py.len (sa_text sa) /\
       (begin_ a <= end_ a
        <-> span_0 (annotation_span d) <= span_1 (annotation_span d)) /\
       (span_0 (annotation_span d) <= span_1 (annotation_span d) ->
        containment (begin_ a) (end_ a) (sa_text sa))) /\
  (forall txt abs_start abs_end ann a,
     Py.len txt = abs_end - abs_start ->
     passage_sentence_annotation txt abs_start abs_end ann = Some a ->
     exists loc,
       head (Loader.ann_locations ann) = Some loc /\
       (Loader.loc_offset loc < abs_end /\
        abs_start < Loader.loc_offset loc + Loader.loc_length loc) /\
       0 <= san_start a /\ san_end a <= Py.len txt /\
       (san_start a <= san_end a <-> 0 <= Loader.loc_length loc) /\
       (0 <= Loader.loc_length loc -> containment (san_start a) (san_end a) txt)) /\
  (forall passage_text passage_annotations passage_offset sents sd a,
     Forall well_formed sents ->
     sd ∈ process_passage_to_sentences
            passage_text passage_annotations passage_offset sents ->
     a ∈ sd_annotations sd ->
     exists ann loc,
       ann ∈ passage_annotations /\
       head (Loader.ann_locations ann) = Some loc /\
       passage_sentence_annotation (sd_text sd) (sd_abs_start sd) (sd_abs_end sd) ann
       = Some a /\
       0 <= san_start a /\ san_end a <= Py.len (sd_text sd) /\
       (san_start a <= san_end a <-> 0 <= Loader.loc_length loc) /\
       (0 <= Loader.loc_length loc ->
        containment (san_start a) (san_end a) (sd_text sd))).
Proof.
  assert (forall sent span a,
            well_formed sent ->
            sentence_annotation sent span = Some a ->
            (span_0 span < end_char sent /\ start_char sent < span_1 span) /\
            0 <= begin_ a /\ end_ a <= Py.len (sent_text sent) /\
            (begin_ a <= end_ a <-> span_0 span <= span_1 span) /\
            (span_0 span <= span_1 span ->
             containment (begin_ a) (end_ a) (sent_text sent))) as Hpair.
  { intros sent span a Hw Hproj.
    destruct (sentence_annotation_bounds sent span a Hw Hproj) as (H0 & H1 & H2).
    assert (span_0 span < end_char sent /\ start_char sent < span_1 span) as Hover.
    { unfold sentence_annotation in Hproj.
      destruct span as [[ann_start ann_end] lbl]. unfold span_0, span_1. simpl.
      destruct (Z.ltb_spec ann_start (end_char sent)); [|done].
      destruct (Z.gtb_spec ann_end (start_char sent)); [|done]. lia. }
    split; [done|]. split; [done|]. split; [done|]. split; [done|].
    intros Hord. unfold containment.
    split; [done|]. split; [|done]. by apply H2. }
  assert (forall txt abs_start abs_end ann a,
            Py.len txt = abs_end - abs_start ->
            passage_sentence_annotation txt abs_start abs_end ann = Some a ->
            exists loc,
              head (Loader.ann_locations ann) = Some loc /\
              (Loader.loc_offset loc < abs_end /\
               abs_start < Loader.loc_offset loc + Loader.loc_length loc) /\
              0 <= san_start a /\ san_end a <= Py.len txt /\
              (san_start a <= san_end a <-> 0 <= Loader.loc_length loc) /\
              (0 <= Loader.loc_length loc ->
               containment (san_start a) (san_end a) txt)) as Hpassage.
  { intros txt abs_start abs_end ann a Hlen Hproj.
    destruct (passage_sentence_annotation_bounds txt abs_start abs_end ann a Hlen Hproj)
      as (loc & Hloc & H0 & H1 & H2).
    exists loc. split; [done|].
    assert (Loader.loc_offset loc < abs_end /\
            abs_start < Loader.loc_offset loc + Loader.loc_length loc) as Hover.
    { unfold passage_sentence_annotation in Hproj.
      destruct (Loader.ann_locations ann) as [|loc' locs]; [done|].
      injection Hloc as ->.
      destruct (Z.ltb_spec (Loader.loc_offset loc) abs_end); [|done].
      destruct (Z.gtb_spec (Loader.loc_offset loc + Loader.loc_length loc) abs_start);
        [|done].
      lia. }
    split; [done|]. split; [done|]. split; [done|]. split; [done|].
    intros Hord. unfold containment.
    split; [done|]. split; [|done]. by apply H2. }
  split; [exact Hpair|]. split; [|split; [exact Hpassage|]].
  - intros annotations sents sa a Hwf Hsa Ha.
    unfold create_sentence_annotations in Hsa.
    apply list_elem_of_fmap in Hsa as ([idx sent] & -> & Hsent).
    simpl in *.
    apply list_elem_of_omap in Ha as (span & Hspan & Hproj).
    apply format_annotations_subseteq in Hspan.
    apply list_elem_of_fmap in Hspan as (d & -> & Hd).
    apply elem_of_enumerate_sent in Hsent.
    assert (well_formed sent) as Hw by (rewrite Forall_forall in Hwf; by apply Hwf).
    destruct (Hpair sent (annotation_span d) a Hw Hproj) as (_ & H0 & H1 & H2 & H3).
    by exists sent, d.
  - intros passage_text passage_annotations passage_offset sents sd a Hwf Hsd Ha.
    unfold process_passage_to_sentences in Hsd.
    destruct (forallb Py.is_space passage_text); [by apply elem_of_nil in Hsd|].
    apply list_elem_of_fmap in Hsd as (sent & -> & Hsent). simpl in *.
    apply list_elem_of_omap in Ha as (ann & Hann & Hproj).
    assert (well_formed sent) as Hw by (rewrite Forall_forall in Hwf; by apply Hwf).
    destruct (Hpassage (sent_text sent) (passage_offset + start_char sent)
                (passage_offset + end_char sent) ann a) as (loc & Hloc & _ & H0);
      [unfold well_formed in Hw; lia|done|].
    by exists ann, loc.
Qed.
End Projector.

Section ProjectorExamples.
Import Models Spacy Utils Sentence Sections ProjectorSpec Examples.

Lemma projection_containment_witness :
  well_formed sentence /\
  sentence_annotation sentence (3, 5, "GENE"%string)
  = Some {| begin_ := 3; end_ := 5; label := "GENE";
            text := Some (list_ascii_of_string "34") |} /\
  containment 3 5 (sent_text sentence).
Proof.
  assert (well_formed sentence) as Hwf by reflexivity.
  assert (sentence_annotation sentence (3, 5, "GENE"%string)
          = Some {| begin_ := 3; end_ := 5; label := "GENE";
                    text := Some (list_ascii_of_string "34") |}) as Hproj
    by reflexivity.
  split; [exact Hwf|]. split; [exact Hproj|].
  destruct (proj1 projection_containment sentence (3, 5, "GENE"%string) _ Hwf Hproj)
    as (_ & _ & _ & _ & Hcontained).
  apply Hcontained. unfold span_0, span_1. simpl. lia.
Defined.

(** C1 fails as stated: the degenerate span (5, 3) overlaps the sentence
    [0, 10) and is projected to rel_begin = 5 > rel_end = 3, by
    [create_sentence_annotations] as by [process_passage_to_sentences]. *)
Lemma degenerate_span_breaks_containment :
  well_formed sentence /\
  (exists sa a,
     sa ∈ create_sentence_annotations [span_dict 5 3 "GENE"] [sentence] /\
     a ∈ sa_annotations sa /\
     ~ containment (begin_ a) (end_ a) (sa_text sa)) /\
  (exists sd a,
     sd ∈ process_passage_to_sentences (list_ascii_of_string "0123456789")
            [{| Loader.ann_id := None; Loader.ann_infons := ∅;
                Loader.ann_locations := [{| Loader.loc_offset := 5; Loader.loc_length := -2 |}];
                Loader.ann_text := None |}] 0 [sentence] /\
     a ∈ sd_annotations sd /\
     ~ containment (san_start a) (san_end a) (sd_text sd)).
Proof.
  split; [reflexivity|]. split.
  - eexists _, {| begin_ := 5; end_ := 3; label := "GENE";
                  text := Some [] |}.
    split; [apply list_elem_of_singleton; reflexivity|].
    split; [apply list_elem_of_singleton; reflexivity|].
    unfold containment. simpl. lia.
  - eexists _, {| san_start := 5; san_end := 3; san_label := "ENTITY";
                  san_text := None |}.
    split; [apply list_elem_of_singleton; reflexivity|].
    split; [apply list_elem_of_singleton; reflexivity|].
    unfold containment. simpl. lia.
Qed.
End ProjectorExamples.

(** ** Section assigner (metadata.py, [group_sentence_annotations_by_section]) *)

Section Assigner.
Import Models Metadata AssignerSpec.

(** The scan returns the label of the first containing range, and the
    placeholder when no range contains the offset. *)
Lemma find_section_for_offset_first (sections : list SectionInfo) (offset : Z) :
  find_section_for_offset sections offset
  = match first_containing sections offset with
    | Some section => reported_label section
    | None => "UNLABELED"%string
    end.
Proof.
  unfold first_containing. induction sections as [|s l IH]; simpl; [done|].
  rewrite filter_cons.
  destruct (decide (contains s offset = true)) as [Hc|Hc]; simpl.
  - unfold contains in Hc. destruct (si_start s), (si_end s); try done.
    by rewrite Hc.
  - rewrite <- IH. unfold contains in Hc.
    destruct (si_start s), (si_end s); try done. by destruct (_ && _).
Qed.

(** When the start of the sentence lies in a range whose reported label is
    not the placeholder, that label is the result and the fallbacks are
    not consulted. *)
Lemma section_name_of_start_match
    (sections : list SectionInfo) (sent_ann : SentenceAnnotation) (section : SectionInfo) :
  first_containing sections (Py.int_or (sa_abs_start sent_ann) 0) = Some section ->
  reported_label section <> "UNLABELED"%string ->
  section_name_of sections sent_ann = reported_label section.
Proof.
  intros Hfirst Hlabel. unfold section_name_of. cbv zeta.
  rewrite find_section_for_offset_first, Hfirst.
  apply String.eqb_neq in Hlabel. rewrite Hlabel. by rewrite Hlabel.
Qed.
End Assigner.

Section AssignerExamples.
Import Models Metadata AssignerSpec Examples.

(** C2 at the failing input: the start 9 of the sentence lies in the first
    range, labelled UNLABELED, yet the sentence is grouped under ABSTRACT,
    the range of its midpoint 11. *)
Theorem unlabeled_start_match_overridden :
  first_containing (Py.sorted start_key [unlabeled; abstract]) 9 = Some unlabeled /\
  section_name_of (Py.sorted start_key [unlabeled; abstract]) straddling
    = "ABSTRACT"%string /\
  group_sentence_annotations_by_section [straddling] (Some [unlabeled; abstract])
    = [("ABSTRACT"%string, [straddling])].
Proof. by repeat split. Qed.
End AssignerExamples.

(** ** Resumable batch driver (processor.py, [process_and_save]) *)

Section BatchDriver.
Import Processor.
Variable document_ids : list string.
Variable process_bioc_by_sections : string -> Exception + list (string * OdinsonDoc).
Variable convert_bioc_to_odinson : string -> Exception + OdinsonDoc.
Variable can_write : string -> bool.
Variable truncates : string -> bool.

Local Abbreviation process' :=
  (process document_ids process_bioc_by_sections convert_bioc_to_odinson).
Local Abbreviation document_files' :=
  (document_files document_ids process_bioc_by_sections convert_bioc_to_odinson
     can_write).
Local Abbreviation fails' :=
  (fails document_ids process_bioc_by_sections convert_bioc_to_odinson).
Local Abbreviation expected_calls' :=
  (expected_calls document_ids process_bioc_by_sections convert_bioc_to_odinson).

Lemma saves_nil st : saves st st [].
Proof. unfold saves. by rewrite app_nil_r. Qed.

Lemma saves_trans st st' st'' f1 f2 :
  saves st st' f1 -> saves st' st'' f2 -> saves st st'' (f1 ++ f2).
Proof.
  intros (H1 & H2 & H3 & H4) (H1' & H2' & H3' & H4'). unfold saves.
  rewrite H1', H1, H2', H3', H4', app_assoc. done.
Qed.

Lemma save_and_collect_spec odinson_doc doc_id section_name st :
  exists st',
    save_and_collect can_write truncates odinson_doc doc_id section_name st = (st', inr tt) /\
    saves st st' (option_list (saved_path can_write doc_id (section_name, odinson_doc))).
Proof.
  unfold save_and_collect, _save_section_file, saved_path, bind. simpl.
  destruct (od_json odinson_doc) as [json|]; simpl.
  - destruct (can_write _); simpl.
    + eexists; split; [done|]. by unfold saves.
    + destruct (truncates _); simpl.
      * eexists; split; [done|]. unfold saves. simpl. by rewrite app_nil_r.
      * eexists; split; [done|]. apply saves_nil.
  - eexists; split; [done|]. apply saves_nil.
Qed.

Lemma for_each_save_spec doc_id (secs : list (string * OdinsonDoc)) st :
  exists st',
    for_each secs (fun '(section_name, odinson_doc) =>
                     save_and_collect can_write truncates odinson_doc doc_id section_name) st
    = (st', inr tt) /\
    saves st st' (omap (saved_path can_write doc_id) secs).
Proof.
  revert st. induction secs as [|[name od] secs IH]; intros st.
  - eexists; split; [done|]. apply saves_nil.
  - cbn [for_each]. unfold bind at 1.
    destruct (save_and_collect_spec od doc_id name st) as (st1 & -> & H1).
    destruct (IH st1) as (st2 & -> & H2).
    exists st2; split; [done|].
    assert (omap (saved_path can_write doc_id) ((name, od) :: secs)
            = option_list (saved_path can_write doc_id (name, od))
              ++ omap (saved_path can_write doc_id) secs) as ->
      by (simpl; by destruct (saved_path _ _ _)).
    by eapply saves_trans.
Qed.

Lemma save_result_spec doc_id result st :
  exists st',
    save_result can_write truncates doc_id result st = (st', inr tt) /\
    saves st st' (result_files can_write doc_id result).
Proof.
  unfold save_result, result_files.
  destruct (sections result) as [[|s rest]|].
  2: apply for_each_save_spec.
  all: destruct (combined result) as [od|];
    [|eexists; split; [done|apply saves_nil]].
  all: destruct (save_and_collect_spec od doc_id "combined" st) as (st' & Hrun & Hs).
  all: exists st'; split; [done|].
  all: simpl; by destruct (saved_path _ _ _).
Qed.

Section Isolation.
Variable by_sections : bool.
Variable on_progress : option Callback.
Hypothesis callback_returns :
  forall callback, on_progress = Some callback ->
  forall before c, callback before c = None.

Lemma notify_spec c st :
  exists st',
    notify on_progress c st = (st', inr tt) /\
    saved_files st' = saved_files st /\
    processed_count st' = processed_count st /\
    failed_count st' = failed_count st /\
    calls st' = calls st ++ notified on_progress [c].
Proof.
  unfold notify, notified. destruct on_progress as [callback|] eqn:Hcb.
  - rewrite (callback_returns callback eq_refl). by eexists.
  - eexists; split; [done|]. simpl. by rewrite app_nil_r.
Qed.

(** One iteration neither raises nor stops the loop: it counts the
    document as processed or failed, reports that status, and adds the
    files of the document to the saved ones. *)
Lemma process_one_spec total idx doc_id st :
  exists st',
    process_one document_ids process_bioc_by_sections convert_bioc_to_odinson
      can_write truncates by_sections on_progress total (idx, doc_id) st = (st', inr tt) /\
    saved_files st' = saved_files st ++ document_files' by_sections doc_id /\
    processed_count st'
      = processed_count st + (if fails' by_sections doc_id then 0 else 1) /\
    failed_count st'
      = failed_count st + (if fails' by_sections doc_id then 1 else 0) /\
    calls st'
      = calls st ++ notified on_progress [(idx, total, doc_id,
                               status_of document_ids process_bioc_by_sections
                                 convert_bioc_to_odinson by_sections doc_id)].
Proof.
  unfold process_one, try_except, document_files, fails, status_of, fails.
  unfold bind at 1, lift.
  destruct (process' doc_id by_sections) as [e|result].
  - unfold bind, modify.
    destruct (notify_spec (idx, total, doc_id, "failed"%string) (count_failed st))
      as (st' & -> & H1 & H2 & H3 & H4).
    exists st'. split; [done|]. rewrite H1, H2, H3, H4. simpl.
    rewrite app_nil_r. repeat split; lia.
  - unfold bind at 1.
    destruct (save_result_spec doc_id result st) as (st1 & -> & S1 & S2 & S3 & S4).
    unfold bind, modify.
    destruct (notify_spec (idx, total, doc_id, "processed"%string) (count_processed st1))
      as (st' & -> & H1 & H2 & H3 & H4).
    exists st'. split; [done|]. rewrite H1, H2, H3, H4. simpl.
    rewrite S1, S2, S3, S4. repeat split; lia.
Qed.

Lemma for_each_process_one_spec total (ids : list string) i st :
  exists st',
    for_each (Py.enumerate_from i ids)
      (process_one document_ids process_bioc_by_sections convert_bioc_to_odinson
         can_write truncates by_sections on_progress total) st = (st', inr tt) /\
    saved_files st' = saved_files st ++ (ids ≫= document_files' by_sections) /\
    processed_count st'
      = processed_count st
        + Py.len (filter (fun d => fails' by_sections d = false) ids) /\
    failed_count st'
      = failed_count st
        + Py.len (filter (fun d => fails' by_sections d = true) ids) /\
    calls st' = calls st ++ notified on_progress (expected_calls' by_sections total i ids).
Proof.
  revert i st. induction ids as [|d ids IH]; intros i st.
  - exists st. unfold notified, expected_calls, Py.len. simpl.
    rewrite !app_nil_r. repeat split; try lia.
    destruct on_progress; by rewrite app_nil_r.
  - cbn [Py.enumerate_from for_each]. unfold bind at 1.
    destruct (process_one_spec total i d st) as (st1 & -> & H1 & H2 & H3 & H4).
    destruct (IH (i + 1) st1) as (st2 & -> & K1 & K2 & K3 & K4).
    exists st2. split; [done|].
    rewrite K1, K2, K3, K4, H1, H2, H3, H4, !filter_cons.
    split; [by rewrite <- app_assoc|].
    unfold notified, expected_calls. cbn [Py.enumerate_from fmap list_fmap].
    destruct (fails' by_sections d) eqn:Hf.
    all: destruct (decide _) as [?|?]; try done.
    all: destruct (decide _) as [?|?]; try done.
    all: unfold Py.len; cbn [length].
    all: repeat split; try lia.
    all: destruct on_progress; rewrite <- ?app_assoc; done.
Qed.

Lemma create_archive_spec compress st :
  exists st' archive,
    create_archive can_write truncates compress st = (st', inr tt) /\
    saves st st' archive /\
    (archive = [] \/ archive = [archive_name]).
Proof.
  unfold create_archive, get. unfold bind at 1.
  destruct (saved_files st) as [|f l] eqn:Hsaved.
  - exists st, []. split; [done|]. split; [apply saves_nil|by left].
  - destruct (compress && can_write archive_name).
    + unfold bind, modify. eexists _, [archive_name].
      split; [done|]. split; [|by right]. by unfold saves.
    + destruct (compress && truncates archive_name).
      * unfold modify. eexists _, []. split; [done|]. split; [|by left].
        unfold saves. simpl. by rewrite app_nil_r.
      * exists st, []. split; [done|]. split; [apply saves_nil|by left].
Qed.

Lemma process_and_save_run
    (files : gmap string FileContent) (resume compress : bool)
    (document_ids_arg : option (list string)) :
  let ids := ids_to_process document_ids resume document_ids_arg files in
  exists st' archive,
    process_and_save document_ids process_bioc_by_sections convert_bioc_to_odinson
      can_write truncates files by_sections resume compress on_progress document_ids_arg
    = (st', inr ((ids ≫= document_files' by_sections) ++ archive)) /\
    (archive = [] \/ archive = [archive_name]) /\
    failed_count st' = Py.len (filter (fun d => fails' by_sections d = true) ids) /\
    processed_count st'
      = Py.len (filter (fun d => fails' by_sections d = false) ids) /\
    calls st' = notified on_progress (expected_calls' by_sections (Py.len ids) 1 ids).
Proof.
  intros ids. unfold process_and_save, process_and_save_body.
  set (st0 := {| fs := files; saved_files := []; processed_count := 0;
                 failed_count := 0; calls := [] |}).
  destruct (requested_ids document_ids document_ids_arg) as [|d0 l0] eqn:Hreq.
  { assert (ids = []) as ->.
    { subst ids. unfold ids_to_process. rewrite Hreq. by destruct resume. }
    exists st0, []. split; [done|]. split; [by left|].
    split; [done|]. split; [done|]. unfold notified. by destruct on_progress. }
  unfold get. unfold bind at 1. cbn [fs st0]. fold ids. fold st0.
  destruct (for_each_process_one_spec (Py.len ids) ids 1 st0)
    as (st1 & Hrun & H1 & H2 & H3 & H4).
  unfold bind at 1. rewrite Hrun.
  destruct (create_archive_spec compress st1)
    as (st2 & archive & Harch & (A1 & A2 & A3 & A4) & Hor).
  unfold bind at 1. rewrite Harch. unfold bind, ret.
  exists st2, archive. rewrite A1, A2, A3, A4, H1, H2, H3, H4. simpl.
  split; [done|]. split; [done|]. split; [lia|]. split; [lia|done].
Qed.

Lemma expected_calls_lookup total (ids : list string) (i : Z) (k : nat) doc_id :
  ids !! k = Some doc_id ->
  (Z.of_nat k + i, total, doc_id,
   status_of document_ids process_bioc_by_sections convert_bioc_to_odinson
     by_sections doc_id)
  ∈ expected_calls' by_sections total i ids.
Proof.
  unfold expected_calls. revert i k.
  induction ids as [|x xs IH]; intros i k Hk; [by rewrite lookup_nil in Hk|].
  destruct k as [|k]; simpl in Hk.
  - injection Hk as ->. cbn [Py.enumerate_from fmap list_fmap].
    replace (Z.of_nat 0 + i) with i by lia. by left.
  - cbn [Py.enumerate_from fmap list_fmap]. right.
    replace (Z.of_nat (S k) + i) with (Z.of_nat k + (i + 1)) by lia.
    by apply IH.
Qed.

(** C9: in [process_and_save], with a progress callback that returns, an
    exception raised by the conversion of a document does not leave the
    driver. The driver returns the files saved for the documents whose
    conversion did not raise (followed by the archive, if one was made);
    every document to process, failing or not, is counted and reported to
    the callback, in order, the failing ones with the status failed. *)
Theorem process_and_save_isolates_failures
    (files : gmap string FileContent) (resume compress : bool)
    (document_ids_arg : option (list string)) :
  let ids :=
    ids_to_process document_ids resume document_ids_arg files in
  let run :=
    process_and_save document_ids process_bioc_by_sections convert_bioc_to_odinson
      can_write truncates files by_sections resume compress on_progress document_ids_arg in
  exists archive,
    run.2 = inr ((ids ≫= document_files' by_sections) ++ archive) /\
    (archive = [] \/ archive = [archive_name]) /\
    failed_count run.1 = Py.len (filter (fun d => fails' by_sections d = true) ids) /\
    processed_count run.1
      = Py.len (filter (fun d => fails' by_sections d = false) ids) /\
    (is_Some on_progress ->
     calls run.1 = expected_calls' by_sections (Py.len ids) 1 ids /\
     forall (k : nat) doc_id,
       ids !! k = Some doc_id ->
       fails' by_sections doc_id = true ->
       (Z.of_nat k + 1, Py.len ids, doc_id, "failed"%string) ∈ calls run.1).
Proof.
  intros ids run.
  destruct (process_and_save_run files resume compress document_ids_arg)
    as (st' & archive & Hrun & Hor & Hf & Hp & Hc).
  fold ids in Hrun, Hf, Hp, Hc. fold run in Hrun. rewrite Hrun. cbn [fst snd].
  exists archive. split; [done|]. split; [done|]. split; [done|]. split; [done|].
  intros [callback Hcb]. rewrite Hc. unfold notified. rewrite Hcb.
  split; [done|].
  intros k doc_id Hk Hfail.
  pose proof (expected_calls_lookup (Py.len ids) ids 1 k doc_id Hk) as Hin.
  unfold status_of in Hin. by rewrite Hfail in Hin.
Qed.
End Isolation.
End BatchDriver.

(** ** Resume scan (processor.py, [_get_existing_doc_ids]) *)

Section ResumeScan.
Import Processor.
Implicit Types (s t : list ascii) (c : ascii).

Lemma list_ascii_of_string_append (a b : string) :
  list_ascii_of_string (a +:+ b) = list_ascii_of_string a ++ list_ascii_of_string b.
Proof. induction a as [|x a IH]; simpl; [done|]. by rewrite IH. Qed.

Lemma rfind_from_absent i c t : c ∉ t -> Py.rfind_from i c t = None.
Proof.
  revert i. induction t as [|x t IH]; intros i Hc; simpl; [done|].
  apply not_elem_of_cons in Hc as [Hx Ht]. rewrite IH by done.
  by rewrite bool_decide_eq_false_2.
Qed.

(** The last occurrence of a character is the one that nothing follows. *)
Lemma rfind_from_last i c s t :
  c ∉ t -> Py.rfind_from i c (s ++ c :: t) = Some (i + length s)%nat.
Proof.
  revert i. induction s as [|x s IH]; intros i Hc; simpl.
  - rewrite rfind_from_absent by done.
    rewrite bool_decide_eq_true_2 by done. f_equal. lia.
  - rewrite IH by done. f_equal. lia.
Qed.

Lemma endswith_app s t : Py.endswith t (s ++ t) = true.
Proof.
  unfold Py.endswith. apply bool_decide_eq_true.
  rewrite length_app. replace (length s + length t - length t)%nat with (length s) by lia.
  apply drop_app_length.
Qed.

Lemma sub_unsafe_safe b s : Forall (fun c => safe_char c = true) (sub_unsafe b s).
Proof.
  revert b. induction s as [|x s IH]; intros b; simpl; [constructor|].
  destruct (safe_char x) eqn:Hx; [by constructor|].
  destruct b; [apply IH|]. constructor; [done|apply IH].
Qed.

Lemma lstrip_underscores_safe s :
  Forall (fun c => safe_char c = true) s ->
  Forall (fun c => safe_char c = true) (lstrip_underscores s).
Proof.
  induction 1 as [|x s Hx Hs IH]; simpl; [constructor|].
  destruct (bool_decide (x = "_"%char)); [done|by constructor].
Qed.

(** A sanitized name consists of characters of the class [a-z0-9_-]. *)
Lemma sanitize_filename_safe (name : string) :
  Forall (fun c => safe_char c = true)
         (list_ascii_of_string (_sanitize_filename name)).
Proof.
  unfold _sanitize_filename. case_bool_decide as Hempty.
  - by repeat constructor.
  - rewrite list_ascii_of_string_of_list_ascii. unfold strip_underscores.
    apply Forall_reverse, lstrip_underscores_safe, Forall_reverse,
      lstrip_underscores_safe, sub_unsafe_safe.
Qed.

Lemma head_filter_unique {A} (P : A -> Prop) `{!forall x, Decision (P x)}
    (l : list A) (x : A) :
  x ∈ l -> P x -> (forall y, y ∈ l -> P y -> y = x) ->
  head (filter P l) = Some x.
Proof.
  induction l as [|y l IH]; intros Hx HP Huniq; [by apply elem_of_nil in Hx|].
  rewrite filter_cons. destruct (decide (P y)) as [Hy|Hy].
  - simpl. f_equal. apply Huniq; [by left|done].
  - apply IH; [|done|].
    + apply elem_of_cons in Hx as [->|Hx]; [done|done].
    + intros z Hz. apply Huniq. by right.
Qed.

(** Where the resume scan does invert the naming: when the sanitized
    section name has no underscore and no other document of the collection
    has the same sanitized identifier, or that identifier as its own, the
    file written for a document is read back as that document. *)
Lemma existing_doc_id_section_filename
    (document_ids : list string) (doc_id section_name : string) :
  doc_id ∈ document_ids ->
  "_"%char ∉ list_ascii_of_string (_sanitize_filename section_name) ->
  (forall d, d ∈ document_ids ->
     _sanitize_filename doc_id = _sanitize_filename d \/ _sanitize_filename doc_id = d ->
     d = doc_id) ->
  existing_doc_id document_ids (section_filename doc_id section_name) = Some doc_id.
Proof.
  intros Hin Hsec Huniq. unfold existing_doc_id, section_filename.
  set (S := _sanitize_filename doc_id). set (T := _sanitize_filename section_name).
  rewrite !list_ascii_of_string_append.
  change (list_ascii_of_string "_") with ["_"%char].
  set (Sl := list_ascii_of_string S). set (Tl := list_ascii_of_string T).
  set (json := list_ascii_of_string ".json").
  assert (Sl ++ ["_"%char] ++ Tl ++ json = (Sl ++ "_"%char :: Tl) ++ json) as ->
    by (by rewrite <- !app_assoc).
  rewrite endswith_app.
  assert ("."%char ∉ Tl) as Hdot.
  { intros Hd. pose proof (sanitize_filename_safe section_name) as Hsafe.
    rewrite Forall_forall in Hsafe. by specialize (Hsafe _ Hd). }
  assert (Py.stem ((Sl ++ "_"%char :: Tl) ++ json) = Sl ++ "_"%char :: Tl) as ->.
  { unfold Py.stem.
    change json with ("."%char :: list_ascii_of_string "json").
    rewrite rfind_from_last.
    2:{ intros Hd. repeat (apply elem_of_cons in Hd as [Hd|Hd]; [done|]).
        by apply elem_of_nil in Hd. }
    simpl Nat.add.
    assert ((0 <? length (Sl ++ "_"%char :: Tl))%nat = true) as ->.
    { apply Nat.ltb_lt. rewrite length_app. simpl. lia. }
    assert ((length (Sl ++ "_"%char :: Tl)
             <? length ((Sl ++ "_"%char :: Tl)
                        ++ "."%char :: list_ascii_of_string "json") - 1)%nat = true)
      as ->.
    { apply Nat.ltb_lt. rewrite (length_app (Sl ++ _)). simpl. lia. }
    simpl andb. cbv iota. apply take_app_length. }
  unfold Py.rsplit1_head. rewrite rfind_from_last by done.
  simpl Nat.add. rewrite take_app_length.
  unfold Sl. rewrite string_of_list_ascii_of_string.
  by apply head_filter_unique; [|left|].
Qed.
End ResumeScan.

Section BatchDriverExamples.
Import Processor Examples.
Local Open Scope string_scope.

Lemma process_and_save_isolates_failures_witness :
  (forall callback, Some quiet = Some callback ->
   forall before c, callback before c = None) /\
  (process_and_save collection first_fails no_combined always_writable never_truncates
     ∅ true false false (Some quiet) None).2
  = inr ["67890_title.json"; "11111_abstract.json"] /\
  (1, 3, "12345", "failed")
  ∈ calls (process_and_save collection first_fails no_combined always_writable never_truncates
             ∅ true false false (Some quiet) None).1.
Proof.
  assert (forall callback, Some quiet = Some callback ->
          forall before c, callback before c = None) as Hquiet.
  { intros callback [= <-] before c. reflexivity. }
  split; [exact Hquiet|].
  destruct (process_and_save_isolates_failures collection first_fails no_combined
              always_writable never_truncates true (Some quiet) Hquiet
              ∅ false false None)
    as (archive & Hret & _ & _ & _ & Hcalls).
  split.
  - reflexivity.
  - destruct (Hcalls (mk_is_Some _ _ eq_refl)) as [_ Hfailed].
    exact (Hfailed 0%nat "12345" eq_refl eq_refl).
Defined.

(** C3 at the failing input: the file written for document 12345 and the
    section Results & Discussion is 12345_results_discussion.json; the
    resume scan cuts it at its last underscore, finds no document named
    12345_results, and the rerun with resume processes 12345 again. *)
Theorem resume_scan_misses_underscored_section :
  section_filename "12345" "Results & Discussion" = "12345_results_discussion.json" /\
  first_run.2 = inr ["12345_results_discussion.json"] /\
  dom (fs first_run.1) = {["12345_results_discussion.json"]} /\
  existing_doc_id ["12345"] "12345_results_discussion.json" = None /\
  _get_existing_doc_ids ["12345"] ["12345_results_discussion.json"] = ∅ /\
  ids_to_process ["12345"] true None (fs first_run.1) = ["12345"] /\
  processed_count second_run.1 = 1.
Proof. by vm_compute. Qed.
End BatchDriverExamples.

(** ** The embedding on the inputs of the test suite and of the scenarios *)

Section Scenarios.
Import Processor Examples.
Local Open Scope string_scope.

(** tests/test_processor.py, [test_sanitize_filename]. *)
Example sanitize_filename_tests :
  _sanitize_filename <$> ["ABSTRACT"; "Results & Discussion"; "Test/Name"; ""; "___"]
  = ["abstract"; "results_discussion"; "test_name"; "unknown"; "unknown"].
Proof. reflexivity. Qed.

(** tests/test_processor.py, [test_get_existing_doc_ids_with_files]. *)
Example get_existing_doc_ids_test :
  _get_existing_doc_ids collection
    ["12345_title.json"; "12345_abstract.json"; "67890_intro.json";
     "unrelated_file.json"]
  = {["12345"; "67890"]}.
Proof. by vm_compute. Qed.

(** tests/test_converter.py, [test_merge_consecutive_sections]. *)
Example merge_consecutive_sections_test :
  (fun s => (Loader.section_type s, Loader.end_ s))
  <$> Loader.merge_consecutive_sections
        [meta "ABSTRACT" 0 0 100; meta "ABSTRACT" 1 100 200; meta "METHODS" 2 200 300]
  = [(Some "ABSTRACT", 200); (Some "METHODS", 300)].
Proof. reflexivity. Qed.

(** Scenario 3: a sentence starting at 25 is assigned to the abstract. *)
Example assigner_scenario_3 :
  Metadata.section_name_of
    [ {| Metadata.si_section_type := Some "TITLE";
         Metadata.si_start := Some 0; Metadata.si_end := Some 10 |}; abstract ]
    {| Models.sa_text := []; Models.sa_annotations := []; Models.sa_sentence_id := None;
       Models.sa_abs_start := Some 25; Models.sa_abs_end := Some 32 |}
  = "ABSTRACT".
Proof. reflexivity. Qed.

(** Scenario 5: the annotation (8, 20, GENE) against the sentence [10, 15). *)
Example projector_scenario_5 :
  (fun a => (Models.begin_ a, Models.end_ a, Models.label a))
  <$> Sentence.sentence_annotation
        {| Spacy.sent_text := list_ascii_of_string "abcde";
           Spacy.start_char := 10; Spacy.end_char := 15 |}
        (8, 20, "GENE")
  = Some (0, 5, "GENE").
Proof. reflexivity. Qed.
End Scenarios.

(** * Further properties of the code *)

(** ** Span normalizer: what is kept and what is dropped *)

Section SpanNormalizerMore.
Import Utils SpanSpec.
Implicit Types (l : list Span) (o : option Z).

(** A list in ascending key order is its own stable sort. *)
Lemma sorted_of_Sorted {A} (key : A -> Z) (l : list A) :
  Sorted (le_by key) l -> Py.sorted key l = l.
Proof. intros Hs. symmetry. by apply stable_sort_unique. Qed.

Lemma greedy_accept_clean o l :
  Sorted ends_before l ->
  (forall e x, o = Some e -> head l = Some x -> e <= span_0 x) ->
  greedy_accept o l = l.
Proof.
  intros Hs. revert o. induction Hs as [|s l Hs IH Hhd]; intros o Ho; simpl; [done|].
  assert (greedy_accept (Some (span_1 s)) l = l) as Hrest.
  { apply IH. intros e x [= <-] Hx. destruct l as [|y l]; [done|].
    injection Hx as ->. by inversion Hhd. }
  destruct o as [e|]; [|by rewrite Hrest].
  specialize (Ho e s eq_refl eq_refl).
  destruct (Z.leb_spec e (span_0 s)); [by rewrite Hrest|lia].
Qed.

Lemma greedy_accept_sorted o l :
  StronglySorted (le_by span_0) l -> StronglySorted (le_by span_0) (greedy_accept o l).
Proof.
  intros Hl. revert o. induction Hl as [|s l Hl IH Hall]; intros o; simpl; [constructor|].
  assert (StronglySorted (le_by span_0) (s :: greedy_accept (Some (span_1 s)) l)).
  { constructor; [apply IH|]. rewrite Forall_forall in Hall |- *.
    intros x Hx. apply Hall. by apply greedy_accept_subseteq in Hx. }
  destruct o as [e|]; [destruct (e <=? span_0 s)|]; auto.
Qed.

Lemma remove_overlapping_spans_clean (spans : list Span) :
  Sorted (le_by span_0) (remove_overlapping_spans spans) /\
  Sorted ends_before (remove_overlapping_spans spans).
Proof.
  rewrite remove_overlapping_spans_greedy.
  pose proof (sorted_Sorted span_0 spans) as Hs.
  apply Sorted_StronglySorted in Hs; [|apply le_key_trans].
  split; apply StronglySorted_Sorted.
  - by apply greedy_accept_sorted.
  - by apply greedy_accept_disjoint.
Qed.

(** X1: a span list that is already in ascending order of begin, each span
    ending before the next begins, is returned unchanged. *)
Theorem remove_overlapping_spans_clean_unchanged (spans : list Span) :
  Sorted (le_by span_0) spans ->
  Sorted ends_before spans ->
  remove_overlapping_spans spans = spans.
Proof.
  intros Hbegin Hends.
  rewrite remove_overlapping_spans_greedy, sorted_of_Sorted by done.
  by apply greedy_accept_clean.
Qed.

(** X2: normalizing twice is normalizing once. *)
Theorem remove_overlapping_spans_idempotent (spans : list Span) :
  remove_overlapping_spans (remove_overlapping_spans spans)
  = remove_overlapping_spans spans.
Proof.
  destruct (remove_overlapping_spans_clean spans) as [Hbegin Hends].
  rewrite (remove_overlapping_spans_greedy (remove_overlapping_spans spans)).
  rewrite sorted_of_Sorted by done. by apply greedy_accept_clean.
Qed.

(** In an ascending list every span is accepted, or starts inside an
    accepted span, or starts before the end [e] the scan began with. *)
Lemma greedy_accept_blocked o l s :
  StronglySorted (le_by span_0) l -> s ∈ l ->
  s ∈ greedy_accept o l \/
  (exists k, k ∈ greedy_accept o l /\ span_0 k <= span_0 s /\ span_0 s < span_1 k) \/
  (exists e, o = Some e /\ span_0 s < e).
Proof.
  intros Hl. revert o. induction Hl as [|x l Hl IH Hall]; intros o Hs.
  { by apply elem_of_nil in Hs. }
  assert (s ∈ l ->
          s ∈ x :: greedy_accept (Some (span_1 x)) l \/
          exists k, k ∈ x :: greedy_accept (Some (span_1 x)) l /\
                    span_0 k <= span_0 s /\ span_0 s < span_1 k) as Haccepted.
  { intros Hin. destruct (IH (Some (span_1 x)) Hin) as [H|[(k & Hk & Hb)|(e & [= <-] & He)]].
    - left. by right.
    - right. exists k. split; [by right|done].
    - right. exists x. split; [by left|]. split; [|done].
      rewrite Forall_forall in Hall. by apply Hall. }
  apply elem_of_cons in Hs as [->|Hs]; simpl.
  - destruct o as [e|]; [|left; by left].
    destruct (Z.leb_spec e (span_0 x)); [left; by left|].
    right. right. by exists e.
  - destruct o as [e|].
    + destruct (Z.leb_spec e (span_0 x)) as [Hle|Hlt].
      * destruct (Haccepted Hs) as [Hin|Hblk]; [by left|right; by left].
      * apply IH, Hs.
    + destruct (Haccepted Hs) as [Hin|Hblk]; [by left|right; by left].
Qed.

(** X3: a span of the input that is not in the result starts inside a span
    that is: nothing is dropped without a kept span that overlaps it. *)
Theorem remove_overlapping_spans_dropped_blocked (spans : list Span) (s : Span) :
  s ∈ spans ->
  s ∈ remove_overlapping_spans spans \/
  exists k, k ∈ remove_overlapping_spans spans /\
            span_0 k <= span_0 s /\ span_0 s < span_1 k.
Proof.
  intros Hs. rewrite remove_overlapping_spans_greedy.
  pose proof (sorted_Sorted span_0 spans) as Hsorted.
  apply Sorted_StronglySorted in Hsorted; [|apply le_key_trans].
  apply (elem_of_sorted span_0) in Hs.
  destruct (greedy_accept_blocked None _ s Hsorted Hs) as [H|[H|(e & He & _)]];
    [by left|by right|done].
Qed.
End SpanNormalizerMore.

(** ** Offset projector: the projected interval and its text *)

Section ProjectorMore.
Import Models Spacy Utils Sentence Sections ProjectorShift.

(** X4: [sentence_annotation] yields an annotation exactly for the spans
    that overlap the sentence, and the projected interval, moved back to
    document coordinates, is the intersection of span and sentence:
    it starts at max(begin, start_char) and ends at min(end, end_char). *)
Theorem sentence_annotation_intersection (sent : Sent) (a e : Z) (lbl : string) :
  well_formed sent ->
  (sentence_annotation sent (a, e, lbl) = None
   <-> ~ (a < end_char sent /\ start_char sent < e)) /\
  (forall ann,
     sentence_annotation sent (a, e, lbl) = Some ann ->
     start_char sent + begin_ ann = Z.max a (start_char sent) /\
     start_char sent + end_ ann = Z.min e (end_char sent) /\
     label ann = lbl).
Proof.
  unfold well_formed, sentence_annotation. intros Hwf.
  destruct (Z.ltb_spec a (end_char sent)) as [Ha|Ha];
    destruct (Z.gtb_spec e (start_char sent)) as [He|He]; simpl.
  all: split;
    [split; [intros Heq; try discriminate Heq; lia
            |intros Hno; try done; exfalso; lia]|].
  all: intros ann Heq; try discriminate Heq.
  injection Heq as <-. simpl. split; [lia|]. split; [lia|done].
Qed.

Lemma len_slice {A} (s : list A) (lo hi : Z) :
  0 <= lo -> lo <= hi -> hi <= Py.len s -> Py.len (Py.slice s lo hi) = hi - lo.
Proof.
  intros H0 H1 H2. unfold Py.slice, Py.slice_bound.
  destruct (Z.ltb_spec lo 0); [lia|]. destruct (Z.ltb_spec hi 0); [lia|].
  rewrite !Z.min_l by lia. unfold Py.len in *.
  rewrite length_take, length_drop. lia.
Qed.

(** A slice of a slice is a slice of the whole. *)
Lemma slice_slice {A} (s : list A) (lo hi rb re : Z) :
  0 <= lo -> lo <= hi -> hi <= Py.len s ->
  0 <= rb -> 0 <= re -> re <= hi - lo ->
  Py.slice (Py.slice s lo hi) rb re = Py.slice s (lo + rb) (lo + re).
Proof.
  intros H0 H1 H2 H3 H4 H5.
  destruct (Z.le_gt_cases re rb) as [Hle|Hlt].
  { unfold Py.slice at 1 3. rewrite len_slice by done. unfold Py.slice_bound.
    destruct (Z.ltb_spec rb 0); [lia|]. destruct (Z.ltb_spec re 0); [lia|].
    destruct (Z.ltb_spec (lo + rb) 0); [lia|]. destruct (Z.ltb_spec (lo + re) 0); [lia|].
    replace (Z.to_nat (Z.min re (hi - lo) - Z.min rb (hi - lo))) with 0%nat by lia.
    replace (Z.to_nat (Z.min (lo + re) (Py.len s) - Z.min (lo + rb) (Py.len s)))
      with 0%nat by lia.
    done. }
  unfold Py.slice at 1 3. rewrite len_slice by done. unfold Py.slice_bound.
  destruct (Z.ltb_spec rb 0); [lia|]. destruct (Z.ltb_spec re 0); [lia|].
  destruct (Z.ltb_spec (lo + rb) 0); [lia|]. destruct (Z.ltb_spec (lo + re) 0); [lia|].
  rewrite !Z.min_l by lia.
  unfold Py.slice, Py.slice_bound.
  destruct (Z.ltb_spec lo 0); [lia|]. destruct (Z.ltb_spec hi 0); [lia|].
  rewrite !Z.min_l by lia.
  replace (Z.to_nat (hi - lo)) with (Z.to_nat rb + Z.to_nat (hi - lo - rb))%nat by lia.
  rewrite <- take_drop_commute, take_take, drop_drop.
  f_equal; [lia|]. f_equal. lia.
Qed.

(** X5: when the sentence text is the slice of the document text between
    [start_char] and [end_char], the text stored with a projected
    annotation is the document text under the intersection of span and
    sentence. *)
Theorem sentence_annotation_text
    (doc_text : list ascii) (sent : Sent) (a e : Z) (lbl : string) (ann : Annotation) :
  sent_text sent = Py.slice doc_text (start_char sent) (end_char sent) ->
  0 <= start_char sent -> start_char sent < end_char sent ->
  end_char sent <= Py.len doc_text ->
  sentence_annotation sent (a, e, lbl) = Some ann ->
  text ann
  = Some (Py.slice doc_text (Z.max a (start_char sent)) (Z.min e (end_char sent))).
Proof.
  intros Htext H0 H1 H2. unfold sentence_annotation.
  assert (Py.len (sent_text sent) = end_char sent - start_char sent) as Hlen
    by (rewrite Htext; apply len_slice; lia).
  destruct (Z.ltb_spec a (end_char sent)) as [Ha|Ha]; [|done].
  destruct (Z.gtb_spec e (start_char sent)) as [He|He]; [|done].
  simpl. intros [= <-]. simpl.
  destruct (Z.ltb_spec (Z.max 0 (a - start_char sent)) (Py.len (sent_text sent)));
    [|lia].
  f_equal. rewrite Hlen, Htext, slice_slice by lia. f_equal; lia.
Qed.

Lemma omap_StronglySorted {A B} (R : A -> A -> Prop) (R' : B -> B -> Prop)
    (f : A -> option B) (l : list A) :
  (forall x y a b, R x y -> f x = Some a -> f y = Some b -> R' a b) ->
  StronglySorted R l -> StronglySorted R' (omap f l).
Proof.
  intros Hf. induction 1 as [|x l Hl IH Hall]; simpl; [constructor|].
  destruct (f x) as [a|] eqn:Hx; [|done].
  constructor; [done|]. rewrite Forall_forall in Hall. rewrite Forall_forall.
  intros b Hb. apply list_elem_of_omap in Hb as (y & Hy & Hfy).
  by apply (Hf x y); [apply Hall|..].
Qed.

Lemma format_annotations_disjoint (annotations : list AnnotationDict) :
  StronglySorted SpanSpec.ends_before (format_annotations annotations).
Proof.
  unfold format_annotations. destruct annotations as [|d l]; [constructor|].
  rewrite remove_overlapping_spans_greedy.
  apply greedy_accept_disjoint, Sorted_StronglySorted; [apply le_key_trans|].
  apply sorted_Sorted.
Qed.

(** X6: within every sentence that [create_sentence_annotations] returns,
    the annotations are pairwise non-overlapping and in ascending order:
    each ends at or before the begin of every later one. *)
Theorem create_sentence_annotations_disjoint
    (annotations : list AnnotationDict) (sents : list Sent)
    (sa : SentenceAnnotation) (i j : nat) (a b : Annotation) :
  sa ∈ create_sentence_annotations annotations sents ->
  (i < j)%nat ->
  sa_annotations sa !! i = Some a ->
  sa_annotations sa !! j = Some b ->
  end_ a <= begin_ b.
Proof.
  intros Hsa Hij Hi Hj. unfold create_sentence_annotations in Hsa.
  apply list_elem_of_fmap in Hsa as ([idx sent] & -> & _). simpl in Hi, Hj.
  eapply (StronglySorted_lookup (fun a b => end_ a <= begin_ b)); [|done..].
  apply (omap_StronglySorted SpanSpec.ends_before); [|apply format_annotations_disjoint].
  intros [[a1 e1] l1] [[a2 e2] l2] p q Hxy. unfold SpanSpec.ends_before in Hxy.
  unfold span_0, span_1 in Hxy. simpl in Hxy. unfold sentence_annotation.
  destruct (_ && _); [|done]. destruct (_ && _); [|done].
  intros [= <-] [= <-]. simpl. lia.
Qed.

(** X7: a span that crosses the boundary between two contiguous sentences
    is projected into both, and the two projected lengths add up to the
    length of the span. *)
Theorem sentence_annotation_split (sent1 sent2 : Sent) (a e : Z) (lbl : string) :
  well_formed sent1 -> well_formed sent2 ->
  end_char sent1 = start_char sent2 ->
  start_char sent1 <= a -> a < end_char sent1 ->
  end_char sent1 < e -> e <= end_char sent2 ->
  exists p1 p2,
    sentence_annotation sent1 (a, e, lbl) = Some p1 /\
    sentence_annotation sent2 (a, e, lbl) = Some p2 /\
    (end_ p1 - begin_ p1) + (end_ p2 - begin_ p2) = e - a /\
    end_ p1 = Py.len (sent_text sent1) /\ begin_ p2 = 0.
Proof.
  unfold well_formed, sentence_annotation. intros Hw1 Hw2 Hc H1 H2 H3 H4.
  destruct (Z.ltb_spec a (end_char sent1)); [|lia].
  destruct (Z.gtb_spec e (start_char sent1)); [|lia].
  destruct (Z.ltb_spec a (end_char sent2)); [|lia].
  destruct (Z.gtb_spec e (start_char sent2)); [|lia].
  simpl. eexists _, _. split; [done|]. split; [done|]. simpl. lia.
Qed.

(** X8: in [process_passage_to_sentences] every annotation of a sentence
    comes from the first location of a passage annotation that overlaps
    the sentence, and its interval, moved back to document coordinates, is
    the intersection of that location with the sentence. *)
Theorem process_passage_to_sentences_intersection
    (passage_text : list ascii) (passage_annotations : list Loader.BioCAnnotation)
    (passage_offset : Z) (sents : list Sent)
    (sd : SentenceData) (a : SentenceAnn) :
  Forall well_formed sents ->
  sd ∈ process_passage_to_sentences passage_text passage_annotations passage_offset sents ->
  a ∈ sd_annotations sd ->
  exists ann loc,
    ann ∈ passage_annotations /\
    head (Loader.ann_locations ann) = Some loc /\
    Loader.loc_offset loc < sd_abs_end sd /\
    sd_abs_start sd < Loader.loc_offset loc + Loader.loc_length loc /\
    sd_abs_start sd + san_start a = Z.max (Loader.loc_offset loc) (sd_abs_start sd) /\
    sd_abs_start sd + san_end a
      = Z.min (Loader.loc_offset loc + Loader.loc_length loc) (sd_abs_end sd) /\
    san_label a = Loader.annotation_type ann.
Proof.
  intros Hwf Hsd Ha. unfold process_passage_to_sentences in Hsd.
  destruct (forallb Py.is_space passage_text); [by apply elem_of_nil in Hsd|].
  apply list_elem_of_fmap in Hsd as (sent & -> & Hsent). simpl in *.
  apply list_elem_of_omap in Ha as (ann & Hann & Hproj).
  assert (well_formed sent) as Hw by (rewrite Forall_forall in Hwf; by apply Hwf).
  unfold well_formed in Hw. unfold passage_sentence_annotation in Hproj.
  destruct (Loader.ann_locations ann) as [|loc locs] eqn:Hlocs; [done|].
  destruct (Z.ltb_spec (Loader.loc_offset loc) (passage_offset + end_char sent));
    [|done].
  destruct (Z.gtb_spec (Loader.loc_offset loc + Loader.loc_length loc)
              (passage_offset + start_char sent)); [|done].
  simpl in Hproj. injection Hproj as <-. exists ann, loc. rewrite Hlocs. simpl.
  split; [done|]. split; [done|]. repeat split; lia.
Qed.

(** X9: moving the passage and the locations of its annotations by the
    same amount moves the absolute offsets of the sentences by that amount
    and changes nothing else: the sentence-relative annotations depend on
    relative positions only. *)
Theorem process_passage_to_sentences_shift
    (k : Z) (passage_text : list ascii) (passage_annotations : list Loader.BioCAnnotation)
    (passage_offset : Z) (sents : list Sent) :
  process_passage_to_sentences passage_text
    (shift_annotation k <$> passage_annotations) (passage_offset + k) sents
  = shift_sentence k
    <$> process_passage_to_sentences passage_text passage_annotations passage_offset sents.
Proof.
  unfold process_passage_to_sentences.
  destruct (forallb Py.is_space passage_text); [done|].
  rewrite <- list_fmap_compose. apply list_fmap_ext. intros _ sent _.
  unfold shift_sentence. simpl. f_equal; [lia|lia|].
  induction passage_annotations as [|ann l IH]; [done|].
  rewrite fmap_cons. cbn [omap list_omap]. rewrite IH. clear IH.
  assert (passage_sentence_annotation (sent_text sent)
            (passage_offset + k + start_char sent)
            (passage_offset + k + end_char sent) (shift_annotation k ann)
          = passage_sentence_annotation (sent_text sent)
              (passage_offset + start_char sent)
              (passage_offset + end_char sent) ann) as ->; [|done].
  unfold passage_sentence_annotation, shift_annotation, Loader.annotation_type. simpl.
  destruct (Loader.ann_locations ann) as [|loc locs]; [done|]. simpl.
  replace (Loader.loc_offset loc + k <? passage_offset + k + end_char sent)
    with (Loader.loc_offset loc <? passage_offset + end_char sent)
    by (destruct (Z.ltb_spec (Loader.loc_offset loc) (passage_offset + end_char sent));
        symmetry; [apply Z.ltb_lt|apply Z.ltb_ge]; lia).
  replace (Loader.loc_offset loc + k + Loader.loc_length loc
           >? passage_offset + k + start_char sent)
    with (Loader.loc_offset loc + Loader.loc_length loc
          >? passage_offset + start_char sent)
    by (rewrite !Z.gtb_ltb;
        destruct (Z.ltb_spec (passage_offset + start_char sent)
                    (Loader.loc_offset loc + Loader.loc_length loc));
        symmetry; [apply Z.ltb_lt|apply Z.ltb_ge]; lia).
  destruct (_ && _); [|done]. do 2 f_equal; f_equal; lia.
Qed.

(** X10: [process_passage_to_sentences] reads the first location of an
    annotation only; any further location of the annotation has no effect
    on the result. *)
Theorem process_passage_to_sentences_first_location
    (passage_text : list ascii) (passage_annotations : list Loader.BioCAnnotation)
    (passage_offset : Z) (sents : list Sent) :
  process_passage_to_sentences passage_text
    (first_location_only <$> passage_annotations) passage_offset sents
  = process_passage_to_sentences passage_text passage_annotations passage_offset sents.
Proof.
  unfold process_passage_to_sentences.
  destruct (forallb Py.is_space passage_text); [done|].
  apply list_fmap_ext. intros _ sent _. f_equal.
  induction passage_annotations as [|ann l IH]; [done|].
  rewrite fmap_cons. cbn [omap list_omap]. rewrite IH.
  assert (forall t s e,
            passage_sentence_annotation t s e (first_location_only ann)
            = passage_sentence_annotation t s e ann) as ->; [|done].
  intros t s e. unfold passage_sentence_annotation, first_location_only,
    Loader.annotation_type. simpl.
  by destruct (Loader.ann_locations ann).
Qed.
End ProjectorMore.

(** ** Loader: ordered ranges, partition into sections, declared spans *)

Section LoaderMoreProofs.
Import Models Loader LoaderSpec LoaderMore SectionSpec.
Variable section_config : option SectionConfig.
Implicit Types (p : BioCPassage) (l : list BioCPassage).

Lemma Sorted_snoc_last {A} (R : A -> A -> Prop) (l : list A) (y : A) :
  Sorted R l -> (forall x, last l = Some x -> R x y) -> Sorted R (l ++ [y]).
Proof.
  induction 1 as [|x l Hs IH Hhd]; intros Hlast; simpl.
  - by repeat constructor.
  - constructor.
    + apply IH. intros z Hz. apply Hlast. destruct l; [done|]. exact Hz.
    + destruct l as [|x' l]; simpl.
      * constructor. by apply Hlast.
      * constructor. by inversion Hhd.
Qed.

(** Intervals that are each well-formed and chained end to start are
    pairwise ordered. *)
Lemma chained_StronglySorted {A} (lo hi : A -> Z) (l : list A) :
  Forall (fun x => lo x <= hi x) l ->
  Sorted (fun a b => hi a <= lo b) l ->
  StronglySorted (fun a b => hi a <= lo b) l.
Proof.
  intros Hwf Hs. induction Hs as [|x l Hs IH Hhd]; [constructor|].
  apply Forall_cons in Hwf as [Hx Hl]. specialize (IH Hl).
  constructor; [done|].
  destruct l as [|y l]; [constructor|].
  inversion Hhd as [|? ? Hxy]; subst. inversion IH as [|? ? _ Hall]; subst.
  apply Forall_cons in Hl as [Hy _].
  constructor; [done|]. eapply Forall_impl; [exact Hall|].
  intros z Hz. simpl in *. lia.
Qed.

Lemma assemble_ranges l :
  let ms := metadata_sections (assemble section_config l) in
  Forall (fun m => pm_start m <= pm_end m) ms /\
  Sorted meta_before ms /\
  pm_passage_index <$> ms = Z.of_nat <$> seq 0 (length l).
Proof.
  induction l as [|p l IH] using rev_ind.
  { simpl. split; [constructor|]. split; [constructor|done]. }
  destruct IH as (Hwf & Hs & Hidx).
  destruct (assemble_inv section_config l) as [Hc Hl Hn].
  rewrite assemble_snoc.
  destruct (passage_step_spec section_config (assemble section_config l) (Py.len l) p)
    as (_ & _ & m & Hm & Hi & Hstart & Hend & _).
  cbv zeta. rewrite Hm.
  pose proof (len_nonneg (padding_of (assemble section_config l) p)).
  pose proof (len_nonneg (passage_text_of p)).
  split; [|split].
  - apply Forall_app. split; [done|]. constructor; [lia|constructor].
  - apply Sorted_snoc_last; [done|]. intros x Hx. unfold meta_before.
    unfold last_end in Hl. rewrite Hx in Hl. simpl in Hl. lia.
  - rewrite fmap_app, Hidx, length_app. simpl.
    rewrite Nat.add_1_r, seq_S, fmap_app. simpl. by rewrite Hi.
Qed.

(** X11: the passage ranges recorded by [load_bioc_document] are
    well-formed and pairwise ordered: every range has start <= end, and
    every range ends at or before the start of every later one. *)
Theorem load_bioc_document_passages_ordered (passages : list BioCPassage) :
  let ms := doc_passages (load_bioc_document passages section_config) in
  Forall (fun m => pm_start m <= pm_end m) ms /\
  StronglySorted meta_before ms.
Proof.
  destruct (assemble_ranges (sorted_passages passages)) as (Hwf & Hs & _).
  split; [done|]. by apply (chained_StronglySorted pm_start pm_end).
Qed.

Lemma ranges_from_head cur (l : list PassageMeta) :
  exists h r,
    ranges_from cur l = h :: r /\
    section_type h = section_type cur /\ start h = start cur.
Proof.
  revert cur. induction l as [|p l IH]; intros cur; simpl; [by eexists _, _|].
  destruct (decide _); [|by eexists _, _].
  destruct (IH (extend_section cur p)) as (h & r & -> & Ht & Hs).
  by exists h, r.
Qed.

Lemma ranges_from_ordered cur (l : list PassageMeta) :
  start cur <= end_ cur ->
  Forall (fun m => pm_start m <= pm_end m) l ->
  Sorted meta_before l ->
  (forall m, head l = Some m -> end_ cur <= pm_start m) ->
  Forall (fun s => start s <= end_ s) (ranges_from cur l) /\
  Sorted section_before (ranges_from cur l).
Proof.
  revert cur. induction l as [|p l IH]; intros cur Hcur Hwf Hs Hhd; simpl.
  { split; by repeat constructor. }
  apply Forall_cons in Hwf as [Hp Hl].
  assert (Sorted meta_before l) as Hs' by (by inversion Hs).
  assert (forall m, head l = Some m -> pm_end p <= pm_start m) as Hnext.
  { intros m Hm. destruct l as [|m' l]; [done|]. injection Hm as ->.
    inversion Hs as [|? ? _ Hrel]; subst. by inversion Hrel. }
  specialize (Hhd p eq_refl).
  destruct (decide _) as [Heq|Hne].
  - apply IH; simpl; try done. lia.
  - destruct (IH (new_section p)) as [Hwf' Hs'']; simpl; try done.
    split; [by constructor|]. constructor; [done|].
    destruct (ranges_from_head (new_section p) l) as (h & r & -> & _ & Hstart).
    constructor. unfold section_before. rewrite Hstart. simpl. lia.
Qed.

(** X12: the sections that [load_bioc_document] reports are well-formed
    and pairwise ordered: every section has start <= end and ends at or
    before the start of every later section, so the section list is
    ascending and without overlaps. *)
Theorem load_bioc_document_sections_ordered (passages : list BioCPassage) :
  let sections := doc_sections (load_bioc_document passages section_config) in
  Forall (fun s => start s <= end_ s) sections /\
  StronglySorted section_before sections.
Proof.
  unfold load_bioc_document. simpl.
  destruct (assemble_ranges (sorted_passages passages)) as (Hwf & Hs & _).
  destruct (metadata_sections _) as [|m ms]; [split; constructor|].
  rewrite merge_consecutive_sections_cons.
  apply Forall_cons in Hwf as [Hm Hms].
  destruct (ranges_from_ordered (new_section m) ms) as [H1 H2]; simpl; try done.
  - by inversion Hs.
  - intros m' Hm'. destruct ms as [|x ms]; [done|]. injection Hm' as ->.
    inversion Hs as [|? ? _ Hrel]; subst. by inversion Hrel.
  - split; [done|]. by apply (chained_StronglySorted start end_).
Qed.

Lemma ranges_from_indices cur (l : list PassageMeta) :
  concat (passage_indices <$> ranges_from cur l)
  = passage_indices cur ++ (pm_passage_index <$> l).
Proof.
  revert cur. induction l as [|p l IH]; intros cur; simpl.
  - by rewrite app_nil_r.
  - destruct (decide _).
    + rewrite IH. simpl. by rewrite <- app_assoc.
    + simpl. by rewrite IH.
Qed.

(** X13: the sections partition the passages: the passage indices of the
    merged sections, read in order, are the passage indices of the input
    in order, and for a loaded document they are 0, 1, ..., n-1. *)
Theorem merge_consecutive_sections_partition :
  (forall passages_metadata : list PassageMeta,
     concat (passage_indices <$> merge_consecutive_sections passages_metadata)
     = pm_passage_index <$> passages_metadata) /\
  (forall passages : list BioCPassage,
     concat (passage_indices
             <$> doc_sections (load_bioc_document passages section_config))
     = Z.of_nat <$> seq 0 (length passages)).
Proof.
  assert (forall pm : list PassageMeta,
            concat (passage_indices <$> merge_consecutive_sections pm)
            = pm_passage_index <$> pm) as Hgen.
  { intros [|p l]; [done|].
    by rewrite merge_consecutive_sections_cons, ranges_from_indices. }
  split; [exact Hgen|]. intros passages. unfold load_bioc_document. simpl.
  rewrite Hgen.
  destruct (assemble_ranges (sorted_passages passages)) as (_ & _ & Hidx).
  rewrite Hidx. unfold sorted_passages. by rewrite sorted_length.
Qed.

Lemma ranges_from_adjacent cur (l : list PassageMeta) :
  Sorted (fun a b => section_type a <> section_type b) (ranges_from cur l).
Proof.
  revert cur. induction l as [|p l IH]; intros cur; simpl.
  - by repeat constructor.
  - destruct (decide _) as [Heq|Hne]; [apply IH|].
    constructor; [apply IH|].
    destruct (ranges_from_head (new_section p) l) as (h & r & -> & Htype & _).
    constructor. by rewrite Htype.
Qed.

(** X14: two adjacent merged sections never carry the same label: every
    section is a maximal run of passages with one hint. *)
Theorem merge_consecutive_sections_adjacent_differ
    (passages_metadata : list PassageMeta) :
  Sorted (fun a b => section_type a <> section_type b)
         (merge_consecutive_sections passages_metadata).
Proof.
  destruct passages_metadata as [|p l]; [constructor|].
  rewrite merge_consecutive_sections_cons. apply ranges_from_adjacent.
Qed.

Lemma passage_step_annotations st (i : Z) p :
  Utils.annotation_span <$> annotations (passage_step section_config st (i, p))
  = (Utils.annotation_span <$> annotations st) ++ declared_spans p.
Proof.
  unfold passage_step. destruct (_ >? _); destruct (passage_text_of p); simpl.
  all: rewrite fmap_app; f_equal.
  all: unfold declared_spans.
  all: induction (psg_annotations p) as [|bioc_ann anns IH]; [done|].
  all: cbn [mbind list_bind]; rewrite fmap_app, IH; f_equal.
  all: rewrite <- list_fmap_compose; by apply list_fmap_ext.
Qed.

Lemma fold_step_annotations st (l : list (Z * BioCPassage)) :
  Utils.annotation_span <$> annotations (fold_left (passage_step section_config) l st)
  = (Utils.annotation_span <$> annotations st) ++ (l.*2 ≫= declared_spans).
Proof.
  revert st. induction l as [|[i p] l IH]; intros st.
  - simpl. by rewrite app_nil_r.
  - cbn [fold_left]. rewrite IH, passage_step_annotations. by rewrite <- app_assoc.
Qed.

Lemma enumerate_from_snd {A} (i : Z) (l : list A) : (Py.enumerate_from i l).*2 = l.
Proof. revert i. induction l as [|x l IH]; intros i; simpl; [done|]. by rewrite IH. Qed.

(** X15: the annotation dictionaries of a loaded document, read back by
    [format_annotations]' span extraction, are the spans that the
    annotations declare, one per location, in the order of the sorted
    passages: (offset, offset + length, label). They are taken as
    declared: neither the padding nor the clamping of a passage, nor the
    section configuration, changes them. *)
Theorem load_bioc_document_declared_spans (passages : list BioCPassage) :
  Utils.annotation_span <$> doc_annotations (load_bioc_document passages section_config)
  = sorted_passages passages ≫= declared_spans.
Proof.
  unfold load_bioc_document, assemble, Py.enumerate. simpl.
  by rewrite fold_step_annotations, enumerate_from_snd.
Qed.
End LoaderMoreProofs.

Section CollectionLoader.
Import Loader LoaderMore.

Lemma head_filter_self {A} (P : A -> Prop) `{!forall x, Decision (P x)}
    (l : list A) (x : A) :
  x ∈ l -> P x -> is_Some (head (filter P l)).
Proof.
  intros Hx HP. destruct (filter P l) as [|y r] eqn:Hf; [|by eexists].
  assert (x ∈ filter P l) as Hin by (by apply list_elem_of_filter).
  rewrite Hf in Hin. by apply elem_of_nil in Hin.
Qed.

Lemma omap_all_Some {A B} (f : A -> option B) (g : A -> B) (l : list A) :
  (forall x, x ∈ l -> f x = Some (g x)) -> omap f l = g <$> l.
Proof.
  induction l as [|x l IH]; intros Hf; [done|].
  cbn [omap list_omap fmap list_fmap]. rewrite (Hf x) by (by left).
  f_equal. apply IH. intros y Hy. apply Hf. by right.
Qed.

(** X16: [load_bioc_collection] returns one entry per document of the
    file, in order; each entry is what [load_bioc_document] finds under the
    id of that document, that is the first document of the file with this
    id. When the ids are pairwise distinct every document is loaded from
    its own passages. *)
Theorem load_bioc_collection_entries
    (documents : list BioCDocument) (section_config : option SectionConfig) :
  exists entries,
    load_bioc_collection (Some documents) section_config = inr entries /\
    length entries = length documents /\
    (forall (i : nat) doc,
       documents !! i = Some doc ->
       exists first,
         head (filter (fun d => bd_id d = bd_id doc) documents) = Some first /\
         entries !! i
         = Some (bd_id doc, load_bioc_document (bd_passages first) section_config)) /\
    (NoDup (bd_id <$> documents) ->
     entries
     = (fun doc => (bd_id doc, load_bioc_document (bd_passages doc) section_config))
       <$> documents).
Proof.
  unfold load_bioc_collection, load_bioc_document_at. eexists. split; [done|].
  set (f := fun doc : BioCDocument => _).
  assert (forall doc, doc ∈ documents ->
            exists first,
              head (filter (fun d => bd_id d = bd_id doc) documents) = Some first /\
              bd_id first = bd_id doc /\ first ∈ documents /\
              f doc = Some (bd_id doc,
                            load_bioc_document (bd_passages first) section_config))
    as Hf.
  { intros doc Hdoc.
    destruct (head_filter_self (fun d => bd_id d = bd_id doc) documents doc Hdoc eq_refl)
      as [first Hfirst].
    exists first. split; [done|].
    assert (first ∈ filter (fun d => bd_id d = bd_id doc) documents) as Hin.
    { destruct (filter _ documents) as [|y r]; [done|]. injection Hfirst as ->. by left. }
    apply list_elem_of_filter in Hin as [Hid Hin].
    split; [done|]. split; [done|]. unfold f. rewrite Hfirst. by rewrite Hid. }
  assert (omap f documents
          = (fun doc =>
               (bd_id doc,
                load_bioc_document
                  (bd_passages
                     (default doc
                        (head (filter (fun d => bd_id d = bd_id doc) documents))))
                  section_config)) <$> documents) as Homap.
  { apply omap_all_Some. intros doc Hdoc.
    destruct (Hf doc Hdoc) as (first & Hfirst & _ & _ & ->). by rewrite Hfirst. }
  rewrite Homap. split; [by rewrite length_fmap|]. split.
  - intros i doc Hi.
    destruct (Hf doc) as (first & Hfirst & _ & _ & _);
      [by eapply list_elem_of_lookup_2|].
    exists first. split; [done|]. rewrite list_lookup_fmap, Hi. simpl.
    by rewrite Hfirst.
  - intros Hnodup. apply list_fmap_ext. intros i doc Hi.
    destruct (Hf doc) as (first & Hfirst & Hid & Hin & _);
      [by eapply list_elem_of_lookup_2|].
    rewrite Hfirst. simpl.
    apply list_elem_of_lookup in Hin as [j Hj].
    assert (i = j) as ->; [|congruence].
    eapply NoDup_lookup; [exact Hnodup|..].
    + by rewrite list_lookup_fmap, Hi.
    + rewrite list_lookup_fmap, Hj. simpl. by rewrite Hid.
Qed.
End CollectionLoader.

(** ** Grouping into an insertion-ordered dictionary *)

Section Grouping.
Import Metadata GroupingSpec.
Context {A : Type} (key : A -> string).
Implicit Types (g : list (string * list A)) (l : list A).

Lemma setdefault_append_keys g k x :
  (setdefault_append g k x).*1 = if decide (k ∈ g.*1) then g.*1 else g.*1 ++ [k].
Proof.
  induction g as [|[k' xs] g IH].
  - rewrite decide_False by apply not_elem_of_nil. done.
  - cbn [setdefault_append]. destruct (String.eqb_spec k' k) as [->|Hne].
    + rewrite decide_True by (rewrite fmap_cons; by left). done.
    + rewrite (fmap_cons _ (k', xs)), IH. destruct (decide (k ∈ g.*1)) as [Hin|Hnin].
      * rewrite decide_True by (rewrite fmap_cons; by right). done.
      * rewrite decide_False; [done|]. rewrite fmap_cons.
        intros [->|Hin]%elem_of_cons; done.
Qed.

Lemma setdefault_append_elem g k x k' xs :
  NoDup g.*1 ->
  (k', xs) ∈ setdefault_append g k x <->
  (k' <> k /\ (k', xs) ∈ g) \/
  (k' = k /\
   ((exists ys, (k, ys) ∈ g /\ xs = ys ++ [x]) \/ ((k ∉ g.*1) /\ xs = [x]))).
Proof.
  induction g as [|[k0 ys0] g IH]; intros Hnd; cbn [setdefault_append].
  - split.
    + intros Hin. apply list_elem_of_singleton in Hin. injection Hin as -> ->.
      right. split; [done|]. right. split; [|done]. apply not_elem_of_nil.
    + intros [[_ Hin]|[Hk [(ys & Hin & _)|[_ Hxs]]]].
      * by apply elem_of_nil in Hin.
      * by apply elem_of_nil in Hin.
      * subst. by apply list_elem_of_singleton.
  - rewrite fmap_cons in Hnd. cbn [fst] in Hnd.
    apply NoDup_cons in Hnd as [Hk0 Hnd]. specialize (IH Hnd).
    assert (forall zs, (k0, zs) ∈ g -> False) as Hfresh.
    { intros zs Hin. apply Hk0. apply list_elem_of_fmap. by exists (k0, zs). }
    destruct (String.eqb_spec k0 k) as [Heq|Hne].
    + subst k0. split.
      * intros Hin. apply elem_of_cons in Hin as [Heq|Hin].
        -- injection Heq as -> ->. right. split; [done|]. left.
           exists ys0. split; [by left|done].
        -- left. split; [|by right]. intros ->. by eapply Hfresh.
      * intros [[Hne Hin]|[Hk [(ys & Hin & Hxs)|[Hnin _]]]].
        -- apply elem_of_cons in Hin as [Heq|Hin]; [|by right].
           injection Heq as -> ->. done.
        -- subst. apply elem_of_cons in Hin as [Heq|Hin].
           ++ injection Heq as ->. by left.
           ++ exfalso. by eapply Hfresh.
        -- exfalso. apply Hnin. rewrite fmap_cons. by left.
    + split.
      * intros Hin. apply elem_of_cons in Hin as [Heq|Hin].
        -- injection Heq as -> ->. left. split; [done|by left].
        -- apply IH in Hin as [[Hne' Hin]|[Hk [(ys & Hin & Hxs)|[Hnin Hxs]]]].
           ++ left. split; [done|by right].
           ++ right. split; [done|]. left. exists ys. split; [by right|done].
           ++ right. split; [done|]. right. split; [|done].
              rewrite fmap_cons. intros Hin.
              apply elem_of_cons in Hin as [Heq|Hin]; [by subst|done].
      * intros [[Hne' Hin]|[Hk [(ys & Hin & Hxs)|[Hnin Hxs]]]].
        -- apply elem_of_cons in Hin as [Heq|Hin]; [rewrite Heq; by left|].
           right. apply IH. left. done.
        -- apply elem_of_cons in Hin as [Heq|Hin].
           ++ injection Heq as Heq _. by subst.
           ++ right. apply IH. right. split; [done|]. left. by exists ys.
        -- right. apply IH. right. split; [done|]. right. split; [|done].
           intros Hin. apply Hnin. rewrite fmap_cons. by right.
Qed.

Lemma grouped_by_step g l x :
  grouped_by key g l -> grouped_by key (setdefault_append g (key x) x) (l ++ [x]).
Proof.
  intros [Hnd Hg]. split.
  - rewrite setdefault_append_keys. case_decide; [done|].
    apply NoDup_app. split; [done|]. split; [|apply NoDup_singleton].
    intros k Hk Hk'. apply list_elem_of_singleton in Hk' as ->. done.
  - intros k xs. rewrite setdefault_append_elem by done.
    rewrite filter_app, filter_cons, filter_nil. split.
    + intros [[Hne Hin]|[-> [(ys & Hin & ->)|[Hnin ->]]]].
      * apply Hg in Hin as [-> Hnil].
        destruct (decide (key x = k)); [done|]. by rewrite app_nil_r.
      * apply Hg in Hin as [-> Hnil].
        destruct (decide (key x = key x)); [|done]. split; [done|].
        intros Heq. by apply app_nil in Heq as [_ ?].
      * destruct (decide (key x = key x)); [|done].
        destruct (filter (fun y => key y = key x) l) as [|y ys] eqn:Hf; [done|].
        exfalso. apply Hnin. apply list_elem_of_fmap.
        exists (key x, y :: ys). split; [done|]. apply Hg. by rewrite Hf.
    + intros [-> Hnil]. destruct (decide (key x = k)) as [<-|Hne].
      * right. split; [done|].
        destruct (filter (fun y => key y = key x) l) as [|y ys] eqn:Hf.
        -- right. split; [|done]. intros Hin.
           apply list_elem_of_fmap in Hin as ([k' zs] & Hk & Hin). simpl in Hk. subst k'.
           apply Hg in Hin as [-> Hnil']. by rewrite Hf in Hnil'.
        -- left. exists (y :: ys). split; [|done]. apply Hg. by rewrite Hf.
      * left. split; [done|]. rewrite app_nil_r in Hnil |- *. by apply Hg.
Qed.

Lemma grouped_by_fold l :
  grouped_by key (fold_left (fun g x => setdefault_append g (key x) x) l []) l.
Proof.
  induction l as [|x l IH] using rev_ind.
  - split; [constructor|]. intros k xs. simpl. split.
    + intros Hin. by apply elem_of_nil in Hin.
    + by intros [-> ?].
  - rewrite fold_left_app. simpl. by apply grouped_by_step.
Qed.

(** The keys stand in the order of their first occurrence. *)
Lemma fold_setdefault_keys (l : list A) :
  (fold_left (fun g x => setdefault_append g (key x) x) l []).*1
  = reverse (remove_dups (reverse (key <$> l))).
Proof.
  induction l as [|x l IH] using rev_ind; [reflexivity|].
  rewrite fold_left_app. cbn [fold_left].
  rewrite setdefault_append_keys, IH.
  rewrite fmap_app, reverse_app.
  change (reverse (key <$> [x])) with [key x]. cbn [app remove_dups].
  destruct (decide_rel elem_of (key x) (reverse (key <$> l))) as [Hin|Hnin].
  - rewrite decide_True; [reflexivity|].
    by rewrite elem_of_reverse, elem_of_remove_dups.
  - rewrite decide_False; [by rewrite reverse_cons|].
    by rewrite elem_of_reverse, elem_of_remove_dups.
Qed.
End Grouping.

(** ** Grouping sentences and passages by section *)

Section GroupingBySection.
Import Loader LoaderMore LoaderSpec SectionSpec Metadata AssignerSpec GroupingSpec SpanSpec.

Lemma fold_setdefault_const {A} (key : A -> string) (k : string) (xs l : list A) :
  (forall x, key x = k) ->
  fold_left (fun g x => setdefault_append g (key x) x) l [(k, xs)] = [(k, xs ++ l)].
Proof.
  intros Hk. revert xs. induction l as [|x l IH]; intros xs; simpl.
  - by rewrite app_nil_r.
  - rewrite Hk, String.eqb_refl, IH. by rewrite <- app_assoc.
Qed.

Lemma section_name_of_nil sent_ann : section_name_of [] sent_ann = "UNLABELED"%string.
Proof. unfold section_name_of. simpl. by destruct (_ >? _). Qed.

(** X17: the sentence groups are a partition of the sentences by assigned
    section: the section names of the dictionary are pairwise distinct,
    under each name stand exactly the sentences assigned to it, in their
    input order, no group is empty, and the names stand in the order in
    which they first occur among the sentences. *)
Theorem group_sentence_annotations_by_section_partition
    (sentence_annotations : list Models.SentenceAnnotation)
    (sections_info : option (list SectionInfo)) :
  let name := section_name_of (Py.sorted start_key (default [] sections_info)) in
  let grouped :=
    group_sentence_annotations_by_section sentence_annotations sections_info in
  grouped_by name grouped sentence_annotations /\
  grouped.*1 = reverse (remove_dups (reverse (name <$> sentence_annotations))).
Proof.
  intros name grouped. split; [apply grouped_by_fold|apply fold_setdefault_keys].
Qed.

(** X18: [group_passages_by_section] partitions the passages of a document
    by section type in the same way: distinct keys in the order of their
    first occurrence, and under each key exactly the passages of that
    type, in document order. The type of a passage is the first truthy one
    of its infons section_type, section and type; a passage without a
    truthy one of them, be they absent or empty, is filed under UNKNOWN. *)
Theorem group_passages_by_section_partition (passages : list BioCPassage) :
  let grouped := SectionsMore.group_passages_by_section passages in
  grouped_by SectionsMore.passage_section_type grouped passages /\
  grouped.*1
  = reverse (remove_dups (reverse (SectionsMore.passage_section_type <$> passages))) /\
  (forall passage,
     SectionsMore.passage_section_type passage
     = if truthy (first_truthy (psg_infons passage) "section_type" "section" "type")
       then default "UNKNOWN"%string
              (first_truthy (psg_infons passage) "section_type" "section" "type")
       else "UNKNOWN"%string) /\
  (forall passage,
     truthy (psg_infons passage !! "section_type"%string) = false ->
     truthy (psg_infons passage !! "section"%string) = false ->
     truthy (psg_infons passage !! "type"%string) = false ->
     SectionsMore.passage_section_type passage = "UNKNOWN"%string).
Proof.
  intros grouped. split; [apply grouped_by_fold|].
  split; [apply fold_setdefault_keys|].
  assert (forall passage,
            SectionsMore.passage_section_type passage
            = if truthy (first_truthy (psg_infons passage)
                           "section_type" "section" "type")
              then default "UNKNOWN"%string
                     (first_truthy (psg_infons passage)
                        "section_type" "section" "type")
              else "UNKNOWN"%string) as Htype.
  { intros passage. unfold SectionsMore.passage_section_type.
    destruct (decide (psg_infons passage = ∅)) as [Hempty|Hne].
    - rewrite Hempty. unfold first_truthy. by rewrite !lookup_empty.
    - destruct (first_truthy _ _ _ _) as [h|]; [|done].
      unfold truthy, Py.str_or. destruct (decide (h = EmptyString)) as [->|Hh].
      + done.
      + by rewrite bool_decide_eq_false_2. }
  split; [exact Htype|].
  intros passage H1 H2 H3. rewrite Htype.
  assert (truthy (first_truthy (psg_infons passage) "section_type" "section" "type")
          = false) as ->; [|done].
  unfold first_truthy, truthy, Py.str_or in *.
  destruct (psg_infons passage !! "section_type"%string) as [h1|];
    destruct (psg_infons passage !! "section"%string) as [h2|];
    destruct (psg_infons passage !! "type"%string) as [h3|];
    repeat case_decide; repeat case_bool_decide; simpl in *; congruence.
Qed.

(** X19: without section information, absent or empty, every sentence is
    grouped under UNLABELED, and no group is made for no sentence. *)
Theorem group_sentence_annotations_by_section_no_sections
    (sentence_annotations : list Models.SentenceAnnotation) :
  let expected :=
    match sentence_annotations with
    | [] => []
    | _ => [("UNLABELED"%string, sentence_annotations)]
    end in
  group_sentence_annotations_by_section sentence_annotations None = expected /\
  group_sentence_annotations_by_section sentence_annotations (Some []) = expected.
Proof.
  assert (forall o, default [] o = [] ->
            group_sentence_annotations_by_section sentence_annotations o
            = match sentence_annotations with
              | [] => []
              | _ => [("UNLABELED"%string, sentence_annotations)]
              end) as Hgen.
  { intros o Ho. unfold group_sentence_annotations_by_section. rewrite Ho.
    change (Py.sorted start_key []) with (@nil SectionInfo).
    destruct sentence_annotations as [|s l]; [done|].
    cbn [fold_left setdefault_append]. rewrite section_name_of_nil.
    by rewrite (fold_setdefault_const (section_name_of []) "UNLABELED" [s] l)
      by apply section_name_of_nil. }
  split; by apply Hgen.
Qed.

Lemma StronglySorted_trichotomy {B} (R : B -> B -> Prop) (l : list B) (x y : B) :
  StronglySorted R l -> x ∈ l -> y ∈ l -> x = y \/ R x y \/ R y x.
Proof.
  induction 1 as [|a l Hs IH Hall]; intros Hx Hy; [by apply elem_of_nil in Hx|].
  rewrite Forall_forall in Hall.
  apply elem_of_cons in Hx as [->|Hx]; apply elem_of_cons in Hy as [->|Hy].
  - by left.
  - right. left. by apply Hall.
  - right. right. by apply Hall.
  - by apply IH.
Qed.

(** Every passage range lies inside a merged section with its label. *)
Lemma ranges_from_covers cur (l : list PassageMeta) :
  Forall (fun m => pm_start m <= pm_end m) l ->
  Sorted meta_before l ->
  start cur <= end_ cur ->
  (forall m, head l = Some m -> end_ cur <= pm_start m) ->
  (exists s, s ∈ ranges_from cur l /\ section_type s = section_type cur /\
             start s = start cur /\ end_ cur <= end_ s) /\
  (forall m, m ∈ l ->
     exists s, s ∈ ranges_from cur l /\ section_type s = pm_section_type m /\
               start s <= pm_start m /\ pm_end m <= end_ s).
Proof.
  revert cur. induction l as [|p l IH]; intros cur Hwf Hs Hcur Hhd; simpl.
  { split; [exists cur; split; [by left|done]|].
    intros m Hm. by apply elem_of_nil in Hm. }
  apply Forall_cons in Hwf as [Hp Hl].
  assert (Sorted meta_before l) as Hs' by (by inversion Hs).
  assert (forall m, head l = Some m -> pm_end p <= pm_start m) as Hnext.
  { intros m Hm. destruct l as [|m' l]; [done|]. injection Hm as ->.
    inversion Hs as [|? ? _ Hrel]; subst. by inversion Hrel. }
  pose proof (Hhd p eq_refl) as Hcp.
  destruct (decide (section_type cur = pm_section_type p)) as [Heq|Hne].
  - destruct (IH (extend_section cur p) Hl Hs') as [(s & Hin & Ht & Hst & He) Hall].
    { simpl. lia. }
    { exact Hnext. }
    simpl in Ht, Hst, He. split.
    + exists s. split; [done|]. split; [done|]. split; [done|lia].
    + intros m Hm. apply elem_of_cons in Hm as [->|Hm]; [|by apply Hall].
      exists s. split; [done|]. split; [congruence|]. lia.
  - destruct (IH (new_section p) Hl Hs') as [(s & Hin & Ht & Hst & He) Hall].
    { simpl. lia. }
    { exact Hnext. }
    simpl in Ht, Hst, He. split.
    + exists cur. split; [by left|]. split; [done|]. split; [done|lia].
    + intros m Hm. apply elem_of_cons in Hm as [->|Hm].
      * exists s. split; [by right|]. split; [done|]. lia.
      * destruct (Hall m Hm) as (s' & Hin' & H').
        exists s'. split; [by right|done].
Qed.

Lemma merge_consecutive_sections_covers (ms : list PassageMeta) (m : PassageMeta) :
  Forall (fun m => pm_start m <= pm_end m) ms ->
  Sorted meta_before ms ->
  m ∈ ms ->
  exists s, s ∈ merge_consecutive_sections ms /\
            section_type s = pm_section_type m /\
            start s <= pm_start m /\ pm_end m <= end_ s.
Proof.
  intros Hwf Hs Hm. destruct ms as [|p l]; [by apply elem_of_nil in Hm|].
  rewrite merge_consecutive_sections_cons.
  apply Forall_cons in Hwf as [Hp Hl].
  destruct (ranges_from_covers (new_section p) l) as [(s & Hin & Ht & Hst & He) Hall].
  - done.
  - by inversion Hs.
  - done.
  - intros m' Hm'. destruct l as [|x l]; [done|]. injection Hm' as ->.
    inversion Hs as [|? ? _ Hrel]; subst. by inversion Hrel.
  - simpl in Ht, Hst, He. apply elem_of_cons in Hm as [->|Hm]; [|by apply Hall].
    exists s. split; [done|]. split; [done|]. lia.
Qed.

Lemma merge_consecutive_sections_ordered (ms : list PassageMeta) :
  Forall (fun m => pm_start m <= pm_end m) ms ->
  Sorted meta_before ms ->
  Forall (fun s => start s <= end_ s) (merge_consecutive_sections ms) /\
  StronglySorted section_before (merge_consecutive_sections ms).
Proof.
  intros Hwf Hs. destruct ms as [|m ms]; [split; constructor|].
  rewrite merge_consecutive_sections_cons.
  apply Forall_cons in Hwf as [Hm Hms].
  destruct (ranges_from_ordered (new_section m) ms) as [H1 H2]; simpl; try done.
  - by inversion Hs.
  - intros m' Hm'. destruct ms as [|x ms]; [done|]. injection Hm' as ->.
    inversion Hs as [|? ? _ Hrel]; subst. by inversion Hrel.
  - split; [done|]. by apply (chained_StronglySorted start end_).
Qed.

Lemma of_section_range_sorted (sections : list SectionRange) :
  Forall (fun s => start s <= end_ s) sections ->
  StronglySorted section_before sections ->
  Py.sorted start_key (of_section_range <$> sections) = of_section_range <$> sections.
Proof.
  intros Hwf Hs. apply sorted_of_Sorted.
  induction Hs as [|a l Hs IH Hall]; [constructor|].
  apply Forall_cons in Hwf as [Ha Hl]. rewrite fmap_cons.
  constructor; [by apply IH|].
  destruct l as [|b l]; [constructor|]. constructor.
  apply Forall_cons in Hall as [Hab _].
  unfold le_by, start_key, section_before in *. simpl. lia.
Qed.

Lemma first_containing_disjoint (sections : list SectionRange) (s : SectionRange) (a : Z) :
  StronglySorted section_before sections ->
  s ∈ sections -> start s <= a < end_ s ->
  first_containing (of_section_range <$> sections) a = Some (of_section_range s).
Proof.
  intros Hs Hin Ha. unfold first_containing. apply head_filter_unique.
  - apply list_elem_of_fmap. by exists s.
  - unfold contains. simpl. apply andb_true_iff. split; [apply Z.leb_le|apply Z.ltb_lt]; lia.
  - intros y Hy Hc. apply list_elem_of_fmap in Hy as (s' & -> & Hs').
    unfold contains in Hc. simpl in Hc.
    apply andb_true_iff in Hc as [H1%Z.leb_le H2%Z.ltb_lt].
    destruct (StronglySorted_trichotomy _ _ s' s Hs Hs' Hin) as [->|[Hb|Hb]]; [done|..];
      unfold section_before in Hb; lia.
Qed.
End GroupingBySection.

Section LoaderLabels.
Import Loader LoaderMore LoaderSpec SectionSpec Metadata AssignerSpec GroupingSpec.
Variable section_config : option SectionConfig.

(** [normalize_section_name] of the hint of a passage. *)
Lemma passage_step_label st (i : Z) p :
  pm_section_type <$> metadata_sections (passage_step section_config st (i, p))
  = (pm_section_type <$> metadata_sections st)
    ++ [Some (normalize_section_name
                (first_truthy (psg_infons p) "section_type" "section" "type")
                section_config)].
Proof.
  unfold passage_step.
  set (norm := normalize_section_name _ _).
  assert (bool_decide (norm = EmptyString) = false) as ->.
  { apply bool_decide_eq_false, normalize_section_name_nonempty. }
  destruct (_ >? _); destruct (passage_text_of p); simpl.
  all: by rewrite fmap_app.
Qed.

Lemma fold_step_label st (l : list (Z * BioCPassage)) :
  pm_section_type <$> metadata_sections (fold_left (passage_step section_config) l st)
  = (pm_section_type <$> metadata_sections st)
    ++ ((fun p => Some (normalize_section_name
                          (first_truthy (psg_infons p) "section_type" "section" "type")
                          section_config)) <$> l.*2).
Proof.
  revert st. induction l as [|[i p] l IH]; intros st.
  - simpl. by rewrite app_nil_r.
  - cbn [fold_left]. rewrite IH, passage_step_label. by rewrite <- app_assoc.
Qed.

(** X20: the label of each passage range of a loaded document is the
    normalized section hint of its passage, in the order of the sorted
    passages: one range per passage, none left out, and no label empty. *)
Theorem load_bioc_document_labels (passages : list BioCPassage) :
  pm_section_type <$> doc_passages (load_bioc_document passages section_config)
  = (fun p => Some (normalize_section_name
                      (first_truthy (psg_infons p) "section_type" "section" "type")
                      section_config))
    <$> sorted_passages passages.
Proof.
  unfold load_bioc_document, assemble, Py.enumerate. simpl.
  by rewrite fold_step_label, enumerate_from_snd.
Qed.

Lemma load_bioc_document_label_nonempty (passages : list BioCPassage) m L :
  m ∈ doc_passages (load_bioc_document passages section_config) ->
  pm_section_type m = Some L -> L <> EmptyString.
Proof.
  intros Hm HL.
  assert (Some L ∈ pm_section_type
            <$> doc_passages (load_bioc_document passages section_config)) as Hin.
  { apply list_elem_of_fmap. by exists m. }
  unfold load_bioc_document, assemble, Py.enumerate in Hin. simpl in Hin.
  rewrite fold_step_label in Hin. simpl in Hin.
  apply list_elem_of_fmap in Hin as (p & Hp & _). injection Hp as ->.
  apply normalize_section_name_nonempty.
Qed.

(** X21: the sections that the converter assigns agree with the passages
    that the loader laid out: a sentence that starts inside the range of a
    passage whose label is not UNLABELED is grouped under the label of
    that passage. *)
Theorem grouped_sentences_passage_label
    (segment : list ascii -> list Spacy.Sent) (passages : list BioCPassage)
    (m : PassageMeta) (L : string)
    (k : string) (xs : list Models.SentenceAnnotation)
    (sent_ann : Models.SentenceAnnotation) (a : Z) :
  m ∈ doc_passages (load_bioc_document passages section_config) ->
  pm_section_type m = Some L -> L <> "UNLABELED"%string ->
  (k, xs) ∈ Converter.grouped_sentences segment passages section_config ->
  sent_ann ∈ xs ->
  Models.sa_abs_start sent_ann = Some a -> pm_start m <= a < pm_end m ->
  k = L.
Proof.
  intros Hm HL Hlab Hk Hsa Hstart Ha.
  pose proof (load_bioc_document_label_nonempty passages m L Hm HL) as Hne.
  unfold Converter.grouped_sentences in Hk. cbv zeta in Hk.
  set (doc_data := load_bioc_document passages section_config) in *.
  destruct (grouped_by_fold
              (section_name_of
                 (Py.sorted start_key (Converter.sections_info_of doc_data)))
              (Sentence.create_sentence_annotations
                 (doc_annotations doc_data) (segment (doc_text doc_data))))
    as [_ Hgroups].
  apply Hgroups in Hk as [-> _].
  apply list_elem_of_filter in Hsa as [<- _].
  destruct (assemble_ranges section_config (sorted_passages passages))
    as (Hwf & Hs & _).
  destruct (merge_consecutive_sections_ordered _ Hwf Hs) as [Hswf Hss].
  destruct (merge_consecutive_sections_covers _ m Hwf Hs Hm)
    as (s & Hin & Ht & Hlo & Hhi).
  unfold Converter.sections_info_of. subst doc_data. cbn [doc_sections load_bioc_document].
  rewrite of_section_range_sorted by done.
  assert (reported_label (of_section_range s) = L) as Hrep.
  { unfold reported_label. simpl. rewrite Ht, HL. simpl.
    by rewrite decide_False by done. }
  rewrite <- Hrep. apply section_name_of_start_match; [|by rewrite Hrep].
  apply first_containing_disjoint; [done..|].
  rewrite Hstart. unfold Py.int_or. destruct (Z.eqb_spec a 0); lia.
Qed.
End LoaderLabels.

Section GroupingWitnesses.
Import Loader Metadata GroupingExamples.

Lemma grouped_sentences_passage_label_witness :
  exists k xs sent_ann,
    Converter.grouped_sentences two_sentences [titled; summary] None !! 1%nat
      = Some (k, xs) /\
    xs !! 0%nat = Some sent_ann /\
    k = "ABSTRACT"%string.
Proof.
  eexists _, _, _. split; [reflexivity|]. split; [reflexivity|].
  eapply (grouped_sentences_passage_label None two_sentences [titled; summary]
           {| pm_section_type := Some "ABSTRACT"%string; pm_passage_index := 1;
              pm_start := 9; pm_end := 19; pm_length := 10;
              pm_passage_label := Some "ABSTRACT"%string |}
           "ABSTRACT" _ _ _ 9).
  - right. left.
  - reflexivity.
  - discriminate.
  - right. left.
  - left.
  - reflexivity.
  - simpl. lia.
Defined.
End GroupingWitnesses.

(** ** The further properties at concrete inputs *)

Section FurtherExamples.
Import Models Spacy Utils Sentence Sections ProjectorSpec SpanSpec Examples MoreExamples.
Local Open Scope string_scope.

Lemma remove_overlapping_spans_clean_unchanged_witness :
  remove_overlapping_spans [(0, 5, "A"); (5, 8, "B")] = [(0, 5, "A"); (5, 8, "B")].
Proof.
  apply remove_overlapping_spans_clean_unchanged; repeat constructor;
    unfold le_by, ends_before, span_0, span_1; simpl; lia.
Defined.

Lemma remove_overlapping_spans_dropped_blocked_witness :
  (3, 8, "B") ∈ remove_overlapping_spans [(0, 5, "A"); (3, 8, "B")] \/
  exists k, k ∈ remove_overlapping_spans [(0, 5, "A"); (3, 8, "B")] /\
            span_0 k <= span_0 (3, 8, "B") /\ span_0 (3, 8, "B") < span_1 k.
Proof.
  apply (remove_overlapping_spans_dropped_blocked [(0, 5, "A"); (3, 8, "B")] (3, 8, "B")).
  repeat constructor.
Defined.

Lemma sentence_annotation_intersection_witness :
  (sentence_annotation sentence (3, 5, "GENE") = None
   <-> ~ (3 < end_char sentence /\ start_char sentence < 5)) /\
  (forall ann,
     sentence_annotation sentence (3, 5, "GENE") = Some ann ->
     start_char sentence + begin_ ann = Z.max 3 (start_char sentence) /\
     start_char sentence + end_ ann = Z.min 5 (end_char sentence) /\
     label ann = "GENE").
Proof. apply (sentence_annotation_intersection sentence 3 5 "GENE"). reflexivity. Defined.

Lemma sentence_annotation_text_witness :
  text {| begin_ := 3; end_ := 5; label := "GENE";
          text := Some (list_ascii_of_string "34") |}
  = Some (Py.slice (list_ascii_of_string "0123456789")
            (Z.max 3 (start_char sentence)) (Z.min 5 (end_char sentence))).
Proof.
  apply (sentence_annotation_text (list_ascii_of_string "0123456789") sentence 3 5 "GENE").
  - reflexivity.
  - simpl. lia.
  - simpl. lia.
  - unfold Py.len. simpl. lia.
  - reflexivity.
Defined.

Lemma create_sentence_annotations_disjoint_witness :
  end_ {| begin_ := 3; end_ := 5; label := "GENE";
          text := Some (list_ascii_of_string "34") |}
  <= begin_ {| begin_ := 6; end_ := 8; label := "DRUG";
               text := Some (list_ascii_of_string "67") |}.
Proof.
  eapply (create_sentence_annotations_disjoint
            [span_dict 6 8 "DRUG"; span_dict 3 5 "GENE"] [sentence] _ 0 1).
  - apply list_elem_of_singleton. reflexivity.
  - lia.
  - reflexivity.
  - reflexivity.
Defined.

Lemma sentence_annotation_split_witness :
  exists p1 p2,
    sentence_annotation sentence (8, 13, "GENE") = Some p1 /\
    sentence_annotation next_sentence (8, 13, "GENE") = Some p2 /\
    (end_ p1 - begin_ p1) + (end_ p2 - begin_ p2) = 13 - 8 /\
    end_ p1 = Py.len (sent_text sentence) /\ begin_ p2 = 0.
Proof.
  apply (sentence_annotation_split sentence next_sentence 8 13 "GENE");
    try reflexivity; simpl; lia.
Defined.

Lemma process_passage_to_sentences_intersection_witness :
  exists sd a,
    sd ∈ process_passage_to_sentences
           (list_ascii_of_string "0123456789") [gene_at 8 5] 0 [sentence] /\
    a ∈ sd_annotations sd /\
    exists ann loc,
      ann ∈ [gene_at 8 5] /\
      head (Loader.ann_locations ann) = Some loc /\
      Loader.loc_offset loc < sd_abs_end sd /\
      sd_abs_start sd < Loader.loc_offset loc + Loader.loc_length loc /\
      sd_abs_start sd + san_start a = Z.max (Loader.loc_offset loc) (sd_abs_start sd) /\
      sd_abs_start sd + san_end a
        = Z.min (Loader.loc_offset loc + Loader.loc_length loc) (sd_abs_end sd) /\
      san_label a = Loader.annotation_type ann.
Proof.
  assert (Forall well_formed [sentence]) as Hwf by (by repeat constructor).
  eexists _, {| san_start := 8; san_end := 10; san_label := "GENE"; san_text := None |}.
  assert (forall sd a (P : Prop),
            sd ∈ process_passage_to_sentences
                   (list_ascii_of_string "0123456789") [gene_at 8 5] 0 [sentence] ->
            a ∈ sd_annotations sd ->
            (sd ∈ process_passage_to_sentences
                    (list_ascii_of_string "0123456789") [gene_at 8 5] 0 [sentence] ->
             a ∈ sd_annotations sd -> P) ->
            sd ∈ process_passage_to_sentences
                   (list_ascii_of_string "0123456789") [gene_at 8 5] 0 [sentence] /\
            a ∈ sd_annotations sd /\ P) as H by (intros; auto).
  apply H.
  - apply list_elem_of_singleton. reflexivity.
  - apply list_elem_of_singleton. reflexivity.
  - apply (process_passage_to_sentences_intersection
             (list_ascii_of_string "0123456789") [gene_at 8 5] 0 [sentence] _ _ Hwf).
Defined.
End FurtherExamples.

(** ** File names (processor.py, [_sanitize_filename]) *)

Section SanitizeFilename.
Import Processor SanitizeSpec.
Implicit Types (s t : list ascii) (c : ascii).

Lemma lstrip_underscores_head s : head (lstrip_underscores s) <> Some "_"%char.
Proof.
  induction s as [|c s IH]; simpl; [done|].
  case_bool_decide as Hc; [done|]. simpl. congruence.
Qed.

Lemma lstrip_underscores_id s : head s <> Some "_"%char -> lstrip_underscores s = s.
Proof.
  destruct s as [|c s]; simpl; [done|]. intros Hc.
  rewrite bool_decide_eq_false_2; [done|]. congruence.
Qed.

Lemma lstrip_underscores_last s :
  lstrip_underscores s <> [] -> last (lstrip_underscores s) = last s.
Proof.
  induction s as [|c s IH]; simpl; [done|].
  case_bool_decide as Hc; [|done]. intros Hne. rewrite IH by done.
  destruct s; [done|done].
Qed.

Lemma head_reverse s : head (reverse s) = last s.
Proof.
  induction s as [|c s IH] using rev_ind; [done|].
  by rewrite reverse_snoc, last_snoc.
Qed.

Lemma last_reverse s : last (reverse s) = head s.
Proof. by rewrite <- head_reverse, reverse_involutive. Qed.

Lemma strip_underscores_clean s :
  Forall (fun c => safe_char c = true) s ->
  strip_underscores s <> [] -> clean_name (strip_underscores s).
Proof.
  intros Hsafe Hne. split; [done|]. unfold strip_underscores in *. split; [|split].
  - by apply Forall_reverse, lstrip_underscores_safe, Forall_reverse,
      lstrip_underscores_safe.
  - rewrite head_reverse. rewrite lstrip_underscores_last.
    + rewrite last_reverse. apply lstrip_underscores_head.
    + intros Hnil. apply Hne. by rewrite Hnil.
  - rewrite last_reverse. apply lstrip_underscores_head.
Qed.

Lemma strip_underscores_id s :
  head s <> Some "_"%char -> last s <> Some "_"%char -> strip_underscores s = s.
Proof.
  intros Hh Hl. unfold strip_underscores.
  rewrite (lstrip_underscores_id s) by done.
  rewrite lstrip_underscores_id by (by rewrite head_reverse).
  apply reverse_involutive.
Qed.

Lemma sub_unsafe_id s :
  Forall (fun c => safe_char c = true) s -> sub_unsafe false s = s.
Proof.
  induction 1 as [|c s Hc Hs IH]; simpl; [done|]. by rewrite Hc, IH.
Qed.

Lemma lower_char_safe c : safe_char c = true -> Py.lower_char c = c.
Proof.
  destruct c as [[] [] [] [] [] [] [] []]; vm_compute; (done || discriminate).
Qed.

Lemma lower_chars_safe s :
  Forall (fun c => safe_char c = true) s -> Py.lower_char <$> s = s.
Proof.
  induction 1 as [|c s Hc Hs IH]; [done|].
  by rewrite fmap_cons, lower_char_safe, IH.
Qed.

Lemma lower_safe (name : string) :
  Forall (fun c => safe_char c = true) (list_ascii_of_string name) ->
  Py.lower name = name.
Proof.
  intros Hsafe. unfold Py.lower. rewrite lower_chars_safe by done.
  apply string_of_list_ascii_of_string.
Qed.

Lemma string_of_list_ascii_nil s : string_of_list_ascii s = EmptyString -> s = [].
Proof. by destruct s. Qed.

Lemma sanitize_strip_clean (name : string) :
  strip_underscores (sub_unsafe false (list_ascii_of_string (Py.lower name))) <> [] ->
  clean_name
    (strip_underscores (sub_unsafe false (list_ascii_of_string (Py.lower name)))).
Proof. apply strip_underscores_clean, sub_unsafe_safe. Qed.

Lemma sanitize_filename_result (name : string) :
  clean_name (list_ascii_of_string (_sanitize_filename name)).
Proof.
  unfold _sanitize_filename. case_bool_decide as Hempty.
  - split; [done|]. split; [by repeat constructor|]. by split.
  - rewrite list_ascii_of_string_of_list_ascii. apply sanitize_strip_clean.
    intros Hnil. apply Hempty. by rewrite Hnil.
Qed.

(** X22: the result of [_sanitize_filename] is never empty, consists of
    characters of the class [a-z0-9_-] only, and neither starts nor ends
    with an underscore. *)
Theorem sanitize_filename_clean (name : string) :
  clean_name (list_ascii_of_string (_sanitize_filename name)).
Proof.
  unfold _sanitize_filename. case_bool_decide as Hempty.
  - split; [done|]. split; [by repeat constructor|]. by split.
  - rewrite list_ascii_of_string_of_list_ascii. apply strip_underscores_clean.
    + apply sub_unsafe_safe.
    + intros Hnil. apply Hempty. by rewrite Hnil.
Qed.

Lemma sanitize_filename_fixed (name : string) :
  clean_name (list_ascii_of_string name) -> _sanitize_filename name = name.
Proof.
  intros (Hne & Hsafe & Hh & Hl). unfold _sanitize_filename.
  rewrite lower_safe, sub_unsafe_id, strip_underscores_id by done.
  rewrite string_of_list_ascii_of_string.
  rewrite bool_decide_eq_false_2; [done|]. intros ->. by apply Hne.
Qed.

(** X23: [_sanitize_filename] is idempotent, and it leaves a name
    unchanged exactly when the name is already clean: sanitizing what it
    returned gives the same name again. *)
Theorem sanitize_filename_idempotent (name : string) :
  _sanitize_filename (_sanitize_filename name) = _sanitize_filename name /\
  (_sanitize_filename name = name <-> clean_name (list_ascii_of_string name)).
Proof.
  split.
  - apply sanitize_filename_fixed, sanitize_filename_result.
  - split.
    + intros Heq. rewrite <- Heq. apply sanitize_filename_result.
    + apply sanitize_filename_fixed.
Qed.
End SanitizeFilename.

(** ** The output directory of [process_and_save] *)

Section OutputDirectory.
Import Processor DriverSpec.
Variable document_ids : list string.
Variable process_bioc_by_sections : string -> Exception + list (string * OdinsonDoc).
Variable convert_bioc_to_odinson : string -> Exception + OdinsonDoc.
Variable can_write : string -> bool.
Variable truncates : string -> bool.
Implicit Types (st : DriverState) (I : DriverState -> Prop).

Lemma preserves_ret {A} I (a : A) : preserves I (ret a).
Proof. by intros st. Qed.

Lemma preserves_lift {A} I (r : Exception + A) : preserves I (lift r).
Proof. by intros st. Qed.

Lemma preserves_get I : preserves I get.
Proof. by intros st. Qed.

Lemma preserves_modify I (f : DriverState -> DriverState) :
  (forall st, I st -> I (f st)) -> preserves I (modify f).
Proof. intros Hf st HI. by apply Hf. Qed.

Lemma preserves_bind {A B} I (m : M A) (k : A -> M B) :
  preserves I m -> (forall a, preserves I (k a)) -> preserves I (bind m k).
Proof.
  intros Hm Hk st HI. unfold bind. specialize (Hm st HI).
  destruct (m st) as [st' [e|a]]; simpl in *; [done|by apply Hk].
Qed.

Lemma preserves_try_except {A} I (body : M A) (handler : Exception -> M A) :
  preserves I body -> (forall e, preserves I (handler e)) ->
  preserves I (try_except body handler).
Proof.
  intros Hm Hk st HI. unfold try_except. specialize (Hm st HI).
  destruct (body st) as [st' [e|a]]; simpl in *; [by apply Hk|done].
Qed.

Lemma preserves_for_each {A} I (l : list A) (body : A -> M unit) :
  (forall x, x ∈ l -> preserves I (body x)) -> preserves I (for_each l body).
Proof.
  induction l as [|x l IH]; intros Hbody; simpl.
  - apply preserves_ret.
  - apply preserves_bind; [apply Hbody; by left|]. intros _.
    apply IH. intros y Hy. apply Hbody. by right.
Qed.

Lemma directory_inv_write files names st name content :
  names name ->
  directory_inv files names st ->
  directory_inv files names (append_saved name (write_file name content st)).
Proof.
  intros Hname (Hin & Hout & Hkept & Hother).
  split; [|split; [|split]]; simpl; intros f Hf.
  - destruct (decide (f = name)) as [->|Hne].
    + rewrite lookup_insert_eq. by eexists.
    + rewrite lookup_insert_ne by done. apply Hin.
      apply elem_of_app in Hf as [Hf|Hf]; [done|].
      by apply list_elem_of_singleton in Hf.
  - assert (f <> name) as Hne.
    { intros ->. apply Hf. apply elem_of_app. right. by left. }
    rewrite lookup_insert_ne by done. apply Hout.
    intros Hf'. apply Hf. apply elem_of_app. by left.
  - destruct (decide (f = name)) as [->|Hne].
    + rewrite lookup_insert_eq. by eexists.
    + rewrite lookup_insert_ne by done. by apply Hkept.
  - assert (f <> name) as Hne by (by intros ->).
    rewrite lookup_insert_ne by done. by apply Hother.
Qed.

(** A write that raised after it had opened the file. *)
Lemma directory_inv_partial files names st name :
  names name ->
  directory_inv files names st ->
  directory_inv files names (write_file name Partial st).
Proof.
  intros Hname (Hin & Hout & Hkept & Hother).
  split; [|split; [|split]]; simpl; intros f Hf.
  - destruct (decide (f = name)) as [->|Hne].
    + rewrite lookup_insert_eq. by eexists.
    + rewrite lookup_insert_ne by done. by apply Hin.
  - destruct (decide (f = name)) as [->|Hne].
    + right. by rewrite lookup_insert_eq.
    + rewrite lookup_insert_ne by done. by apply Hout.
  - destruct (decide (f = name)) as [->|Hne].
    + rewrite lookup_insert_eq. by eexists.
    + rewrite lookup_insert_ne by done. by apply Hkept.
  - assert (f <> name) as Hne by (by intros ->).
    rewrite lookup_insert_ne by done. by apply Hother.
Qed.

Lemma save_and_collect_directory files names odinson_doc doc_id section_name :
  names (section_filename doc_id section_name) ->
  preserves (directory_inv files names)
    (save_and_collect can_write truncates odinson_doc doc_id section_name).
Proof.
  intros Hname st HI.
  unfold save_and_collect, _save_section_file, bind, modify, ret.
  destruct (od_json odinson_doc) as [json|]; simpl; [|done].
  destruct (can_write _); simpl; [by apply directory_inv_write|].
  destruct (truncates _); simpl; [by apply directory_inv_partial|done].
Qed.

Lemma save_result_directory files names doc_id result :
  (forall section_name, names (section_filename doc_id section_name)) ->
  preserves (directory_inv files names) (save_result can_write truncates doc_id result).
Proof.
  intros Hname. unfold save_result.
  destruct (sections result) as [[|s rest]|].
  2: { apply preserves_for_each. intros [name od] _.
       by apply save_and_collect_directory. }
  all: destruct (combined result) as [od|];
    [by apply save_and_collect_directory|apply preserves_ret].
Qed.

Lemma notify_directory files names on_progress c :
  preserves (directory_inv files names) (notify on_progress c).
Proof.
  intros st HI. unfold notify. destruct on_progress as [callback|]; [|done].
  by destruct (callback (calls st) c).
Qed.

Lemma process_one_directory files names by_sections on_progress total idx doc_id :
  (forall section_name, names (section_filename doc_id section_name)) ->
  preserves (directory_inv files names)
    (process_one document_ids process_bioc_by_sections convert_bioc_to_odinson
       can_write truncates by_sections on_progress total (idx, doc_id)).
Proof.
  intros Hname. unfold process_one.
  apply preserves_try_except.
  - apply preserves_bind; [apply preserves_lift|]. intros result.
    apply preserves_bind; [by apply save_result_directory|]. intros _.
    apply preserves_bind; [by apply preserves_modify|]. intros _.
    apply notify_directory.
  - intros e. apply preserves_bind; [by apply preserves_modify|]. intros _.
    apply notify_directory.
Qed.

Lemma create_archive_directory files names compress :
  names archive_name ->
  preserves (directory_inv files names) (create_archive can_write truncates compress).
Proof.
  intros Hname st HI. unfold create_archive, bind, get, modify. simpl.
  destruct (saved_files st) as [|f l] eqn:Hsaved; [done|].
  destruct (compress && can_write archive_name); simpl.
  - rewrite <- Hsaved. by apply (directory_inv_write files names st archive_name).
  - destruct (compress && truncates archive_name); simpl; [|done].
    by apply directory_inv_partial.
Qed.

Lemma elem_of_enumerate_from {A} (i : Z) (l : list A) (k : Z) (x : A) :
  (k, x) ∈ Py.enumerate_from i l -> x ∈ l.
Proof.
  intros Hin. rewrite <- (enumerate_from_snd i l).
  apply list_elem_of_fmap. by exists (k, x).
Qed.

Lemma directory_inv_initial (files : gmap string FileContent) names :
  directory_inv files names
    {| fs := files; saved_files := []; processed_count := 0; failed_count := 0;
       calls := [] |}.
Proof.
  split; [|split; [|split]]; simpl; try done.
  - intros f Hf. by apply elem_of_nil in Hf.
  - intros f _. by left.
Qed.

(** The run of [process_and_save] on the directory [files]. *)
Lemma process_and_save_directory
    files by_sections resume compress on_progress document_ids_arg :
  directory_inv files
    (output_names (ids_to_process document_ids resume document_ids_arg files))
    (process_and_save document_ids process_bioc_by_sections convert_bioc_to_odinson
       can_write truncates files by_sections resume compress on_progress
       document_ids_arg).1.
Proof.
  unfold process_and_save, process_and_save_body.
  set (st0 := {| fs := files; saved_files := []; processed_count := 0;
                 failed_count := 0; calls := [] |}).
  set (names := output_names _).
  pose proof (directory_inv_initial files names) as H0. fold st0 in H0.
  destruct (requested_ids document_ids document_ids_arg); [done|].
  unfold bind at 1. unfold get at 1. cbn [fs st0].
  revert H0. generalize st0.
  change (preserves (directory_inv files names)
            (bind (for_each
                     (Py.enumerate_from 1
                        (ids_to_process document_ids resume document_ids_arg files))
                     (process_one document_ids process_bioc_by_sections
                        convert_bioc_to_odinson can_write truncates by_sections
                        on_progress
                        (Py.len (ids_to_process document_ids resume
                                   document_ids_arg files))))
                  (fun _ =>
                   bind (create_archive can_write truncates compress) (fun _ =>
                   bind get (fun st' => ret (saved_files st')))))).
  apply preserves_bind.
  { apply preserves_for_each. intros [idx doc_id] Hin.
    apply process_one_directory. intros section_name. right.
    exists doc_id, section_name. split; [|done].
    by eapply elem_of_enumerate_from. }
  intros _. apply preserves_bind; [apply create_archive_directory; by left|].
  intros _. apply preserves_bind; [apply preserves_get|]. intros st'.
  apply preserves_ret.
Qed.

Lemma process_and_save_body_returns
    by_sections resume compress on_progress document_ids_arg st st' r paths :
  process_and_save_body document_ids process_bioc_by_sections
    convert_bioc_to_odinson can_write truncates
    by_sections resume compress on_progress document_ids_arg st = (st', r) ->
  saved_files st = [] ->
  r = inr paths -> paths = saved_files st'.
Proof.
  unfold process_and_save_body. intros Hrun Hnil ->.
  destruct (requested_ids document_ids document_ids_arg).
  { unfold ret in Hrun. congruence. }
  unfold bind at 1 in Hrun. unfold get at 1 in Hrun.
  unfold bind at 1 in Hrun. destruct (for_each _ _ st) as [st1 [e|[]]]; [done|].
  unfold bind at 1 in Hrun.
  destruct (create_archive _ _ _ st1) as [st2 [e|[]]]; [done|].
  unfold bind, get, ret in Hrun. congruence.
Qed.

(** X24: whatever the conversions, the callback and the writes do,
    [process_and_save] leaves an output directory that holds every path it
    has saved and from which no file is gone. A file that is not among the
    saved paths is as it was before the run, or is what a write that
    raised after opening the file has left; and a file whose name is
    neither that of the archive nor that of a section file of a document
    to process is as it was. The list it returns is the list of saved
    paths. *)
Theorem process_and_save_output_directory
    (files : gmap string FileContent) (by_sections resume compress : bool)
    (on_progress : option Callback) (document_ids_arg : option (list string)) :
  let ids := ids_to_process document_ids resume document_ids_arg files in
  let run :=
    process_and_save document_ids process_bioc_by_sections convert_bioc_to_odinson
      can_write truncates files by_sections resume compress on_progress
      document_ids_arg in
  (forall f, f ∈ saved_files run.1 -> is_Some (fs run.1 !! f)) /\
  (forall f, is_Some (files !! f) -> is_Some (fs run.1 !! f)) /\
  (forall f, f ∉ saved_files run.1 ->
     fs run.1 !! f = files !! f \/ fs run.1 !! f = Some Partial) /\
  (forall f,
     f <> archive_name ->
     (forall doc_id section_name,
        doc_id ∈ ids -> f <> section_filename doc_id section_name) ->
     fs run.1 !! f = files !! f) /\
  (forall paths, run.2 = inr paths -> paths = saved_files run.1).
Proof.
  intros ids run. subst run.
  pose proof (process_and_save_directory files by_sections resume compress
                on_progress document_ids_arg) as (Hin & Hout & Hkept & Hother).
  fold ids in Hother.
  split; [done|]. split; [done|]. split; [done|]. split.
  - intros f Harchive Hsection. apply Hother.
    intros [->|(doc_id & section_name & Hd & ->)]; [done|].
    by apply (Hsection doc_id section_name).
  - unfold process_and_save.
    destruct (process_and_save_body _ _ _ _ _ _ _ _ _ _ _) as [st' r] eqn:Hrun.
    intros paths. by eapply process_and_save_body_returns.
Qed.

End OutputDirectory.

(** ** The resume filter *)

Section Resume.
Import Processor DriverSpec.
Variable document_ids : list string.
Variable process_bioc_by_sections : string -> Exception + list (string * OdinsonDoc).
Variable convert_bioc_to_odinson : string -> Exception + OdinsonDoc.
Variable can_write : string -> bool.
Variable truncates : string -> bool.

Lemma existing_doc_id_sound (name d : string) :
  existing_doc_id document_ids name = Some d ->
  d ∈ document_ids /\
  Py.endswith (list_ascii_of_string ".json") (list_ascii_of_string name) = true.
Proof.
  unfold existing_doc_id. destruct (Py.endswith _ _); [|done].
  intros Hhead. split; [|done].
  apply head_Some_elem_of in Hhead. by apply list_elem_of_filter in Hhead as [_ ?].
Qed.

Lemma elem_of_get_existing_doc_ids (names : list string) (d : string) :
  d ∈ _get_existing_doc_ids document_ids names <->
  exists name, name ∈ names /\ existing_doc_id document_ids name = Some d.
Proof.
  unfold _get_existing_doc_ids. rewrite elem_of_list_to_set, list_elem_of_omap.
  done.
Qed.

(** X25: the resume filter only ever takes out documents of the
    collection for which the output directory holds a file whose name ends
    in .json and is read back as that document. Without resume the
    requested identifiers are processed as given; with resume the
    identifiers to process are the requested ones without the skipped
    documents, in the requested order; an identifier that is not in the
    collection is never skipped. *)
Theorem ids_to_process_resume
    (files : gmap string FileContent) (document_ids_arg : option (list string)) :
  let requested := requested_ids document_ids document_ids_arg in
  ids_to_process document_ids false document_ids_arg files = requested /\
  sublist (ids_to_process document_ids true document_ids_arg files) requested /\
  (forall d,
     d ∈ requested ->
     d ∉ ids_to_process document_ids true document_ids_arg files ->
     d ∈ document_ids /\
     exists name,
       is_Some (files !! name) /\
       Py.endswith (list_ascii_of_string ".json") (list_ascii_of_string name) = true /\
       existing_doc_id document_ids name = Some d) /\
  (forall d,
     d ∈ requested -> d ∉ document_ids ->
     d ∈ ids_to_process document_ids true document_ids_arg files).
Proof.
  intros requested. unfold ids_to_process. fold requested.
  split; [done|]. split; [apply sublist_filter|].
  assert (forall d,
            d ∈ _get_existing_doc_ids document_ids (elements (dom files)) ->
            d ∈ document_ids /\
            exists name,
              is_Some (files !! name) /\
              Py.endswith (list_ascii_of_string ".json") (list_ascii_of_string name)
                = true /\
              existing_doc_id document_ids name = Some d) as Hsound.
  { intros d Hd. apply elem_of_get_existing_doc_ids in Hd as (name & Hname & Hd).
    destruct (existing_doc_id_sound name d Hd) as [Hin Hjson].
    split; [done|]. exists name. split; [|done].
    apply elem_of_elements in Hname. by apply elem_of_dom. }
  split.
  - intros d Hreq Hskip. apply Hsound.
    destruct (decide (d ∈ _get_existing_doc_ids document_ids (elements (dom files))))
      as [Hd|Hd]; [done|].
    exfalso. apply Hskip. by apply list_elem_of_filter.
  - intros d Hreq Hunknown. apply list_elem_of_filter. split; [|done].
    intros Hd. by apply Hsound in Hd as [? _].
Qed.

Section Rerun.
Variable by_sections : bool.
Variable on_progress : option Callback.
Hypothesis callback_returns :
  forall callback, on_progress = Some callback ->
  forall before c, callback before c = None.

(** X26: resuming works for the files whose section name sanitizes to a
    name without underscore (as "combined" does): when a run of
    [process_and_save] with a callback that returns has processed a
    document of the collection and saved such a file for it, and no other
    document of the collection shares the sanitized identifier, a later run
    with resume on the directory that the first run left does not process
    this document again. *)
Theorem process_and_save_resume_skips_saved
    (files : gmap string FileContent) (resume compress : bool)
    (document_ids_arg document_ids_arg' : option (list string))
    (doc_id section_name : string) :
  let first :=
    process_and_save document_ids process_bioc_by_sections convert_bioc_to_odinson
      can_write truncates files by_sections resume compress on_progress document_ids_arg in
  doc_id ∈ document_ids ->
  doc_id ∈ ids_to_process document_ids resume document_ids_arg files ->
  section_filename doc_id section_name
    ∈ document_files document_ids process_bioc_by_sections convert_bioc_to_odinson
        can_write by_sections doc_id ->
  "_"%char ∉ list_ascii_of_string (_sanitize_filename section_name) ->
  (forall d, d ∈ document_ids ->
     _sanitize_filename doc_id = _sanitize_filename d \/ _sanitize_filename doc_id = d ->
     d = doc_id) ->
  doc_id ∉ ids_to_process document_ids true document_ids_arg' (fs first.1).
Proof.
  intros first Hcollection Hprocessed Hfile Hsection Hunique. subst first.
  destruct (process_and_save_run document_ids process_bioc_by_sections
              convert_bioc_to_odinson can_write truncates by_sections on_progress
              callback_returns files resume compress document_ids_arg)
    as (st' & archive & Hrun & _).
  pose proof (process_and_save_directory document_ids
                process_bioc_by_sections convert_bioc_to_odinson can_write truncates
                files by_sections resume compress on_progress document_ids_arg)
    as [Hsaved _].
  rewrite Hrun in Hsaved |- *. simpl in Hsaved |- *.
  unfold process_and_save in Hrun.
  pose proof (process_and_save_body_returns document_ids
                process_bioc_by_sections convert_bioc_to_odinson can_write truncates
                by_sections resume compress on_progress document_ids_arg
                _ _ _ _ Hrun eq_refl eq_refl) as Hpaths.
  assert (is_Some (fs st' !! section_filename doc_id section_name)) as Hexists.
  { apply Hsaved. rewrite <- Hpaths. apply elem_of_app. left.
    apply list_elem_of_bind. by exists doc_id. }
  unfold ids_to_process. intros Hin. apply list_elem_of_filter in Hin as [Hnot _].
  apply Hnot. apply elem_of_get_existing_doc_ids.
  exists (section_filename doc_id section_name). split.
  - apply elem_of_elements. by apply elem_of_dom.
  - by apply existing_doc_id_section_filename.
Qed.
End Rerun.
End Resume.

Section ResumeWitness.
Import Processor DriverSpec Examples DriverExamples.
Local Open Scope string_scope.

Lemma process_and_save_resume_skips_saved_witness :
  "67890" ∉ ids_to_process collection true None
    (fs (process_and_save collection title_only no_combined always_writable never_truncates
           ∅ true true false (Some quiet) None).1).
Proof.
  apply (process_and_save_resume_skips_saved collection title_only no_combined
           always_writable never_truncates true (Some quiet)
           (fun callback Hc before c =>
              match Hc in _ = o
                    return match o with Some cb => cb before c = None | None => True end
              with eq_refl => eq_refl end)
           ∅ true false None None "67890" "TITLE").
  - right. left.
  - vm_compute. right. left.
  - vm_compute. left.
  - vm_compute. intros Hin.
    repeat (apply elem_of_cons in Hin as [Hin|Hin]; [discriminate Hin|]).
    by apply elem_of_nil in Hin.
  - intros d Hd Heq.
    repeat (apply elem_of_cons in Hd as [->|Hd];
            [vm_compute in Heq; (done || (destruct Heq; discriminate))|]).
    by apply elem_of_nil in Hd.
Defined.

(** A run in which every write raises after opening its file: nothing is
    saved, and the three section files are left behind. *)
Lemma failed_writes_leave_partial_files :
  let run :=
    process_and_save collection title_only no_combined never_writable
      always_truncates ∅ true false false None None in
  run.2 = inr [] /\
  fs run.1 = {[ "12345_title.json" := Partial; "67890_title.json" := Partial;
                "11111_title.json" := Partial ]}.
Proof. split; [reflexivity|]. apply map_eq. intros f. vm_compute. reflexivity. Qed.
End ResumeWitness.

(** ** [process_all] and [save_all] *)

Section InMemoryProofs.
Import Processor InMemory InMemorySpec.
Variable document_ids : list string.
Variable process_bioc_by_sections : string -> Exception + list (string * OdinsonDoc).
Variable convert_bioc_to_odinson : string -> Exception + OdinsonDoc.
Variable can_write : string -> bool.
Variable truncates : string -> bool.

Local Abbreviation process' :=
  (process document_ids process_bioc_by_sections convert_bioc_to_odinson).
Local Abbreviation entry_of' :=
  (entry_of document_ids process_bioc_by_sections convert_bioc_to_odinson).
Local Abbreviation step' :=
  (process_all_step document_ids process_bioc_by_sections convert_bioc_to_odinson).

Lemma first_occurrences_snoc (l : list string) (x : string) :
  first_occurrences (l ++ [x])
  = if decide (x ∈ first_occurrences l) then first_occurrences l
    else first_occurrences l ++ [x].
Proof.
  unfold first_occurrences. rewrite reverse_app.
  change (reverse [x]) with [x]. cbn [app remove_dups].
  destruct (decide_rel elem_of x (reverse l)) as [Hin|Hnin].
  - rewrite decide_True; [reflexivity|].
    by rewrite elem_of_reverse, elem_of_remove_dups.
  - rewrite decide_False; [by rewrite reverse_cons|].
    by rewrite elem_of_reverse, elem_of_remove_dups.
Qed.

Lemma remove_dups_NoDup (l : list string) : NoDup l -> remove_dups l = l.
Proof.
  induction 1 as [|x l Hx Hl IH]; [done|]. cbn [remove_dups].
  destruct (decide_rel elem_of x l); [done|]. by rewrite IH.
Qed.

Lemma first_occurrences_NoDup (l : list string) : NoDup l -> first_occurrences l = l.
Proof.
  intros Hl. unfold first_occurrences.
  rewrite remove_dups_NoDup by (by rewrite reverse_Permutation).
  apply reverse_involutive.
Qed.

Lemma dict_set_twice {V} (d : list (string * V)) k (v v' : V) :
  dict_set (dict_set d k v) k v' = dict_set d k v'.
Proof.
  induction d as [|[k0 v0] d IH]; simpl.
  - by rewrite String.eqb_refl.
  - destruct (String.eqb_spec k0 k) as [->|Hne]; simpl.
    + by rewrite String.eqb_refl.
    + apply String.eqb_neq in Hne. by rewrite Hne, IH.
Qed.

(** Setting the value that a tabulated dictionary gives to a key anyway. *)
Lemma dict_set_tabulated {V} (f : string -> V) (ks : list string) (k : string) :
  dict_set ((fun d => (d, f d)) <$> ks) k (f k)
  = (fun d => (d, f d)) <$> (if decide (k ∈ ks) then ks else ks ++ [k]).
Proof.
  induction ks as [|k0 ks IH]; [done|]. cbn [fmap list_fmap dict_set].
  destruct (String.eqb_spec k0 k) as [->|Hne].
  - rewrite decide_True by (by left). done.
  - fold (fmap (M:=list) (fun d => (d, f d)) ks). rewrite IH.
    destruct (decide (k ∈ ks)) as [Hin|Hnin].
    + rewrite decide_True by (by right). done.
    + rewrite decide_False; [done|].
      intros [->|Hin]%elem_of_cons; done.
Qed.

Lemma process_all_step_entry by_sections on_progress raised total results cs idx d :
  behaves on_progress raised ->
  (step' by_sections on_progress total (results, cs) (idx, d)).1
  = dict_set results d (entry_of' by_sections raised d).
Proof.
  intros Hcb. unfold process_all_step, entry_of.
  destruct (process' d by_sections) as [e|result]; [done|].
  destruct on_progress as [callback|]; simpl in Hcb.
  - rewrite Hcb. destruct raised as [e|]; simpl; [|done]. apply dict_set_twice.
  - by subst raised.
Qed.

Lemma fold_process_all_step by_sections on_progress raised total (ids : list string) i :
  behaves on_progress raised ->
  (fold_left (step' by_sections on_progress total) (Py.enumerate_from i ids) ([], [])).1
  = (fun d => (d, entry_of' by_sections raised d)) <$> first_occurrences ids.
Proof.
  intros Hcb. revert i. induction ids as [|d ids IH] using rev_ind; intros i; [done|].
  rewrite enumerate_from_app, fold_left_app. cbn [Py.enumerate_from fold_left].
  destruct (fold_left _ (Py.enumerate_from i ids) _) as [results cs] eqn:Hfold.
  rewrite (process_all_step_entry _ _ raised) by done.
  specialize (IH i). rewrite Hfold in IH. simpl in IH. rewrite IH.
  rewrite (dict_set_tabulated (entry_of' by_sections raised)).
  by rewrite first_occurrences_snoc.
Qed.

Lemma process_all_results by_sections on_progress raised document_ids_arg :
  behaves on_progress raised ->
  (process_all document_ids process_bioc_by_sections convert_bioc_to_odinson
     by_sections on_progress document_ids_arg).1
  = (fun d => (d, entry_of' by_sections raised d))
    <$> first_occurrences (requested_ids document_ids document_ids_arg).
Proof.
  intros Hcb. unfold process_all.
  destruct (requested_ids document_ids document_ids_arg); [done|].
  by apply fold_process_all_step.
Qed.

(** X27: [process_all] returns one entry per requested identifier, in the
    order of the first occurrences, however often an identifier is
    requested. With a callback that returns (or none) the entry of a
    document is its conversion result, or the failure carrying the message
    of the exception that the conversion raised; with a callback that
    raises, every document is recorded as failed, a converted one with the
    message of the callback's exception. *)
Theorem process_all_entries
    (by_sections : bool) (on_progress : option Callback3) (raised : option Exception)
    (document_ids_arg : option (list string)) :
  behaves on_progress raised ->
  (process_all document_ids process_bioc_by_sections convert_bioc_to_odinson
     by_sections on_progress document_ids_arg).1
  = (fun d => (d, entry_of' by_sections raised d))
    <$> first_occurrences (requested_ids document_ids document_ids_arg).
Proof.
  intros Hcb. unfold process_all.
  destruct (requested_ids document_ids document_ids_arg) as [|d ids] eqn:Hreq; [done|].
  by apply fold_process_all_step.
Qed.

Lemma save_and_collect_same_output odinson_doc doc_id section_name st1 st2 :
  same_output st1 st2 ->
  same_output (save_and_collect can_write truncates odinson_doc doc_id section_name st1).1
              (save_and_collect can_write truncates odinson_doc doc_id section_name st2).1.
Proof.
  intros [Hfs Hsaved]. unfold save_and_collect, _save_section_file, bind, modify, ret.
  destruct (od_json odinson_doc) as [json|]; simpl; [|done].
  destruct (can_write _); simpl; [split; simpl; congruence|].
  destruct (truncates _); simpl; [|done].
  split; simpl; congruence.
Qed.

Lemma save_and_collect_returns odinson_doc doc_id section_name st :
  (save_and_collect can_write truncates odinson_doc doc_id section_name st).2 = inr tt.
Proof.
  unfold save_and_collect, _save_section_file, bind, modify, ret.
  destruct (od_json odinson_doc) as [json|]; simpl; [|done].
  destruct (can_write _); [done|]. by destruct (truncates _).
Qed.

Lemma for_each_save_same_output doc_id (secs : list (string * OdinsonDoc)) st1 st2 :
  same_output st1 st2 ->
  let body := fun '(section_name, odinson_doc) =>
                save_and_collect can_write truncates odinson_doc doc_id section_name in
  same_output (for_each secs body st1).1 (for_each secs body st2).1 /\
  (for_each secs body st1).2 = inr tt.
Proof.
  intros Hsame body. revert st1 st2 Hsame.
  induction secs as [|[name od] secs IH]; intros st1 st2 Hsame; [done|].
  cbn [for_each]. unfold bind. subst body. cbv beta iota.
  pose proof (save_and_collect_same_output od doc_id name st1 st2 Hsame) as H1.
  pose proof (save_and_collect_returns od doc_id name st1) as R1.
  pose proof (save_and_collect_returns od doc_id name st2) as R2.
  destruct (save_and_collect can_write truncates od doc_id name st1) as [st1' r1].
  destruct (save_and_collect can_write truncates od doc_id name st2) as [st2' r2].
  simpl in *. subst r1 r2. by apply IH.
Qed.

Lemma save_result_same_output doc_id result st1 st2 :
  same_output st1 st2 ->
  same_output (save_result can_write truncates doc_id result st1).1
              (save_result can_write truncates doc_id result st2).1 /\
  (save_result can_write truncates doc_id result st1).2 = inr tt.
Proof.
  intros Hsame. unfold save_result.
  destruct (sections result) as [[|s rest]|].
  2: by apply for_each_save_same_output.
  all: destruct (combined result) as [od|]; [|done].
  all: split; [by apply save_and_collect_same_output|apply save_and_collect_returns].
Qed.

Lemma same_output_refl st : same_output st st.
Proof. done. Qed.

Lemma create_archive_same_output compress st1 st2 :
  same_output st1 st2 ->
  same_output (create_archive can_write truncates compress st1).1
              (create_archive can_write truncates compress st2).1 /\
  (create_archive can_write truncates compress st1).2 = inr tt /\
  (create_archive can_write truncates compress st2).2 = inr tt.
Proof.
  intros [Hfs Hsaved]. unfold create_archive, bind, get, modify, ret. simpl.
  rewrite <- Hsaved. destruct (saved_files st1) as [|f l] eqn:Hs.
  { repeat split; simpl; congruence. }
  destruct (compress && can_write archive_name); simpl.
  - repeat split; simpl; congruence.
  - destruct (compress && truncates archive_name); simpl.
    + repeat split; simpl; congruence.
    + repeat split; simpl; congruence.
Qed.

(** One document: saving its entry of the results dictionary has the
    effect on the output that processing and saving it at once has. *)
Lemma save_entry_process_one by_sections total idx d st1 st2 :
  same_output st1 st2 ->
  let saved :=
    save_entry can_write truncates (d, entry_of' by_sections None d) st1 in
  let processed :=
    process_one document_ids process_bioc_by_sections convert_bioc_to_odinson
      can_write truncates by_sections None total (idx, d) st2 in
  same_output saved.1 processed.1 /\ saved.2 = inr tt /\ processed.2 = inr tt.
Proof.
  intros Hsame saved processed. subst saved processed.
  unfold save_entry, process_one, entry_of, try_except, lift.
  unfold bind at 1.
  destruct (process' d by_sections) as [e|result]; simpl.
  - destruct Hsame as [Hfs Hsaved].
    destruct (negb _); unfold save_result, ret; simpl; by repeat split.
  - destruct (save_result_same_output d result st1 st2 Hsame) as [Hs Hr].
    pose proof (save_result_same_output d result st2 st2 (same_output_refl _))
      as [_ Hr2].
    unfold bind, modify, notify, ret.
    destruct (save_result can_write truncates d result st1) as [st1' r1].
    destruct (save_result can_write truncates d result st2) as [st2' r2].
    simpl in *. subst r1 r2. simpl. destruct Hs as [Hfs Hsaved]. by repeat split.
Qed.

Lemma for_each_save_entry_process_one by_sections total (ids : list string) i st1 st2 :
  same_output st1 st2 ->
  let saved :=
    for_each ((fun d => (d, entry_of' by_sections None d)) <$> ids)
      (save_entry can_write truncates) st1 in
  let processed :=
    for_each (Py.enumerate_from i ids)
      (process_one document_ids process_bioc_by_sections convert_bioc_to_odinson
         can_write truncates by_sections None total) st2 in
  same_output saved.1 processed.1 /\ saved.2 = inr tt /\ processed.2 = inr tt.
Proof.
  revert i st1 st2. induction ids as [|d ids IH]; intros i st1 st2 Hsame.
  { destruct Hsame as [Hfs Hsaved]. by repeat split. }
  cbn [fmap list_fmap Py.enumerate_from for_each]. cbv zeta. unfold bind.
  destruct (save_entry_process_one by_sections total i d st1 st2 Hsame)
    as (Hs & R1 & R2).
  destruct (save_entry _ _ _ st1) as [st1' r1].
  destruct (process_one _ _ _ _ _ _ _ _ _ st2) as [st2' r2].
  simpl in *. subst r1 r2. by apply IH.
Qed.

(** X28: for pairwise distinct identifiers and no callback, processing
    everything in memory with [process_all] and saving the results with
    [save_all] returns the same list of paths and leaves the same output
    directory as [process_and_save] without resume. *)
Theorem save_all_process_all
    (files : gmap string FileContent) (by_sections compress : bool)
    (document_ids_arg : option (list string)) :
  NoDup (requested_ids document_ids document_ids_arg) ->
  let results :=
    (process_all document_ids process_bioc_by_sections convert_bioc_to_odinson
       by_sections None document_ids_arg).1 in
  let saved := save_all can_write truncates files results compress in
  let incremental :=
    process_and_save document_ids process_bioc_by_sections convert_bioc_to_odinson
      can_write truncates files by_sections false compress None document_ids_arg in
  saved.2 = incremental.2 /\ fs saved.1 = fs incremental.1.
Proof.
  intros Hnodup results saved incremental. subst results saved incremental.
  rewrite (process_all_results by_sections None None) by done.
  rewrite first_occurrences_NoDup by done.
  assert (exists st_s st_p r,
            save_all can_write truncates files
              ((fun d => (d, entry_of' by_sections None d))
               <$> requested_ids document_ids document_ids_arg) compress
            = (st_s, r) /\
            process_and_save document_ids process_bioc_by_sections
              convert_bioc_to_odinson can_write truncates files by_sections false compress
              None document_ids_arg
            = (st_p, r) /\
            fs st_s = fs st_p) as (st_s & st_p & r & -> & -> & Hfs); [|done].
  unfold save_all, save_all_body, process_and_save, process_and_save_body.
  unfold ids_to_process.
  set (st0 := {| fs := files; saved_files := []; processed_count := 0;
                 failed_count := 0; calls := [] |}).
  destruct (requested_ids document_ids document_ids_arg) as [|d ids] eqn:Hreq.
  { by eexists _, _, _. }
  unfold bind at 1. unfold bind at 3. unfold get at 2. unfold bind at 3.
  destruct (for_each_save_entry_process_one by_sections (Py.len (d :: ids))
              (d :: ids) 1 st0 st0 (same_output_refl _)) as (Hs & R1 & R2).
  destruct (for_each _ (save_entry can_write truncates) st0) as [st1 r1].
  destruct (for_each _ (process_one _ _ _ _ _ _ _ _) st0) as [st2 r2].
  simpl in Hs, R1, R2. subst r1 r2.
  unfold bind at 1. unfold bind at 2.
  destruct (create_archive_same_output compress st1 st2 Hs) as ([Hfs Hsaved] & A1 & A2).
  destruct (create_archive can_write truncates compress st1) as [st1' r1].
  destruct (create_archive can_write truncates compress st2) as [st2' r2].
  simpl in *. subst r1 r2. unfold bind, get, ret. simpl.
  eexists _, _, _. split; [done|]. split; [by rewrite Hsaved|done].
Qed.
End InMemoryProofs.

Section InMemoryWitnesses.
Import Processor InMemory InMemorySpec Examples.
Local Open Scope string_scope.

Lemma process_all_entries_witness :
  (process_all collection first_fails no_combined true (Some rejecting)
     (Some ["67890"; "12345"; "67890"])).1
  = [("67890", failed_entry "67890" (OtherError "stop"));
     ("12345", failed_entry "12345" (OtherError "Processing failed"))].
Proof.
  apply (process_all_entries collection first_fails no_combined true
           (Some rejecting) (Some (OtherError "stop"))
           (Some ["67890"; "12345"; "67890"])).
  intros before c. reflexivity.
Defined.

Lemma save_all_process_all_witness :
  let results := (process_all collection first_fails no_combined true None None).1 in
  (save_all always_writable never_truncates ∅ results true).2
  = (process_and_save collection first_fails no_combined always_writable never_truncates
       ∅ true false true None None).2 /\
  fs (save_all always_writable never_truncates ∅ results true).1
  = fs (process_and_save collection first_fails no_combined always_writable never_truncates
          ∅ true false true None None).1.
Proof.
  apply (save_all_process_all collection first_fails no_combined always_writable
           never_truncates
           ∅ true true None).
  simpl. repeat constructor; intros Hin;
    repeat (apply elem_of_cons in Hin as [Hin|Hin]; [discriminate Hin|]);
    by apply elem_of_nil in Hin.
Defined.
End InMemoryWitnesses.

(** ** The archive of [process_and_save] *)

Section ArchiveContents.
Import Processor.
Variable document_ids : list string.
Variable process_bioc_by_sections : string -> Exception + list (string * OdinsonDoc).
Variable convert_bioc_to_odinson : string -> Exception + OdinsonDoc.
Variable can_write : string -> bool.
Variable truncates : string -> bool.
Variable by_sections : bool.
Variable on_progress : option Callback.
Hypothesis callback_returns :
  forall callback, on_progress = Some callback ->
  forall before c, callback before c = None.

Local Abbreviation document_files' :=
  (document_files document_ids process_bioc_by_sections convert_bioc_to_odinson
     can_write by_sections).

Lemma has_json_suffix_section_filename (doc_id section_name : string) :
  has_json_suffix (section_filename doc_id section_name) = true.
Proof.
  unfold has_json_suffix, section_filename. apply andb_true_iff. split.
  - rewrite !list_ascii_of_string_append, !app_assoc. apply endswith_app.
  - apply negb_true_iff, bool_decide_eq_false. intros Heq.
    apply (f_equal list_ascii_of_string) in Heq.
    rewrite !list_ascii_of_string_append in Heq.
    apply (f_equal length) in Heq. rewrite !length_app in Heq. simpl in Heq. lia.
Qed.

Lemma saved_path_json doc_id (sec : string * OdinsonDoc) f :
  saved_path can_write doc_id sec = Some f -> has_json_suffix f = true.
Proof.
  unfold saved_path. destruct (od_json sec.2); [|done].
  destruct (can_write _); [|done]. intros [= <-].
  apply has_json_suffix_section_filename.
Qed.

Lemma document_files_json doc_id f :
  f ∈ document_files' doc_id -> has_json_suffix f = true.
Proof.
  unfold document_files, result_files.
  destruct (process _ _ _ doc_id by_sections) as [e|result].
  { intros Hf. by apply elem_of_nil in Hf. }
  assert (forall secs : list (string * OdinsonDoc),
            f ∈ omap (saved_path can_write doc_id) secs ->
                       has_json_suffix f = true) as Homap.
  { intros secs Hf. apply list_elem_of_omap in Hf as (sec & _ & Hsec).
    by eapply saved_path_json. }
  destruct (sections result) as [[|s rest]|]; [|apply Homap|].
  all: destruct (combined result) as [od|]; [apply Homap|].
  all: intros Hf; by apply elem_of_nil in Hf.
Qed.

Lemma filter_all {A} (P : A -> Prop) `{!forall x, Decision (P x)} (l : list A) :
  (forall x, x ∈ l -> P x) -> filter P l = l.
Proof.
  induction l as [|x l IH]; intros Hall; [done|].
  rewrite filter_cons, decide_True by (apply Hall; by left).
  rewrite IH; [done|]. intros y Hy. apply Hall. by right.
Qed.

(** X29: when [process_and_save], with a callback that returns, is asked
    to compress, the archive can be written and the run has saved at least
    one file, the archive is the last path returned, and its members are
    exactly the files that this run has saved, in the order of saving:
    every saved path carries the suffix .json, so the filter of
    [_create_archive] leaves none out. *)
Theorem process_and_save_archive
    (files : gmap string FileContent) (resume : bool)
    (document_ids_arg : option (list string)) :
  let ids := ids_to_process document_ids resume document_ids_arg files in
  let saved := ids ≫= document_files' in
  let run :=
    process_and_save document_ids process_bioc_by_sections convert_bioc_to_odinson
      can_write truncates files by_sections resume true on_progress document_ids_arg in
  saved <> [] ->
  can_write archive_name = true ->
  run.2 = inr (saved ++ [archive_name]) /\
  fs run.1 !! archive_name = Some (Archive saved).
Proof.
  intros ids saved run Hsaved Hwrite. subst run.
  assert (exists st',
            process_and_save document_ids process_bioc_by_sections
              convert_bioc_to_odinson can_write truncates files by_sections resume true
              on_progress document_ids_arg
            = (st', inr (saved ++ [archive_name])) /\
            fs st' !! archive_name = Some (Archive saved))
    as (st' & -> & Hfs); [|done].
  unfold process_and_save, process_and_save_body.
  set (st0 := {| fs := files; saved_files := []; processed_count := 0;
                 failed_count := 0; calls := [] |}).
  destruct (requested_ids document_ids document_ids_arg) as [|d0 l0] eqn:Hreq.
  { exfalso. apply Hsaved. subst saved ids. unfold ids_to_process.
    rewrite Hreq. by destruct resume. }
  unfold get at 1. unfold bind at 1. cbn [fs st0]. fold ids.
  destruct (for_each_process_one_spec document_ids process_bioc_by_sections
              convert_bioc_to_odinson can_write truncates by_sections on_progress
              callback_returns (Py.len ids) ids 1 st0)
    as (st1 & Hrun & H1 & _).
  unfold bind at 1. rewrite Hrun. simpl in H1. fold saved in H1.
  unfold create_archive, get. unfold bind at 1. unfold bind at 1.
  rewrite H1. destruct saved as [|f l] eqn:Hs; [done|].
  rewrite Hwrite. simpl andb. cbv iota.
  unfold bind, modify, ret. simpl. rewrite H1.
  eexists. split; [done|]. simpl. rewrite lookup_insert_eq. do 2 f_equal.
  apply filter_all. intros x Hx. rewrite <- Hs in Hx.
  apply list_elem_of_bind in Hx as (d & Hx & _). by eapply document_files_json.
Qed.
End ArchiveContents.

Section ArchiveWitness.
Import Processor Examples.
Local Open Scope string_scope.

Lemma process_and_save_archive_witness :
  (process_and_save collection first_fails no_combined always_writable never_truncates
     ∅ true true true (Some quiet) None).2
  = inr ["67890_title.json"; "11111_abstract.json"; archive_name] /\
  fs (process_and_save collection first_fails no_combined always_writable never_truncates
        ∅ true true true (Some quiet) None).1 !! archive_name
  = Some (Archive ["67890_title.json"; "11111_abstract.json"]).
Proof.
  assert (ids_to_process collection true None ∅
          ≫= document_files collection first_fails no_combined always_writable true
          = ["67890_title.json"; "11111_abstract.json"]) as Hsaved
    by (vm_compute; reflexivity).
  change ["67890_title.json"; "11111_abstract.json"; archive_name]
    with (["67890_title.json"; "11111_abstract.json"] ++ [archive_name])%list.
  rewrite <- Hsaved.
  apply (process_and_save_archive collection first_fails no_combined
           always_writable never_truncates true (Some quiet)
           (fun callback Hc before c =>
              match Hc in _ = o
                    return match o with Some cb => cb before c = None | None => True end
              with eq_refl => eq_refl end)
           ∅ true None).
  - rewrite Hsaved. discriminate.
  - reflexivity.
Defined.
End ArchiveWitness.

(** ** Section names in file names (utils.py, [sanitize_section_name]) *)

Section SanitizeSectionName.
Import Processor UtilsMore.
Implicit Types (s t : list ascii) (c : ascii).

Lemma alnum_not_underscore c : alnum_char c = true -> c <> "_"%char.
Proof. intros Hc ->. by vm_compute in Hc. Qed.

Lemma sub_non_alnum_chars b s :
  Forall (fun c => alnum_char c = true \/ c = "_"%char) (sub_non_alnum b s).
Proof.
  revert b. induction s as [|x s IH]; intros b; simpl; [constructor|].
  destruct (alnum_char x) eqn:Hx; [constructor; [by left|apply IH]|].
  destruct b; [apply IH|]. constructor; [by right|apply IH].
Qed.

Lemma sub_non_alnum_head s : head (sub_non_alnum true s) <> Some "_"%char.
Proof.
  induction s as [|x s IH]; simpl; [done|].
  destruct (alnum_char x) eqn:Hx; [|done]. simpl.
  intros [= ->]. by vm_compute in Hx.
Qed.

Lemma sub_non_alnum_single b s : single_underscores (sub_non_alnum b s).
Proof.
  intros l1. revert b l1. induction s as [|x s IH]; intros b l1 l2; simpl.
  { by destruct l1. }
  destruct (alnum_char x) eqn:Hx.
  - destruct l1 as [|y l1]; simpl.
    + intros Heq. injection Heq as Hx' _. subst x. by vm_compute in Hx.
    + intros Heq. injection Heq as _ Heq. by eapply IH.
  - destruct b; [apply IH|].
    destruct l1 as [|y l1]; simpl.
    + intros Heq. injection Heq as Heq. eapply (sub_non_alnum_head s). by rewrite Heq.
    + intros Heq. injection Heq as _ Heq. by eapply IH.
Qed.

Lemma single_underscores_tail c s : single_underscores (c :: s) -> single_underscores s.
Proof. intros Hs l1 l2 ->. by apply (Hs (c :: l1) l2). Qed.

Lemma sub_non_alnum_id b s :
  Forall (fun c => alnum_char c = true \/ c = "_"%char) s ->
  single_underscores s ->
  (b = true -> head s <> Some "_"%char) ->
  sub_non_alnum b s = s.
Proof.
  intros Hchars. revert b. induction Hchars as [|c s Hc Hs IH]; intros b Hsingle Hb.
  { done. }
  simpl. destruct (alnum_char c) eqn:Hal.
  - rewrite IH; [done|by eapply single_underscores_tail|done].
  - destruct Hc as [Hc | ->]; [congruence|].
    destruct b; [by destruct Hb|].
    rewrite IH; [done|by eapply single_underscores_tail|].
    intros _ Hhead. destruct s as [|y s]; [done|]. injection Hhead as ->.
    by apply (Hsingle [] s).
Qed.

Lemma lstrip_underscores_suffix s :
  exists n, s = replicate n "_"%char ++ lstrip_underscores s.
Proof.
  induction s as [|c s [n IH]]; [by exists 0%nat|]. simpl.
  case_bool_decide as Hc; [|by exists 0%nat].
  subst c. exists (S n). simpl. by rewrite <- IH.
Qed.

Lemma strip_underscores_infix s :
  exists n m,
    s = replicate n "_"%char ++ strip_underscores s ++ replicate m "_"%char.
Proof.
  unfold strip_underscores.
  destruct (lstrip_underscores_suffix s) as [n Hn].
  destruct (lstrip_underscores_suffix (reverse (lstrip_underscores s))) as [m Hm].
  exists n, m. rewrite Hn at 1. f_equal.
  rewrite <- (reverse_involutive (lstrip_underscores s)) at 1.
  rewrite Hm at 1. by rewrite reverse_app, reverse_replicate.
Qed.

Lemma strip_underscores_ends s :
  head (strip_underscores s) <> Some "_"%char /\
  last (strip_underscores s) <> Some "_"%char.
Proof.
  unfold strip_underscores. split.
  - rewrite head_reverse.
    destruct (lstrip_underscores (reverse (lstrip_underscores s))) as [|c t] eqn:Ht.
    { done. }
    rewrite <- Ht, lstrip_underscores_last by (by rewrite Ht).
    rewrite last_reverse. apply lstrip_underscores_head.
  - rewrite last_reverse. apply lstrip_underscores_head.
Qed.

Lemma strip_underscores_clean_section s :
  Forall (fun c => alnum_char c = true \/ c = "_"%char) s ->
  single_underscores s ->
  strip_underscores s <> [] -> clean_section (strip_underscores s).
Proof.
  intros Hchars Hsingle Hne.
  destruct (strip_underscores_infix s) as (n & m & Hs).
  destruct (strip_underscores_ends s) as [Hh Hl].
  split; [done|]. split; [|split; [done|split; [done|]]].
  - rewrite Hs in Hchars. by apply Forall_app in Hchars as [_ [? _]%Forall_app].
  - intros l1 l2 Heq. apply (Hsingle (replicate n "_"%char ++ l1)
                               (l2 ++ replicate m "_"%char)).
    rewrite Hs at 1. rewrite Heq. by rewrite <- !app_assoc.
Qed.

Lemma single_underscores_without s : "_"%char ∉ s -> single_underscores s.
Proof.
  intros Hnot l1 l2 ->. apply Hnot. apply elem_of_app. right. by left.
Qed.

(** X30: the result of [sanitize_section_name] is never empty, consists of
    characters of [a-z0-9] and underscores, neither starts nor ends with
    an underscore, and has no two underscores in a row; the function is
    idempotent, and it leaves exactly such names unchanged. *)
Theorem sanitize_section_name_clean (section_name : string) :
  clean_section (list_ascii_of_string (sanitize_section_name section_name)) /\
  sanitize_section_name (sanitize_section_name section_name)
  = sanitize_section_name section_name /\
  (sanitize_section_name section_name = section_name
   <-> clean_section (list_ascii_of_string section_name)).
Proof.
  assert (forall name, clean_section (list_ascii_of_string (sanitize_section_name name)))
    as Hclean.
  { intros name. unfold sanitize_section_name. case_bool_decide as Hempty.
    - split; [done|]. split; [|split; [done|split; [done|]]].
      + repeat constructor.
      + apply single_underscores_without. intros Hin.
        repeat (apply elem_of_cons in Hin as [Hin|Hin]; [discriminate Hin|]).
        by apply elem_of_nil in Hin.
    - rewrite list_ascii_of_string_of_list_ascii.
      apply strip_underscores_clean_section.
      + apply sub_non_alnum_chars.
      + apply sub_non_alnum_single.
      + intros Hnil. apply Hempty. by rewrite Hnil. }
  assert (forall name, clean_section (list_ascii_of_string name) ->
                       sanitize_section_name name = name) as Hfixed.
  { intros name (Hne & Hchars & Hh & Hl & Hsingle). unfold sanitize_section_name.
    rewrite lower_safe.
    2:{ eapply Forall_impl; [exact Hchars|]. intros c [Hc | ->]; [|done].
        unfold safe_char. unfold alnum_char in Hc. by rewrite Hc. }
    rewrite sub_non_alnum_id, strip_underscores_id by done.
    rewrite string_of_list_ascii_of_string.
    rewrite bool_decide_eq_false_2; [done|]. intros ->. by apply Hne. }
  split; [apply Hclean|]. split; [apply Hfixed, Hclean|].
  split; [|apply Hfixed]. intros Heq. rewrite <- Heq. apply Hclean.
Qed.
End SanitizeSectionName.
